(** * Reconciliation engine of the RabbitMQ Broker and Trigger controllers

    A shallow embedding of the reconcilers of
    [pkg/reconciler/trigger/trigger.go], [pkg/reconciler/broker/broker.go],
    [pkg/reconciler/brokerstandalone/broker.go] and of the desired-state
    builders of [pkg/reconciler/trigger/resources/binding.go] and
    [pkg/reconciler/broker/resources/exchange.go], with the properties of
    the reconciliation pipeline stated over it.

    Go's [(value, error)] results are sums, objects are records, string
    maps are [gmap string string], and every call that leaves the process
    (lister reads, client writes, driver calls, address resolution, logging)
    is recorded in a trace of events whose answers come from a [World]. *)

From stdpp Require Import base option list gmap strings sorting.
From Stdlib Require Import ZArith Lia.

Local Open Scope string_scope.
Local Open Scope list_scope.
Local Open Scope Z_scope.

(** ** Errors and results *)

(** A Go [error] value as the reconcilers observe it: its text and whether
    [apierrs.IsNotFound] holds of it. *)
Record error := Error { IsNotFound : bool; errMsg : string }.

#[global] Instance error_eq_dec : EqDecision error.
Proof. solve_decision. Defined.

(** [fmt.Errorf(prefix + "%v", err)]: a fresh error, never a not-found one. *)
Definition Errorf (pre : string) (e : error) : error :=
  Error false (pre +:+ errMsg e).

(** [errors.New] / [fmt.Errorf] without arguments. *)
Definition errorsNew (msg : string) : error := Error false msg.

(** A Go pair [(v, err)]: the clients and listers used here give a non-nil
    value exactly when the error is nil. *)
Inductive result (A : Type) : Type :=
  | Ok (a : A)
  | Err (e : error).
Arguments Ok {A} a.
Arguments Err {A} e.

(** ** Conditions of the topology objects and the readiness evaluator *)

Definition ConditionStatus := string.
Definition ConditionTrue : ConditionStatus := "True".
Definition ConditionFalse : ConditionStatus := "False".
Definition ConditionUnknown : ConditionStatus := "Unknown".

(** [v1beta1.Condition] of the messaging-topology operator; the transition
    time is not represented. *)
Record Condition := mkCondition {
  condType : string;
  condStatus : ConditionStatus;
  condReason : string;
  condMessage : string
}.

#[global] Instance Condition_eq_dec : EqDecision Condition.
Proof. solve_decision. Defined.

(** [isReady], trigger.go 496-508 and broker.go (same text): the counter
    starts at [len(conditions)] and loses one for every condition whose
    status is [True]. *)
Definition isReady_loop (conditions : list Condition) (numConditions : Z) : Z :=
  fold_left
    (fun n c => if bool_decide (condStatus c = ConditionTrue) then n - 1 else n)
    conditions numConditions.

Definition isReady (conditions : list Condition) : bool :=
  let numConditions := Z.of_nat (length conditions) in
  if numConditions =? 0 then false
  else isReady_loop conditions numConditions =? 0.

(** Number of conditions with status [True], as the loop counts them. *)
Definition numTrue (cs : list Condition) : Z :=
  Z.of_nat (length (filter (fun c => condStatus c = ConditionTrue) cs)).

(** ** Kubernetes objects *)

Definition URL := string.

(** [duckv1.KReference]. *)
Record KReference := mkKReference {
  refKind : string;
  refNamespace : string;
  refName : string;
  refAPIVersion : string
}.

#[global] Instance KReference_eq_dec : EqDecision KReference.
Proof. solve_decision. Defined.

(** [duckv1.Destination]. *)
Record Destination := mkDestination {
  destRef : option KReference;
  destURI : option URL
}.

#[global] Instance Destination_eq_dec : EqDecision Destination.
Proof. solve_decision. Defined.

(** [eventingduckv1.DeliverySpec]; only the dead-letter sink is inspected by
    the reconcilers, the retry policy is handed on to the dispatcher. *)
Record DeliverySpec := mkDeliverySpec {
  DeadLetterSink : option Destination;
  Retry : option Z;
  BackoffPolicy : option string;
  BackoffDelay : option string
}.

Record OwnerReference := mkOwnerReference {
  orAPIVersion : string;
  orKind : string;
  orName : string;
  orUID : string;
  orController : bool;
  orBlockOwnerDeletion : bool
}.

Record ObjectMeta := mkObjectMeta {
  Namespace : string;
  Name : string;
  UID : string;
  Generation : Z;
  Labels : gmap string string;
  Annotations : gmap string string;
  OwnerReferences : list OwnerReference
}.

(** A Go map read [m[k]]: the zero value when the key is absent. *)
Definition mapIndex (m : gmap string string) (k : string) : string :=
  default "" (m !! k).

(** [apis.Condition] of knative.dev/pkg without its type and transition
    time. The condition manager keeps the [Conditions] slice of a status
    sorted by type with one entry per type ([SetCondition] drops the entries
    of the type it sets and sorts the slice), so a condition slice is the
    finite map from condition type to the rest of the condition. *)
Record KCondition := mkKCondition {
  kStatus : ConditionStatus;
  kSeverity : string;
  kReason : string;
  kMessage : string
}.

#[global] Instance KCondition_eq_dec : EqDecision KCondition.
Proof. solve_decision. Defined.

Record BrokerSpec := mkBrokerSpec {
  Config : option KReference;
  brokerDelivery : option DeliverySpec
}.

Record BrokerStatus := mkBrokerStatus {
  brokerObservedGeneration : Z;
  brokerConditions : gmap string KCondition;
  brokerAddress : option URL
}.

Record Broker := mkBroker {
  brokerMeta : ObjectMeta;
  brokerSpec : BrokerSpec;
  brokerStatus : BrokerStatus
}.

Record TriggerSpec := mkTriggerSpec {
  specBroker : string;
  (** [Filter] and its [Attributes]: [None] when either pointer or map is nil. *)
  filterAttributes : option (gmap string string);
  Subscriber : Destination;
  triggerDelivery : option DeliverySpec
}.

Record TriggerStatus := mkTriggerStatus {
  triggerObservedGeneration : Z;
  triggerConditions : gmap string KCondition;
  SubscriberURI : option URL;
  DeadLetterSinkURI : option URL
}.

Record Trigger := mkTrigger {
  triggerMeta : ObjectMeta;
  triggerSpec : TriggerSpec;
  triggerStatus : TriggerStatus
}.

(** [duckv1.Source], the duck type a dependency is read as. *)
Record Source := mkSource {
  sourceMeta : ObjectMeta;
  sourceObservedGeneration : Z;
  sourceConditions : gmap string KCondition
}.

(** [corev1.ObjectReference] of a dependency annotation. *)
Record ObjectReference := mkObjectReference {
  objKind : string;
  objNamespace : string;
  objName : string;
  objAPIVersion : string
}.

#[global] Instance ObjectReference_eq_dec : EqDecision ObjectReference.
Proof. solve_decision. Defined.

(** *** Topology objects of the messaging-topology operator (v1beta1) *)

Record RabbitmqClusterReference := mkClusterRef { clusterName : string }.

Record TopologyStatus := mkTopologyStatus {
  Conditions : list Condition;
  topologyObservedGeneration : Z
}.

Record ExchangeSpec := mkExchangeSpec {
  exName : string;
  exVhost : string;
  exType : string;
  exDurable : bool;
  exAutoDelete : bool;
  (** [*runtime.RawExtension]: the raw JSON bytes when the pointer is set. *)
  exArguments : option string;
  exClusterRef : RabbitmqClusterReference
}.

Record Exchange := mkExchange {
  exchangeMeta : ObjectMeta;
  exchangeSpec : ExchangeSpec;
  exchangeStatus : TopologyStatus
}.

Record QueueSpec := mkQueueSpec {
  quName : string;
  quVhost : string;
  quType : string;
  quDurable : bool;
  quAutoDelete : bool;
  quArguments : option string;
  quClusterRef : RabbitmqClusterReference
}.

Record Queue := mkQueue {
  queueMeta : ObjectMeta;
  queueSpec : QueueSpec;
  queueStatus : TopologyStatus
}.

Record BindingSpec := mkBindingSpec {
  biVhost : string;
  biSource : string;
  biDestination : string;
  biDestinationType : string;
  biRoutingKey : string;
  biArguments : option string;
  biClusterRef : RabbitmqClusterReference
}.

Record Binding := mkBinding {
  bindingMeta : ObjectMeta;
  bindingSpec : BindingSpec;
  bindingStatus : TopologyStatus
}.

(** *** Compute objects; the pod template is kept to the fields the
    dispatcher and ingress builders set. *)

Record Container := mkContainer {
  containerName : string;
  containerImage : string;
  containerEnv : list (string * string)
}.

Record PodTemplateSpec := mkPodTemplateSpec {
  templateLabels : gmap string string;
  templateServiceAccountName : string;
  templateContainers : list Container
}.

Record DeploymentSpec := mkDeploymentSpec {
  Replicas : option Z;
  selectorLabels : gmap string string;
  Template : PodTemplateSpec
}.

Record Deployment := mkDeployment {
  deploymentMeta : ObjectMeta;
  deploymentSpec : DeploymentSpec
}.

Record Secret := mkSecret {
  secretMeta : ObjectMeta;
  StringData : gmap string string
}.

Record ServiceSpec := mkServiceSpec {
  ClusterIP : string;
  serviceSelector : gmap string string;
  servicePorts : list (string * Z)
}.

Record Service := mkService {
  serviceMeta : ObjectMeta;
  serviceSpec : ServiceSpec
}.

Record Endpoints := mkEndpoints {
  endpointsMeta : ObjectMeta;
  endpointsAddresses : list string
}.

(** ** Partial-match comparison: [equality.Semantic.DeepDerivative]

    The walk of k8s.io/apimachinery's [deepValueDerive] over the types
    above: an empty string, a nil pointer, an empty slice and an empty map
    of the first argument are unset and match anything; booleans and
    numbers are compared with [==]; structs field by field; a slice against
    the leading elements of the other; a map key by key. *)
Class DeepDerivative (A : Type) := derive : A -> A -> bool.
#[global] Hint Mode DeepDerivative ! : typeclass_instances.

#[global] Instance derive_string : DeepDerivative string := fun a1 a2 =>
  if bool_decide (a1 = "") then true else bool_decide (a1 = a2).

#[global] Instance derive_bool : DeepDerivative bool := fun a1 a2 =>
  bool_decide (a1 = a2).

#[global] Instance derive_Z : DeepDerivative Z := fun a1 a2 => bool_decide (a1 = a2).

#[global] Instance derive_option {A} `{DeepDerivative A} : DeepDerivative (option A) :=
  fun a1 a2 =>
    match a1, a2 with
    | None, _ => true
    | Some x1, Some x2 => derive x1 x2
    | Some _, None => false
    end.

Fixpoint derive_elements {A} `{DeepDerivative A} (l1 l2 : list A) : bool :=
  match l1, l2 with
  | [], _ => true
  | x1 :: l1', x2 :: l2' => derive x1 x2 && derive_elements l1' l2'
  | _ :: _, [] => false
  end.

#[global] Instance derive_list {A} `{DeepDerivative A} : DeepDerivative (list A) :=
  fun l1 l2 =>
    if bool_decide (length l1 = 0%nat) then true
    else if bool_decide (length l2 < length l1)%nat then false
    else derive_elements l1 l2.

#[global] Instance derive_pair {A B} `{DeepDerivative A} `{DeepDerivative B} :
  DeepDerivative (A * B) := fun p1 p2 =>
  derive (fst p1) (fst p2) && derive (snd p1) (snd p2).

#[global] Instance derive_map {A} `{DeepDerivative A} : DeepDerivative (gmap string A) :=
  fun m1 m2 =>
    if bool_decide (size m1 = 0%nat) then true
    else if bool_decide (size m2 < size m1)%nat then false
    else map_fold (fun k v1 acc =>
                     acc && match m2 !! k with
                            | Some v2 => derive v1 v2
                            | None => false
                            end) true m1.

(** A byte slice (the [Raw] field of a [runtime.RawExtension]). *)
Definition derive_bytes (a1 a2 : string) : bool :=
  if bool_decide (String.length a1 = 0%nat) then true
  else if bool_decide (String.length a2 < String.length a1)%nat then false
  else String.prefix a1 a2.

Definition derive_raw (a1 a2 : option string) : bool :=
  match a1, a2 with
  | None, _ => true
  | Some r1, Some r2 => derive_bytes r1 r2
  | Some _, None => false
  end.

#[global] Instance derive_clusterRef : DeepDerivative RabbitmqClusterReference :=
  fun a1 a2 => derive (clusterName a1) (clusterName a2).

#[global] Instance derive_ExchangeSpec : DeepDerivative ExchangeSpec := fun a1 a2 =>
  derive (exName a1) (exName a2) && derive (exVhost a1) (exVhost a2)
  && derive (exType a1) (exType a2) && derive (exDurable a1) (exDurable a2)
  && derive (exAutoDelete a1) (exAutoDelete a2)
  && derive_raw (exArguments a1) (exArguments a2)
  && derive (exClusterRef a1) (exClusterRef a2).

#[global] Instance derive_QueueSpec : DeepDerivative QueueSpec := fun a1 a2 =>
  derive (quName a1) (quName a2) && derive (quVhost a1) (quVhost a2)
  && derive (quType a1) (quType a2) && derive (quDurable a1) (quDurable a2)
  && derive (quAutoDelete a1) (quAutoDelete a2)
  && derive_raw (quArguments a1) (quArguments a2)
  && derive (quClusterRef a1) (quClusterRef a2).

#[global] Instance derive_BindingSpec : DeepDerivative BindingSpec := fun a1 a2 =>
  derive (biVhost a1) (biVhost a2) && derive (biSource a1) (biSource a2)
  && derive (biDestination a1) (biDestination a2)
  && derive (biDestinationType a1) (biDestinationType a2)
  && derive (biRoutingKey a1) (biRoutingKey a2)
  && derive_raw (biArguments a1) (biArguments a2)
  && derive (biClusterRef a1) (biClusterRef a2).

#[global] Instance derive_Container : DeepDerivative Container := fun a1 a2 =>
  derive (containerName a1) (containerName a2)
  && derive (containerImage a1) (containerImage a2)
  && derive (containerEnv a1) (containerEnv a2).

#[global] Instance derive_PodTemplateSpec : DeepDerivative PodTemplateSpec := fun a1 a2 =>
  derive (templateLabels a1) (templateLabels a2)
  && derive (templateServiceAccountName a1) (templateServiceAccountName a2)
  && derive (templateContainers a1) (templateContainers a2).

#[global] Instance derive_DeploymentSpec : DeepDerivative DeploymentSpec := fun a1 a2 =>
  derive (Replicas a1) (Replicas a2)
  && derive (selectorLabels a1) (selectorLabels a2)
  && derive (Template a1) (Template a2).

#[global] Instance derive_ServiceSpec : DeepDerivative ServiceSpec := fun a1 a2 =>
  derive (ClusterIP a1) (ClusterIP a2)
  && derive (serviceSelector a1) (serviceSelector a2)
  && derive (servicePorts a1) (servicePorts a2).

(** ** The condition manager of knative.dev/pkg/apis (condition_set.go) *)

Record ConditionSet := mkConditionSet {
  happy : string;
  dependents : list string
}.

Definition ConditionReady : string := "Ready".
Definition ConditionSeverityError : string := "".
Definition ConditionSeverityInfo : string := "Info".

(** [newConditionSet]: the dependents without the happy type and without
    repetitions, in the order given. *)
Definition newConditionSet (happy : string) (deps : list string) : ConditionSet :=
  mkConditionSet happy
    (fold_left (fun acc d =>
                  if bool_decide (d = happy) || bool_decide (d ∈ acc) then acc
                  else acc ++ [d]) deps []).

Definition NewLivingConditionSet (deps : list string) : ConditionSet :=
  newConditionSet ConditionReady deps.

Module Manager.
Section Manager.
Variable cset : ConditionSet.

Definition GetCondition (cs : gmap string KCondition) (t : string) : option KCondition :=
    cs !! t.

Definition SetCondition (cs : gmap string KCondition) (t : string) (c : KCondition)
    : gmap string KCondition := <[t := c]> cs.

Definition isTerminal (t : string) : bool :=
    bool_decide (t ∈ dependents cset) || bool_decide (t = happy cset).

Definition severity (t : string) : string :=
    if isTerminal t then ConditionSeverityError else ConditionSeverityInfo.

Definition IsHappy (cs : gmap string KCondition) : bool :=
    match GetCondition cs (happy cset) with
    | Some c => bool_decide (kStatus c = ConditionTrue)
    | None => false
    end.

  (** [InitializeConditions]: the happy condition and every dependent that
      is not set yet are created, Unknown unless the happy one is True. *)
Definition InitializeConditions (cs : gmap string KCondition) : gmap string KCondition :=
    let '(h, cs1) :=
      match GetCondition cs (happy cset) with
      | Some h => (h, cs)
      | None =>
          let h := mkKCondition ConditionUnknown ConditionSeverityError "" "" in
          (h, SetCondition cs (happy cset) h)
      end in
    let status :=
      if bool_decide (kStatus h = ConditionTrue) then ConditionTrue else ConditionUnknown in
    fold_left (fun acc t =>
                 match GetCondition acc t with
                 | Some _ => acc
                 | None => SetCondition acc t (mkKCondition status ConditionSeverityError "" "")
                 end) (dependents cset) cs1.

  (** [findUnhappyDependent]: among the set conditions of error severity
      other than the happy one, a False one, else an Unknown one, else an
      anonymous Unknown when some dependent is not set. Go takes the one
      whose status changed last; transition times are not represented and
      the first in the order of the dependents is taken, which shows only in
      the reason and message copied to the happy condition. *)
Definition terminalConditions (cs : gmap string KCondition) : list KCondition :=
    omap (fun t => match cs !! t with
                   | Some c => if bool_decide (kSeverity c = ConditionSeverityError) then Some c else None
                   | None => None
                   end) (dependents cset).

Definition findUnhappyDependent (cs : gmap string KCondition) : option KCondition :=
    if bool_decide (dependents cset = []) then None else
    let conditions := terminalConditions cs in
    match List.find (fun c => bool_decide (kStatus c = ConditionFalse)) conditions with
    | Some c => Some c
    | None =>
        match List.find (fun c => bool_decide (kStatus c = ConditionUnknown)) conditions with
        | Some c => Some c
        | None =>
            if bool_decide (length conditions < length (dependents cset))%nat
            then Some (mkKCondition ConditionUnknown "" "" "")
            else None
        end
    end.

Definition recomputeHappiness (cs : gmap string KCondition) (t : string)
    : gmap string KCondition :=
    match findUnhappyDependent cs with
    | Some c =>
        SetCondition cs (happy cset)
          (mkKCondition (kStatus c) (severity (happy cset)) (kReason c) (kMessage c))
    | None =>
        if bool_decide (t <> happy cset)
        then SetCondition cs (happy cset)
               (mkKCondition ConditionTrue (severity (happy cset)) "" "")
        else cs
    end.

Definition MarkTrue (cs : gmap string KCondition) (t : string) : gmap string KCondition :=
    recomputeHappiness (SetCondition cs t (mkKCondition ConditionTrue (severity t) "" "")) t.

Definition MarkTrueWithReason (cs : gmap string KCondition) (t reason message : string)
    : gmap string KCondition :=
    recomputeHappiness
      (SetCondition cs t (mkKCondition ConditionTrue (severity t) reason message)) t.

  (** [MarkFalse]: the condition, and the happy one when [t] is a dependent. *)
Definition MarkFalse (cs : gmap string KCondition) (t reason message : string)
    : gmap string KCondition :=
    let types := t :: (if bool_decide (t ∈ dependents cset) then [happy cset] else []) in
    fold_left (fun acc ty =>
                 SetCondition acc ty (mkKCondition ConditionFalse (severity ty) reason message))
              types cs.

  (** The loop of [MarkUnknown] over the dependents: [Some cs'] when it
      returned from inside (a False dependent was met), else whether [t]
      was seen among the dependents. A dependent that is not set has no
      status and is not False. *)
Fixpoint markUnknown_loop (cs : gmap string KCondition) (t reason message : string)
      (deps : list string) (isDependent : bool)
    : gmap string KCondition + bool :=
    match deps with
    | [] => inr isDependent
    | cond :: deps' =>
        let isFalse c := match c with
                         | Some c => bool_decide (kStatus c = ConditionFalse)
                         | None => false
                         end in
        if isFalse (GetCondition cs cond) then
          inl (if isFalse (GetCondition cs (happy cset)) then cs
               else MarkFalse cs (happy cset) reason message)
        else markUnknown_loop cs t reason message deps'
               (if bool_decide (cond = t) then true else isDependent)
    end.

Definition MarkUnknown (cs : gmap string KCondition) (t reason message : string)
    : gmap string KCondition :=
    let cs1 := SetCondition cs t (mkKCondition ConditionUnknown (severity t) reason message) in
    match markUnknown_loop cs1 t reason message (dependents cset) false with
    | inl cs2 => cs2
    | inr true =>
        SetCondition cs1 (happy cset)
          (mkKCondition ConditionUnknown (severity (happy cset)) reason message)
    | inr false => cs1
    end.

End Manager.
End Manager.

(** ** Message formatting *)

(** [fmt.Sprintf] for the formats used here: every verb ([%] and the
    character after it) is replaced by the next argument, which the caller
    has already rendered for that verb. *)
Fixpoint Sprintf (format : string) (args : list string) : string :=
  match format with
  | EmptyString => EmptyString
  | String c rest =>
      if bool_decide (c = Ascii.ascii_of_nat 37) then
        match rest with
        | String _ rest' =>
            match args with
            | a :: args' => a +:+ Sprintf rest' args'
            | [] => "%!(MISSING)" +:+ Sprintf rest' []
            end
        | EmptyString => "%!(NOVERB)"
        end
      else String c (Sprintf rest args)
  end.

Definition doubleQuote : string := String (Ascii.ascii_of_nat 34) EmptyString.

(** [%q], Go's [strconv.Quote]: the text between quotes, where the quote
    character and the backslash are escaped with a backslash, the control
    characters 7 to 13 are written \a \b \t \n \v \f \r, and every other
    byte below 32 and the byte 127 is written \x and two lower-case
    hexadecimal digits. A byte from 128 on is copied: that is what Go does
    for the bytes of a printable character in UTF-8, which is all the text
    that reaches these messages can hold besides ASCII (object names are
    ASCII). *)
Definition backslash : Ascii.ascii := Ascii.ascii_of_nat 92%nat.

Definition hexDigit (n : nat) : Ascii.ascii :=
  default (Ascii.ascii_of_nat 48%nat) (String.get n "0123456789abcdef").

Definition hexByte (n : nat) : string :=
  String (hexDigit (n / 16)%nat) (String (hexDigit (n mod 16)%nat) EmptyString).

Definition escapeByte (quote c : Ascii.ascii) : string :=
  let n := Ascii.nat_of_ascii c in
  if bool_decide (c = quote) || bool_decide (c = backslash) then
    String backslash (String c EmptyString)
  else if bool_decide (n = 7%nat) then String backslash "a"
  else if bool_decide (n = 8%nat) then String backslash "b"
  else if bool_decide (n = 9%nat) then String backslash "t"
  else if bool_decide (n = 10%nat) then String backslash "n"
  else if bool_decide (n = 11%nat) then String backslash "v"
  else if bool_decide (n = 12%nat) then String backslash "f"
  else if bool_decide (n = 13%nat) then String backslash "r"
  else if bool_decide (n < 32)%nat || bool_decide (n = 127%nat) then
    String backslash ("x" +:+ hexByte n)
  else String c EmptyString.

Fixpoint escapeBytes (quote : Ascii.ascii) (s : string) : string :=
  match s with
  | EmptyString => EmptyString
  | String c rest => escapeByte quote c +:+ escapeBytes quote rest
  end.

(** [%q] of a string. *)
Definition fmtQ (s : string) : string :=
  doubleQuote +:+ escapeBytes (Ascii.ascii_of_nat 34%nat) s +:+ doubleQuote.

(** [%q] of an integer, [strconv.QuoteRune]: the character of that code as
    a quoted literal, escaped like a byte of a string with the single quote
    for quote character. Exact for the codes 0 to 127; a larger code is
    written as its \u escape, which is what Go prints when the character is
    not printable. *)
Definition fmtQRune (z : Z) : string :=
  let n := Z.to_nat z in
  "'" +:+ (if bool_decide (n < 128)%nat then
             escapeByte (Ascii.ascii_of_nat 39%nat) (Ascii.ascii_of_nat n)
           else String backslash ("u" +:+ hexByte (n / 256 mod 256)%nat +:+ hexByte (n mod 256)%nat))
  +:+ "'".

(** ** Trigger status: knative.dev/eventing trigger_lifecycle.go *)

Definition TriggerConditionBroker : string := "BrokerReady".
Definition TriggerConditionSubscribed : string := "SubscriptionReady".
Definition TriggerConditionDependency : string := "DependencyReady".
Definition TriggerConditionSubscriberResolved : string := "SubscriberResolved".
Definition TriggerConditionDeadLetterSinkResolved : string := "DeadLetterSinkResolved".

Definition triggerCondSet : ConditionSet :=
  NewLivingConditionSet
    [TriggerConditionBroker; TriggerConditionSubscribed; TriggerConditionDependency;
     TriggerConditionSubscriberResolved; TriggerConditionDeadLetterSinkResolved].

Module TS.

Definition withConditions (ts : TriggerStatus) (cs : gmap string KCondition) : TriggerStatus :=
    mkTriggerStatus (triggerObservedGeneration ts) cs (SubscriberURI ts) (DeadLetterSinkURI ts).

Definition manage (f : gmap string KCondition -> gmap string KCondition)
      (ts : TriggerStatus) : TriggerStatus :=
    withConditions ts (f (triggerConditions ts)).

Definition GetCondition (ts : TriggerStatus) (t : string) : option KCondition :=
    Manager.GetCondition (triggerConditions ts) t.

Definition InitializeConditions : TriggerStatus -> TriggerStatus :=
    manage (Manager.InitializeConditions triggerCondSet).

Definition MarkBrokerFailed (reason message : string) : TriggerStatus -> TriggerStatus :=
    manage (fun cs => Manager.MarkFalse triggerCondSet cs TriggerConditionBroker reason message).

Definition MarkBrokerUnknown (reason message : string) : TriggerStatus -> TriggerStatus :=
    manage (fun cs => Manager.MarkUnknown triggerCondSet cs TriggerConditionBroker reason message).

Definition MarkBrokerNotConfigured : TriggerStatus -> TriggerStatus :=
    MarkBrokerUnknown "BrokerNotConfigured" "Broker has not yet been reconciled.".

Definition PropagateBrokerCondition (bc : option KCondition) : TriggerStatus -> TriggerStatus :=
    match bc with
    | None => MarkBrokerNotConfigured
    | Some bc =>
        if bool_decide (kStatus bc = ConditionUnknown) then
          MarkBrokerUnknown (kReason bc) (kMessage bc)
        else if bool_decide (kStatus bc = ConditionTrue) then
          manage (fun cs => Manager.MarkTrue triggerCondSet cs TriggerConditionBroker)
        else if bool_decide (kStatus bc = ConditionFalse) then
          MarkBrokerFailed (kReason bc) (kMessage bc)
        else
          MarkBrokerUnknown "BrokerUnknown"
            (Sprintf "The status of Broker is invalid: %v" [kStatus bc])
    end.

Definition MarkDependencySucceeded : TriggerStatus -> TriggerStatus :=
    manage (fun cs => Manager.MarkTrue triggerCondSet cs TriggerConditionDependency).

Definition MarkDependencyFailed (reason message : string) : TriggerStatus -> TriggerStatus :=
    manage (fun cs => Manager.MarkFalse triggerCondSet cs TriggerConditionDependency reason message).

Definition MarkDependencyUnknown (reason message : string) : TriggerStatus -> TriggerStatus :=
    manage (fun cs => Manager.MarkUnknown triggerCondSet cs TriggerConditionDependency reason message).

Definition MarkDependencyNotConfigured : TriggerStatus -> TriggerStatus :=
    MarkDependencyUnknown "DependencyNotConfigured" "Dependency has not yet been reconciled.".

Definition PropagateDependencyStatus (ks : Source) : TriggerStatus -> TriggerStatus :=
    match sourceConditions ks !! ConditionReady with
    | None => MarkDependencyNotConfigured
    | Some kc =>
        if bool_decide (kStatus kc = ConditionUnknown) then
          MarkDependencyUnknown (kReason kc) (kMessage kc)
        else if bool_decide (kStatus kc = ConditionTrue) then
          MarkDependencySucceeded
        else if bool_decide (kStatus kc = ConditionFalse) then
          MarkDependencyFailed (kReason kc) (kMessage kc)
        else
          MarkDependencyUnknown "DependencyUnknown"
            (Sprintf "The status of Dependency is invalid: %v" [kStatus kc])
    end.

Definition MarkSubscriberResolvedSucceeded : TriggerStatus -> TriggerStatus :=
    manage (fun cs => Manager.MarkTrue triggerCondSet cs TriggerConditionSubscriberResolved).

Definition MarkSubscriberResolvedFailed (reason message : string)
    : TriggerStatus -> TriggerStatus :=
    manage (fun cs =>
              Manager.MarkFalse triggerCondSet cs TriggerConditionSubscriberResolved reason message).

Definition MarkDeadLetterSinkResolvedSucceeded : TriggerStatus -> TriggerStatus :=
    manage (fun cs => Manager.MarkTrue triggerCondSet cs TriggerConditionDeadLetterSinkResolved).

Definition MarkDeadLetterSinkNotConfigured : TriggerStatus -> TriggerStatus :=
    manage (fun cs =>
              Manager.MarkTrueWithReason triggerCondSet cs TriggerConditionDeadLetterSinkResolved
                "DeadLetterSinkNotConfigured" "No dead letter sink is configured.").

Definition MarkDeadLetterSinkResolvedFailed (reason message : string)
    : TriggerStatus -> TriggerStatus :=
    manage (fun cs =>
              Manager.MarkFalse triggerCondSet cs TriggerConditionDeadLetterSinkResolved
                reason message).

Definition MarkSubscribedUnknown (reason message : string) : TriggerStatus -> TriggerStatus :=
    manage (fun cs => Manager.MarkUnknown triggerCondSet cs TriggerConditionSubscribed reason message).

Definition MarkNotSubscribed (reason message : string) : TriggerStatus -> TriggerStatus :=
    manage (fun cs => Manager.MarkFalse triggerCondSet cs TriggerConditionSubscribed reason message).

Definition PropagateSubscriptionCondition (sc : option KCondition)
    : TriggerStatus -> TriggerStatus :=
    match sc with
    | None =>
        MarkSubscribedUnknown "SubscriptionNotConfigured"
          "Subscription has not yet been reconciled."
    | Some sc =>
        if bool_decide (kStatus sc = ConditionUnknown) then
          MarkSubscribedUnknown (kReason sc) (kMessage sc)
        else if bool_decide (kStatus sc = ConditionTrue) then
          manage (fun cs => Manager.MarkTrue triggerCondSet cs TriggerConditionSubscribed)
        else if bool_decide (kStatus sc = ConditionFalse) then
          MarkNotSubscribed (kReason sc) (kMessage sc)
        else
          MarkSubscribedUnknown "SubscriptionUnknown"
            (Sprintf "The status of Subscription is invalid: %v" [kStatus sc])
    end.

End TS.

(** [Broker.IsReady] and [BrokerStatus.GetTopLevelCondition] of
    knative.dev/eventing: the Ready condition of the Broker, and whether it
    is True with the latest generation observed. *)
Definition brokerGetTopLevelCondition (bs : BrokerStatus) : option KCondition :=
  brokerConditions bs !! ConditionReady.

Definition brokerIsReady (b : Broker) : bool :=
  bool_decide (brokerObservedGeneration (brokerStatus b) = Generation (brokerMeta b))
  && match brokerGetTopLevelCondition (brokerStatus b) with
     | Some c => bool_decide (kStatus c = ConditionTrue)
     | None => false
     end.

(** ** Calls that leave the process, and the world that answers them *)

Inductive Kind :=
  | KBroker | KExchange | KQueue | KBinding | KDeployment | KSecret
  | KService | KEndpoints | KSource.

#[global] Instance Kind_eq_dec : EqDecision Kind.
Proof. solve_decision. Defined.

(** [ExchangeArgs], broker/resources/exchange.go 33-41. *)
Record ExchangeArgs := mkExchangeArgs {
  argsBroker : Broker;
  argsTrigger : option Trigger;
  RabbitMQURL : option URL;
  RabbitMQCluster : string;
  DLX : bool
}.

(** [QueueArgs] and [BindingArgs] of the standalone trigger resources, with
    the fields the standalone Broker reconciler sets. *)
Record QueueArgs := mkQueueArgs {
  qaQueueName : string;
  qaRabbitmqURL : string
}.

Record BindingArgs := mkBindingArgs {
  baBroker : Broker;
  baRoutingKey : string;
  baBrokerURL : string;
  baAdminURL : string;
  baQueueName : string
}.

Inductive Event :=
  (** a read from an informer cache: [lister.X(ns).Get(name)] *)
  | ListerGet (k : Kind) (ns name : string)
  (** calls on the API server through a clientset *)
  | ClientGet (k : Kind) (ns name : string)
  | ClientCreate (k : Kind) (ns name : string)
  | ClientUpdate (k : Kind) (ns name : string)
  | ClientDelete (k : Kind) (ns name : string)
  (** [uriResolver.URIFromDestinationV1] *)
  | Resolve (d : Destination)
  (** the source tracker *)
  | Track (ref : ObjectReference)
  | ListerFor (ref : ObjectReference)
  (** [getExchangeArgs] *)
  | GetExchangeArgs (ns name : string)
  (** wire-level driver calls of the standalone reconciler *)
  | DeclareExchange (dlx : bool)
  | DeleteExchange (dlx : bool)
  | DeclareQueue (name : string)
  | DeleteQueue (name : string)
  | MakeDLQBinding (name : string)
  (** a line written to the logger at the given level *)
  | Log (level msg : string)
  (** the method [fn] of a [Reconciler] is entered *)
  | Invoke (fn : string).

#[global] Instance Event_eq_dec : EqDecision Event.
Proof. solve_decision. Defined.

(** The store interface of one object kind: an informer-backed lister and
    the clientset calls. *)
Record Store (A : Type) := mkStore {
  get : string -> string -> result A;
  create : string -> A -> result A;
  update : string -> A -> result A;
  delete : string -> string -> option error
}.
Arguments mkStore {A} _ _ _ _.
Arguments get {A} _ _ _.
Arguments create {A} _ _ _.
Arguments update {A} _ _ _.
Arguments delete {A} _ _ _.

Record World := mkWorld {
  brokerLister : string -> string -> result Broker;
  exchanges : Store Exchange;
  queues : Store Queue;
  bindings : Store Binding;
  deployments : Store Deployment;
  secrets : Store Secret;
  services : Store Service;
  endpointsLister : string -> string -> result Endpoints;
  (** [kubeClientSet.CoreV1().Secrets(ns).Get] *)
  kubeGetSecret : string -> string -> result Secret;
  URIFromDestinationV1 : Destination -> ObjectMeta -> result URL;
  trackKResource : ObjectMeta -> ObjectReference -> option error;
  sourceListerFor : ObjectReference -> option error;
  sourceGet : ObjectReference -> string -> string -> result Source;
  (** the URL of the RabbitMQ cluster a Broker points to, read from the
      credentials its [Config] refers to *)
  rabbitmqURL : Broker -> result URL;
  (** the AMQP and management-API driver of the standalone reconciler *)
  driverDeclareExchange : ExchangeArgs -> result Secret;
  driverDeleteExchange : ExchangeArgs -> option error;
  driverDeclareQueue : QueueArgs -> option error;
  driverDeleteQueue : QueueArgs -> option error;
  driverMakeDLQBinding : BindingArgs -> option error
}.

(** ** Effects *)

(** A computation that performs calls: the calls in order, and its value. *)
Definition IO (A : Type) : Type := list Event * A.

#[global] Instance IO_ret : MRet IO := fun A a => ([], a).
#[global] Instance IO_bind : MBind IO := fun A B f m =>
  let '(tr, a) := m in let '(tr', b) := f a in (tr ++ tr', b).

Definition call {A} (e : Event) (answer : A) : IO A := ([e], answer).
Definition log (level msg : string) : IO unit := call (Log level msg) ().
Definition entering (fn : string) : IO unit := call (Invoke fn) ().

(** A reconcile run over the object [S] being reconciled: it performs
    calls, updates the object in place, and either goes on with a value or
    has returned from [ReconcileKind] ([Return None] is Go's [return nil]). *)
Inductive outcome (A : Type) : Type :=
  | Continue (a : A)
  | Return (r : option error).
Arguments Continue {A} a.
Arguments Return {A} r.

Definition Pipe (S A : Type) : Type := S -> list Event * S * outcome A.

#[global] Instance Pipe_ret {S} : MRet (Pipe S) := fun A a s => ([], s, Continue a).
#[global] Instance Pipe_bind {S} : MBind (Pipe S) := fun A B f m s =>
  let '(tr, s1, o) := m s in
  match o with
  | Continue a => let '(tr', s2, o') := f a s1 in (tr ++ tr', s2, o')
  | Return r => (tr, s1, Return r)
  end.

Definition lift {S A} (m : IO A) : Pipe S A := fun s => (fst m, s, Continue (snd m)).
Definition getObj {S} : Pipe S S := fun s => ([], s, Continue s).
Definition modify {S} (f : S -> S) : Pipe S unit := fun s => ([], f s, Continue ()).
Definition return_ {S A} (r : option error) : Pipe S A := fun s => ([], s, Return r).
Definition when {S} (c : bool) (m : Pipe S unit) : Pipe S unit :=
  if c then m else mret ().

(** The block that follows a reconcile call of a topology object in the
    pipelines:
    [if err != nil { onErr; return err }
     if obj != nil { if !isReady(obj.Status.Conditions) { onNotReady; return nil } }]. *)
Definition gate {S A} (res : result A) (conds : A -> list Condition)
    (onErr : error -> Pipe S unit) (onNotReady : A -> Pipe S unit) : Pipe S A :=
  match res with
  | Err err => onErr err;; return_ (Some err)
  | Ok obj =>
      when (negb (isReady (conds obj))) (onNotReady obj;; return_ None);;
      mret obj
  end.

(** A call that takes the object being reconciled as it is now. *)
Definition withObj {S A} (f : S -> IO A) : Pipe S A :=
  s ← getObj; lift (f s).

(** The calls, the final object and the returned event of a whole run. *)
Definition run {S} (m : Pipe S unit) (s : S) : list Event * S * option error :=
  let '(tr, s', o) := m s in
  (tr, s', match o with Continue _ => None | Return r => r end).

Definition trace {S} (m : Pipe S unit) (s : S) : list Event := (run m s).1.1.
Definition final {S} (m : Pipe S unit) (s : S) : S := (run m s).1.2.
Definition returned {S} (m : Pipe S unit) (s : S) : option error := (run m s).2.

(** ** Collaborators outside the reconcilers

    The naming package ([pkg/rabbitmqnaming]) and the desired-state
    builders the reconcilers call but do not define are interfaces here;
    so is [json.Marshal] on a string map. *)

Class Naming := {
  BrokerExchangeName : Broker -> bool -> string;
  TriggerDLXExchangeName : Trigger -> string;
  CreateTriggerQueueName : Trigger -> string;
  CreateTriggerDeadLetterQueueName : Trigger -> string;
  CreateBrokerDeadLetterQueueName : Broker -> string
}.

(** [DispatcherArgs] of the trigger resources, as [trigger.go] fills it. *)
Record DispatcherArgs := mkDispatcherArgs {
  daTrigger : Trigger;
  daImage : string;
  daRabbitMQSecretName : string;
  daQueueName : string;
  daBrokerUrlSecretKey : string;
  daBrokerIngressURL : option URL;
  daSubscriber : URL;
  daDelivery : option DeliverySpec;
  daDLX : bool
}.

(** [DispatcherArgs] and [IngressArgs] of the broker resources, as the
    Broker reconcilers fill them. *)
Record BrokerDispatcherArgs := mkBrokerDispatcherArgs {
  bdaBroker : Broker;
  bdaImage : string;
  bdaRabbitMQSecretName : string;
  bdaQueueName : string;
  bdaBrokerUrlSecretKey : string;
  bdaSubscriber : URL;
  bdaBrokerIngressURL : option URL
}.

Record IngressArgs := mkIngressArgs {
  iaBroker : Broker;
  iaImage : string;
  iaRabbitMQSecretName : string;
  iaBrokerUrlSecretKey : string
}.

Class Builders := {
  jsonMarshal : gmap string string -> string;
  (** trigger resources *)
  NewQueue : Broker -> option Trigger -> Queue;
  NewTriggerDLQ : Broker -> Trigger -> Queue;
  MakeDispatcherDeployment : DispatcherArgs -> Deployment;
  (** broker resources *)
  SecretName : string -> string;
  BrokerURLSecretKey : string;
  DispatcherName : string -> string;
  MakeSecret : ExchangeArgs -> Secret;
  MakeIngressDeployment : IngressArgs -> Deployment;
  MakeIngressService : Broker -> Service;
  MakeBrokerDispatcherDeployment : BrokerDispatcherArgs -> Deployment;
  (** knative.dev/eventing and knative.dev/pkg *)
  GetObjRefFromDependencyAnnotation : string -> result ObjectReference;
  GetServiceHostname : string -> string -> string
}.

Definition BrokerClassKey : string := "eventing.knative.dev/broker.class".
Definition BrokerLabelKey : string := "eventing.knative.dev/broker".
Definition TriggerLabelKey : string := "eventing.knative.dev/trigger".
Definition DependencyAnnotation : string := "knative.dev/dependency".

(** [kmeta.NewControllerRef] for a Broker and for a Trigger. *)
Definition NewControllerRef (kind : string) (m : ObjectMeta) : OwnerReference :=
  mkOwnerReference "eventing.knative.dev/v1" kind (Name m) (UID m) true true.

(** [b.Spec.Config.Name]; the reconcilers reach the builders only behind
    [isUsingOperator], where [Config] is set. *)
Definition configName (b : Broker) : string :=
  match Config (brokerSpec b) with
  | Some c => refName c
  | None => ""
  end.

Definition emptyStatus : TopologyStatus := mkTopologyStatus [] 0.

(** ** Desired-state builders: broker/resources/exchange.go *)

Section Resources.
Context `{NM : Naming} `{BD : Builders}.

  (** [ExchangeLabels], exchange.go 83-94. *)
Definition ExchangeLabels (b : Broker) (t : option Trigger) : gmap string string :=
    match t with
    | Some t =>
        <["eventing.knative.dev/trigger" := Name (triggerMeta t)]>
          (<["eventing.knative.dev/broker" := Name (brokerMeta b)]> ∅)
    | None => <["eventing.knative.dev/broker" := Name (brokerMeta b)]> ∅
    end.

  (** [NewExchange], exchange.go 43-79. *)
Definition NewExchange (args : ExchangeArgs) : Exchange :=
    let '(or, exchangeName, namespace) :=
      match argsTrigger args with
      | Some t =>
          (NewControllerRef "Trigger" (triggerMeta t),
           TriggerDLXExchangeName t,
           Namespace (triggerMeta t))
      | None =>
          (NewControllerRef "Broker" (brokerMeta (argsBroker args)),
           BrokerExchangeName (argsBroker args) (DLX args),
           Namespace (brokerMeta (argsBroker args)))
      end in
    mkExchange
      (mkObjectMeta namespace exchangeName "" 0
         (ExchangeLabels (argsBroker args) (argsTrigger args)) ∅ [or])
      (mkExchangeSpec exchangeName "" "headers" true false None
         (mkClusterRef (configName (argsBroker args))))
      emptyStatus.

  (** ** Desired-state builders: trigger/resources/binding.go *)

Definition DefaultManagementPort : Z := 15672.
Definition BindingKey : string := "x-knative-trigger".
Definition DLQBindingKey : string := "x-knative-dlq".
Definition TriggerDLQBindingKey : string := "x-knative-trigger-dlq".

  (** [BindingLabels], binding.go 147-158. *)
Definition BindingLabels (b : Broker) (t : option Trigger) : gmap string string :=
    match t with
    | None => <[BrokerLabelKey := Name (brokerMeta b)]> ∅
    | Some t =>
        <[TriggerLabelKey := Name (triggerMeta t)]>
          (<[BrokerLabelKey := Name (brokerMeta b)]> ∅)
    end.

  (** The loop of binding.go 58-60: every filter attribute is assigned into
      the argument map. *)
Definition mergeAttributes (attributes arguments : gmap string string)
    : gmap string string :=
    map_fold (fun key val arguments => <[key := val]> arguments) arguments attributes.

  (** The local [arguments] of [NewBinding] when it is marshalled,
      binding.go 46-67. *)
Definition bindingArguments (broker : Broker) (trigger : option Trigger)
    : gmap string string :=
    let arguments : gmap string string := <["x-match" := "all"]> ∅ in
    match trigger with
    | Some trigger =>
        let arguments := <[BindingKey := Name (triggerMeta trigger)]> arguments in
        match filterAttributes (triggerSpec trigger) with
        | Some attributes => mergeAttributes attributes arguments
        | None => arguments
        end
    | None => <[DLQBindingKey := Name (brokerMeta broker)]> arguments
    end.

  (** [NewBinding], binding.go 41-100. [json.Marshal] does not fail on a
      string map, so the error result is never taken. *)
Definition NewBinding (broker : Broker) (trigger : option Trigger) : result Binding :=
    let '(or, bindingName, sourceName) :=
      match trigger with
      | Some trigger =>
          (NewControllerRef "Trigger" (triggerMeta trigger),
           CreateTriggerQueueName trigger,
           BrokerExchangeName broker false)
      | None =>
          (NewControllerRef "Broker" (brokerMeta broker),
           CreateBrokerDeadLetterQueueName broker,
           BrokerExchangeName broker true)
      end in
    let argumentsJson := jsonMarshal (bindingArguments broker trigger) in
    Ok (mkBinding
          (mkObjectMeta (Namespace (brokerMeta broker)) bindingName "" 0
             (BindingLabels broker trigger) ∅ [or])
          (mkBindingSpec "/" sourceName bindingName "queue" "" (Some argumentsJson)
             (mkClusterRef (configName broker)))
          emptyStatus).

  (** [NewTriggerDLQBinding], binding.go 103-143. *)
Definition NewTriggerDLQBinding (broker : Broker) (trigger : Trigger) : result Binding :=
    let arguments : gmap string string :=
      <[TriggerDLQBindingKey := Name (triggerMeta trigger)]> (<["x-match" := "all"]> ∅) in
    let bindingName := CreateTriggerDeadLetterQueueName trigger in
    let sourceName := TriggerDLXExchangeName trigger in
    let argumentsJson := jsonMarshal arguments in
    Ok (mkBinding
          (mkObjectMeta (Namespace (triggerMeta trigger)) bindingName "" 0
             (BindingLabels broker (Some trigger)) ∅
             [NewControllerRef "Trigger" (triggerMeta trigger)])
          (mkBindingSpec "/" sourceName bindingName "queue" "" (Some argumentsJson)
             (mkClusterRef (configName broker)))
          emptyStatus).

End Resources.

(** ** The Trigger reconciler: pkg/reconciler/trigger/trigger.go *)

Definition nilPointerDereference : error :=
  Error false "runtime error: invalid memory address or nil pointer dereference".

Module TriggerReconciler.

  (** The configuration fields of [Reconciler]; its listers, clientsets,
      trackers and resolver are the [World]. *)
Record Reconciler := mkReconciler {
    dispatcherImage : string;
    dispatcherServiceAccountName : string;
    brokerClass : string
  }.

  (** [isUsingOperator], trigger.go 87-92; the Broker handed in is never nil. *)
Definition isUsingOperator (b : Broker) : bool :=
    match Config (brokerSpec b) with
    | Some c => bool_decide (refKind c = "RabbitmqCluster")
    | None => false
    end.

Definition withStatus (t : Trigger) (ts : TriggerStatus) : Trigger :=
    mkTrigger (triggerMeta t) (triggerSpec t) ts.

  (** A method call on [t.Status]. *)
Definition onStatus (f : TriggerStatus -> TriggerStatus) : Pipe Trigger unit :=
    modify (fun t => withStatus t (f (triggerStatus t))).

Definition withExchangeSpec (e : Exchange) (s : ExchangeSpec) : Exchange :=
    mkExchange (exchangeMeta e) s (exchangeStatus e).
Definition withQueueSpec (q : Queue) (s : QueueSpec) : Queue :=
    mkQueue (queueMeta q) s (queueStatus q).
Definition withDeploymentSpec (d : Deployment) (s : DeploymentSpec) : Deployment :=
    mkDeployment (deploymentMeta d) s.

Section Reconciler.
Context `{NM : Naming} `{BD : Builders}.
Variable w : World.
Variable r : Reconciler.

  (** [reconcileDeployment], trigger.go 279-300. *)
Definition reconcileDeployment (d : Deployment) : IO (result Deployment) :=
    entering "reconcileDeployment";;
    let ns := Namespace (deploymentMeta d) in
    let name := Name (deploymentMeta d) in
    current ← call (ListerGet KDeployment ns name) (get (deployments w) ns name);
    match current with
    | Err err =>
        if IsNotFound err then
          created ← call (ClientCreate KDeployment ns name) (create (deployments w) ns d);
          match created with
          | Err err => mret (Err err)
          | Ok _ => mret (Ok d)
          end
        else mret (Err err)
    | Ok current =>
        if negb (derive (Template (deploymentSpec d)) (Template (deploymentSpec current))) then
          (* Don't modify the informers copy. *)
          let desired := withDeploymentSpec current (deploymentSpec d) in
          updated ← call (ClientUpdate KDeployment (Namespace (deploymentMeta desired))
                            (Name (deploymentMeta desired)))
                         (update (deployments w) (Namespace (deploymentMeta desired)) desired);
          match updated with
          | Err err => mret (Err err)
          | Ok _ => mret (Ok desired)
          end
        else mret (Ok current)
    end.

  (** [getRabbitmqSecret], trigger.go 399-401. *)
Definition getRabbitmqSecret (t : Trigger) : IO (result Secret) :=
    entering "getRabbitmqSecret";;
    let ns := Namespace (triggerMeta t) in
    let name := SecretName (specBroker (triggerSpec t)) in
    call (ClientGet KSecret ns name) (kubeGetSecret w ns name).

  (** [reconcileDispatcherDeployment], trigger.go 303-323. *)
Definition reconcileDispatcherDeployment (t : Trigger) (sub : URL)
      (delivery : option DeliverySpec) : IO (result Deployment) :=
    entering "reconcileDispatcherDeployment";;
    rabbitmqSecret ← getRabbitmqSecret t;
    match rabbitmqSecret with
    | Err err => mret (Err err)
    | Ok rabbitmqSecret =>
        let ns := Namespace (triggerMeta t) in
        let name := specBroker (triggerSpec t) in
        b ← call (ListerGet KBroker ns name) (brokerLister w ns name);
        match b with
        | Err err => mret (Err err)
        | Ok b =>
            let expected := MakeDispatcherDeployment
              (mkDispatcherArgs t (dispatcherImage r) (Name (secretMeta rabbitmqSecret))
                 (CreateTriggerQueueName t) BrokerURLSecretKey
                 (brokerAddress (brokerStatus b)) sub delivery false) in
            reconcileDeployment expected
        end
    end.

  (** [reconcileDLXDispatcherDeployment], trigger.go 326-346. *)
Definition reconcileDLXDispatcherDeployment (t : Trigger) (sub : URL)
    : IO (result Deployment) :=
    entering "reconcileDLXDispatcherDeployment";;
    rabbitmqSecret ← getRabbitmqSecret t;
    match rabbitmqSecret with
    | Err err => mret (Err err)
    | Ok rabbitmqSecret =>
        let ns := Namespace (triggerMeta t) in
        let name := specBroker (triggerSpec t) in
        b ← call (ListerGet KBroker ns name) (brokerLister w ns name);
        match b with
        | Err err => mret (Err err)
        | Ok b =>
            let expected := MakeDispatcherDeployment
              (mkDispatcherArgs t (dispatcherImage r) (Name (secretMeta rabbitmqSecret))
                 (CreateTriggerDeadLetterQueueName t) BrokerURLSecretKey
                 (brokerAddress (brokerStatus b)) sub None true) in
            reconcileDeployment expected
        end
    end.

  (** [propagateDependencyReadiness], trigger.go 369-397. *)
Definition propagateDependencyReadiness (dependencyObjRef : ObjectReference)
    : Pipe Trigger (option error) :=
    lift (entering "propagateDependencyReadiness");;
    t ← getObj;
    lister ← lift (call (ListerFor dependencyObjRef) (sourceListerFor w dependencyObjRef));
    match lister with
    | Some err =>
        onStatus (TS.MarkDependencyUnknown "ListerDoesNotExist"
                    (Sprintf "Failed to retrieve lister: %v" [errMsg err]));;
        mret (Some (Errorf "retrieving lister: " err))
    | None =>
        let ns := Namespace (triggerMeta t) in
        let name := objName dependencyObjRef in
        dependencyObj ← lift (call (ListerGet KSource ns name)
                                (sourceGet w dependencyObjRef ns name));
        match dependencyObj with
        | Err err =>
            (if IsNotFound err then
               onStatus (TS.MarkDependencyFailed "DependencyDoesNotExist"
                           (Sprintf "Dependency does not exist: %v" [errMsg err]))
             else
               onStatus (TS.MarkDependencyUnknown "DependencyGetFailed"
                           (Sprintf "Failed to get dependency: %v" [errMsg err])));;
            mret (Some (Errorf "getting the dependency: " err))
        | Ok dependency =>
            (* The dependency hasn't yet reconciled our latest changes to
               its desired state, so its conditions are outdated. *)
            if negb (bool_decide (Generation (sourceMeta dependency)
                                  = sourceObservedGeneration dependency)) then
              lift (log "info" "The ObjectMeta Generation of dependency is not equal to the observedGeneration of status");;
              onStatus (TS.MarkDependencyUnknown "GenerationNotEqual"
                          (Sprintf "The dependency's metadata.generation, %q, is not equal to its status.observedGeneration, %q."
                             [fmtQRune (Generation (sourceMeta dependency));
                              fmtQRune (sourceObservedGeneration dependency)]));;
              mret None
            else
              onStatus (TS.PropagateDependencyStatus dependency);;
              mret None
        end
    end.

  (** [checkDependencyAnnotation], trigger.go 348-367. *)
Definition checkDependencyAnnotation : Pipe Trigger (option error) :=
    lift (entering "checkDependencyAnnotation");;
    t ← getObj;
    match Annotations (triggerMeta t) !! DependencyAnnotation with
    | Some dependencyAnnotation =>
        match GetObjRefFromDependencyAnnotation dependencyAnnotation with
        | Err err =>
            onStatus (TS.MarkDependencyFailed "ReferenceError"
                        (Sprintf "Unable to unmarshal objectReference from dependency annotation of trigger: %v"
                           [errMsg err]));;
            mret (Some (Errorf ("getting object ref from dependency annotation "
                                +:+ fmtQ dependencyAnnotation +:+ ": ") err))
        | Ok dependencyObjRef =>
            (* Trigger and its dependent source are in the same namespace. *)
            tracked ← lift (call (Track dependencyObjRef)
                              (trackKResource w (triggerMeta t) dependencyObjRef));
            match tracked with
            | Some err => mret (Some (Errorf "tracking dependency: " err))
            | None =>
                propagated ← propagateDependencyReadiness dependencyObjRef;
                match propagated with
                | Some err => mret (Some (Errorf "propagating dependency readiness: " err))
                | None => mret None
                end
            end
        end
    | None =>
        onStatus TS.MarkDependencySucceeded;;
        mret None
    end.

  (** [reconcileExchange], trigger.go 403-418. [args.Trigger] is set by
      [ReconcileKind]; dereferencing a nil one would panic. *)
Definition reconcileExchange (args : ExchangeArgs) : IO (result Exchange) :=
    entering "reconcileExchange";;
    match argsTrigger args with
    | None => mret (Err nilPointerDereference)
    | Some trigger =>
        let want := NewExchange args in
        let ns := Namespace (triggerMeta trigger) in
        current ← call (ListerGet KExchange ns (TriggerDLXExchangeName trigger))
                    (get (exchanges w) ns (TriggerDLXExchangeName trigger));
        match current with
        | Err err =>
            if IsNotFound err then
              log "debug" "Creating rabbitmq exchange";;
              call (ClientCreate KExchange ns (Name (exchangeMeta want)))
                (create (exchanges w) ns want)
            else mret (Err err)
        | Ok current =>
            if negb (derive (exchangeSpec want) (exchangeSpec current)) then
              (* Don't modify the informers copy. *)
              let desired := withExchangeSpec current (exchangeSpec want) in
              call (ClientUpdate KExchange ns (Name (exchangeMeta desired)))
                (update (exchanges w) ns desired)
            else mret (Ok current)
        end
    end.

  (** The body shared, up to the name and the desired queue, by
      [reconcileQueue] and [reconcileDLQ]. *)
Definition upsertQueue (ns queueName : string) (want : Queue) : IO (result Queue) :=
    current ← call (ListerGet KQueue ns queueName) (get (queues w) ns queueName);
    match current with
    | Err err =>
        if IsNotFound err then
          log "debug" "Creating rabbitmq queue";;
          call (ClientCreate KQueue ns (Name (queueMeta want))) (create (queues w) ns want)
        else mret (Err err)
    | Ok current =>
        if negb (derive (queueSpec want) (queueSpec current)) then
          (* Don't modify the informers copy. *)
          let desired := withQueueSpec current (queueSpec want) in
          call (ClientUpdate KQueue ns (Name (queueMeta desired))) (update (queues w) ns desired)
        else mret (Ok current)
    end.

  (** [reconcileQueue], trigger.go 420-436. *)
Definition reconcileQueue (b : Broker) (t : Trigger) : IO (result Queue) :=
    entering "reconcileQueue";;
    let queueName := CreateTriggerQueueName t in
    let want := NewQueue b (Some t) in
    upsertQueue (Namespace (brokerMeta b)) queueName want.

  (** [reconcileDLQ], trigger.go 438-454. *)
Definition reconcileDLQ (b : Broker) (t : Trigger) : IO (result Queue) :=
    entering "reconcileDLQ";;
    let queueName := CreateTriggerDeadLetterQueueName t in
    let want := NewTriggerDLQ b t in
    upsertQueue (Namespace (brokerMeta b)) queueName want.

  (** The body shared by [reconcileBinding] and [reconcileDLQBinding] once
      the desired binding is built: a binding is created when missing and
      never updated. *)
Definition ensureBinding (ns bindingName logMsg : string) (want : Binding)
    : IO (result Binding) :=
    current ← call (ListerGet KBinding ns bindingName) (get (bindings w) ns bindingName);
    match current with
    | Err err =>
        if IsNotFound err then
          log "info" logMsg;;
          call (ClientCreate KBinding ns (Name (bindingMeta want))) (create (bindings w) ns want)
        else mret (Err err)
    | Ok current =>
        if negb (derive (bindingSpec want) (bindingSpec current)) then
          mret (Err (errorsNew "binding spec differs and it's immutable"))
        else mret (Ok current)
    end.

  (** [reconcileBinding], trigger.go 456-474. *)
Definition reconcileBinding (b : Broker) (t : Trigger) : IO (result Binding) :=
    entering "reconcileBinding";;
    (* We can use the same name for queue / binding to keep things simpler *)
    let bindingName := CreateTriggerQueueName t in
    match NewBinding b (Some t) with
    | Err err => mret (Err (Errorf "failed to create the binding spec: " err))
    | Ok want =>
        ensureBinding (Namespace (brokerMeta b)) bindingName "Creating rabbitmq binding" want
    end.

  (** [reconcileDLQBinding], trigger.go 476-494. *)
Definition reconcileDLQBinding (b : Broker) (t : Trigger) : IO (result Binding) :=
    entering "reconcileDLQBinding";;
    let bindingName := CreateTriggerDeadLetterQueueName t in
    match NewTriggerDLQBinding b t with
    | Err err => mret (Err (Errorf "failed to create the DLQ binding spec: " err))
    | Ok want =>
        ensureBinding (Namespace (brokerMeta b)) bindingName "Creating rabbitmq DLQ binding" want
    end.

Definition hasDeadLetterSink (d : option DeliverySpec) : option Destination :=
    match d with
    | Some d => DeadLetterSink d
    | None => None
    end.

  (** [t.Spec.Subscriber.Ref.Namespace = t.GetNamespace()] when the
      reference is set, trigger.go 237-241. *)
Definition defaultSubscriberNamespace (t : Trigger) : Trigger :=
    match destRef (Subscriber (triggerSpec t)) with
    | Some ref =>
        mkTrigger (triggerMeta t)
          (mkTriggerSpec (specBroker (triggerSpec t)) (filterAttributes (triggerSpec t))
             (mkDestination
                (Some (mkKReference (refKind ref) (Namespace (triggerMeta t)) (refName ref)
                         (refAPIVersion ref)))
                (destURI (Subscriber (triggerSpec t))))
             (triggerDelivery (triggerSpec t)))
          (triggerStatus t)
    | None => t
    end.

Definition setObservedGeneration (t : Trigger) : Trigger :=
    withStatus t
      (mkTriggerStatus (Generation (triggerMeta t)) (triggerConditions (triggerStatus t))
         (SubscriberURI (triggerStatus t)) (DeadLetterSinkURI (triggerStatus t))).

Definition setSubscriberURI (u : option URL) (t : Trigger) : Trigger :=
    withStatus t
      (mkTriggerStatus (triggerObservedGeneration (triggerStatus t))
         (triggerConditions (triggerStatus t)) u (DeadLetterSinkURI (triggerStatus t))).

Definition setDeadLetterSinkURI (u : option URL) (t : Trigger) : Trigger :=
    withStatus t
      (mkTriggerStatus (triggerObservedGeneration (triggerStatus t))
         (triggerConditions (triggerStatus t)) (SubscriberURI (triggerStatus t)) u).

  (** A method call on [t.Status] whose arguments read [t]. *)
Definition onStatusOf (f : Trigger -> TriggerStatus -> TriggerStatus) : Pipe Trigger unit :=
    modify (fun t => withStatus t (f t (triggerStatus t))).

  (** [t.Status.GetCondition(TriggerConditionDependency).Status != True];
      the condition is set once [InitializeConditions] has run. *)
Definition dependencyNotTrue (t : Trigger) : bool :=
    match TS.GetCondition (triggerStatus t) TriggerConditionDependency with
    | Some ts => negb (bool_decide (kStatus ts = ConditionTrue))
    | None => true
    end.

  (** The dead-letter branch of [ReconcileKind], trigger.go 141-200. *)
Definition reconcileDeadLetter (broker : Broker) (deadLetterSink : Destination)
    : Pipe Trigger unit :=
    t ← getObj;
    let args := mkExchangeArgs broker (Some t) None "" true in
    dlx ← lift (reconcileExchange args);
    gate dlx (fun dlx => Conditions (exchangeStatus dlx))
      (fun err =>
         onStatusOf (fun t => TS.MarkDependencyFailed "ExchangeFailure"
           (Sprintf (Sprintf "Failed to reconcile DLX exchange %q: %s"
                       [fmtQ (TriggerDLXExchangeName t); errMsg err]) [])))
      (fun dlx =>
         lift (log "warn" (Sprintf "DLX exchange %q is not ready" [fmtQ (Name (exchangeMeta dlx))]));;
         onStatus (TS.MarkDependencyFailed "ExchangeFailure"
           (Sprintf (Sprintf "DLX exchange %q is not ready" [fmtQ (Name (exchangeMeta dlx))]) [])));;
    dlq ← withObj (reconcileDLQ broker);
    gate dlq (fun dlq => Conditions (queueStatus dlq))
      (fun err =>
         lift (log "error" "Problem reconciling Trigger Queue");;
         onStatus (TS.MarkDependencyFailed "QueueFailure" (Sprintf "%v" [errMsg err])))
      (fun dlq =>
         lift (log "warn" (Sprintf "DLQ %q is not ready" [fmtQ (Name (queueMeta dlq))]));;
         onStatus (TS.MarkDependencyFailed "QueueFailure"
           (Sprintf "DLQ %q is not ready" [fmtQ (Name (queueMeta dlq))])));;
    dlqBinding ← withObj (reconcileDLQBinding broker);
    gate dlqBinding (fun b => Conditions (bindingStatus b))
      (fun err =>
         lift (log "error" "Problem reconciling Trigger DLQ Binding");;
         onStatus (TS.MarkDependencyFailed "BindingFailure" (Sprintf "%v" [errMsg err])))
      (fun b =>
         lift (log "warn" (Sprintf "DLQ Binding %q is not ready" [fmtQ (Name (bindingMeta b))]));;
         onStatus (TS.MarkDependencyFailed "BindingFailure"
           (Sprintf "DLQ Binding %q is not ready" [fmtQ (Name (bindingMeta b))])));;
    deadLetterSinkURI ← withObj (fun t =>
      call (Resolve deadLetterSink) (URIFromDestinationV1 w deadLetterSink (triggerMeta t)));
    match deadLetterSinkURI with
    | Err err =>
        lift (log "error" "Unable to get the DeadLetterSink URI");;
        onStatus (TS.MarkDeadLetterSinkResolvedFailed "Unable to get the DeadLetterSink URI"
                    (Sprintf "%v" [errMsg err]));;
        modify (setDeadLetterSinkURI None);;
        return_ (Some err)
    | Ok deadLetterSinkURI =>
        onStatus TS.MarkDeadLetterSinkResolvedSucceeded;;
        modify (setDeadLetterSinkURI (Some deadLetterSinkURI));;
        d ← withObj (fun t => reconcileDLXDispatcherDeployment t deadLetterSinkURI);
        match d with
        | Err err =>
            lift (log "error" "Problem reconciling DLX dispatcher Deployment");;
            onStatus (TS.MarkDependencyFailed "DeploymentFailure" (Sprintf "%v" [errMsg err]));;
            return_ (Some err)
        | Ok _ => mret ()
        end
    end.

  (** The primary queue and binding, trigger.go 205-235. *)
Definition reconcilePrimary (broker : Broker) : Pipe Trigger unit :=
    queue ← withObj (reconcileQueue broker);
    gate queue (fun q => Conditions (queueStatus q))
      (fun err =>
         lift (log "error" "Problem reconciling Trigger Queue");;
         onStatus (TS.MarkDependencyFailed "QueueFailure" (Sprintf "%v" [errMsg err])))
      (fun q =>
         lift (log "warn" (Sprintf "Queue %q is not ready" [fmtQ (Name (queueMeta q))]));;
         onStatus (TS.MarkDependencyFailed "QueueFailure"
           (Sprintf "Queue %q is not ready" [fmtQ (Name (queueMeta q))])));;
    lift (log "info" "Reconciled rabbitmq queue");;
    binding ← withObj (reconcileBinding broker);
    gate binding (fun b => Conditions (bindingStatus b))
      (fun err =>
         lift (log "error" "Problem reconciling Trigger Queue Binding");;
         onStatus (TS.MarkDependencyFailed "BindingFailure" (Sprintf "%v" [errMsg err])))
      (fun b =>
         lift (log "warn" (Sprintf "Binding %q is not ready" [fmtQ (Name (bindingMeta b))]));;
         onStatus (TS.MarkDependencyFailed "BindingFailure"
           (Sprintf "Binding %q is not ready" [fmtQ (Name (bindingMeta b))])));;
    lift (log "info" "Reconciled rabbitmq binding");;
    onStatus TS.MarkDependencySucceeded.

  (** The subscriber and the primary dispatcher, trigger.go 237-275. *)
Definition reconcileSubscriber (broker : Broker) : Pipe Trigger unit :=
    modify defaultSubscriberNamespace;;
    subscriberURI ← withObj (fun t =>
      call (Resolve (Subscriber (triggerSpec t)))
        (URIFromDestinationV1 w (Subscriber (triggerSpec t)) (triggerMeta t)));
    match subscriberURI with
    | Err err =>
        lift (log "error" "Unable to get the Subscriber's URI");;
        onStatus (TS.MarkSubscriberResolvedFailed "Unable to get the Subscriber's URI"
                    (Sprintf "%v" [errMsg err]));;
        modify (setSubscriberURI None);;
        return_ (Some err)
    | Ok subscriberURI =>
        modify (setSubscriberURI (Some subscriberURI));;
        onStatus TS.MarkSubscriberResolvedSucceeded;;
        (* TODO no Subscription *)
        onStatus (TS.PropagateSubscriptionCondition
                    (Some (mkKCondition "True" "" "" "")));;
        t ← getObj;
        (* If trigger specified delivery, use it; else the Broker's. *)
        let delivery :=
          match triggerDelivery (triggerSpec t) with
          | Some d => Some d
          | None => brokerDelivery (brokerSpec broker)
          end in
        d ← lift (reconcileDispatcherDeployment t subscriberURI delivery);
        match d with
        | Err err =>
            lift (log "error" "Problem reconciling dispatcher Deployment");;
            onStatus (TS.MarkDependencyFailed "DeploymentFailure" (Sprintf "%v" [errMsg err]));;
            return_ (Some err)
        | Ok _ => return_ None
        end
    end.

  (** [ReconcileKind], trigger.go 94-276. *)
Definition ReconcileKind : Pipe Trigger unit :=
    lift (entering "ReconcileKind");;
    lift (log "debug" "Reconciling");;
    onStatus TS.InitializeConditions;;
    broker ← withObj (fun t =>
      call (ListerGet KBroker (Namespace (triggerMeta t)) (specBroker (triggerSpec t)))
        (brokerLister w (Namespace (triggerMeta t)) (specBroker (triggerSpec t))));
    broker ← match broker with
             | Err err =>
                 if IsNotFound err then
                   onStatusOf (fun t => TS.MarkBrokerFailed "BrokerDoesNotExist"
                     (Sprintf "Broker %q does not exist" [fmtQ (specBroker (triggerSpec t))]));;
                   (* Ok to return nil here. Once the Broker comes available,
                      or Trigger changes, we get requeued. *)
                   return_ None
                 else
                   onStatusOf (fun t => TS.MarkBrokerFailed "FailedToGetBroker"
                     (Sprintf "Failed to get broker %q : %s"
                        [fmtQ (specBroker (triggerSpec t)); errMsg err]));;
                   return_ (Some (Errorf "retrieving broker: " err))
             | Ok broker => mret broker
             end;
    (* If it's not my brokerclass, ignore *)
    when (negb (bool_decide (mapIndex (Annotations (brokerMeta broker)) BrokerClassKey
                             = brokerClass r)))
      (lift (log "info" "Ignoring trigger");; return_ None);;
    modify setObservedGeneration;;
    onStatus (TS.PropagateBrokerCondition (brokerGetTopLevelCondition (brokerStatus broker)));;
    (* If Broker is not ready, we're done, but once it becomes ready, we'll get requeued. *)
    when (negb (brokerIsReady broker))
      (lift (log "error" "Broker is not ready");; return_ None);;
    err ← checkDependencyAnnotation;
    match err with
    | Some err => return_ (Some err)
    | None => mret ()
    end;;
    (* Just because there's no error, the dependency might not be ready, so check it. *)
    t ← getObj;
    when (dependencyNotTrue t)
      (lift (log "info" "Dependency is not ready");; return_ None);;
    (if negb (isUsingOperator broker) then
       onStatus (TS.MarkDependencyFailed "ReconcileFailure"
                   "using secret is not supported with this controller");;
       return_ None
     else
       (* If there's DeadLetterSink, we need to create a DLX that's specific
          for this Trigger as well as a Queue for it, and Dispatcher that
          pulls from that queue. *)
       match hasDeadLetterSink (triggerDelivery (triggerSpec t)) with
       | Some deadLetterSink => reconcileDeadLetter broker deadLetterSink
       | None =>
           (* There's no Delivery spec, so just mark is as there's no
              DeadLetterSink Configured for it. *)
           onStatus TS.MarkDeadLetterSinkNotConfigured
       end;;
       reconcilePrimary broker);;
    reconcileSubscriber broker.

End Reconciler.
End TriggerReconciler.

(** ** The Broker reconcilers: what the two packages share

    [pkg/reconciler/broker/broker.go] and
    [pkg/reconciler/brokerstandalone/broker.go] carry the same text for the
    condition set, [isUsingOperator], the Secret, Deployment and Service
    upserts, the dead-letter dispatcher and [reconcileCommonIngressResources];
    each package calls the builders of its own [resources] package, which is
    the [Builders] instance in scope. *)

Module BrokerCommon.

Definition BrokerConditionExchange : string := "ExchangeReady".
Definition BrokerConditionDLX : string := "DLXReady".
Definition BrokerConditionDeadLetterSink : string := "DeadLetterSinkReady".
Definition BrokerConditionSecret : string := "SecretReady".
Definition BrokerConditionIngress : string := "IngressReady".
Definition BrokerConditionAddressable : string := "Addressable".

Definition rabbitBrokerCondSet : ConditionSet :=
    NewLivingConditionSet
      [BrokerConditionExchange; BrokerConditionDLX; BrokerConditionDeadLetterSink;
       BrokerConditionSecret; BrokerConditionIngress; BrokerConditionAddressable].

  (** The configuration fields of [Reconciler]. *)
Record Reconciler := mkReconciler {
    ingressImage : string;
    ingressServiceAccountName : string;
    brokerClass : string;
    dispatcherImage : string;
    adminURL : string
  }.

  (** [isUsingOperator]; the Broker handed in is never nil. *)
Definition isUsingOperator (b : Broker) : bool :=
    match Config (brokerSpec b) with
    | Some c => bool_decide (refKind c = "RabbitmqCluster")
    | None => false
    end.

Definition withStatus (b : Broker) (bs : BrokerStatus) : Broker :=
    mkBroker (brokerMeta b) (brokerSpec b) bs.

Definition manage (f : gmap string KCondition -> gmap string KCondition)
      (bs : BrokerStatus) : BrokerStatus :=
    mkBrokerStatus (brokerObservedGeneration bs) (f (brokerConditions bs)) (brokerAddress bs).

  (** A call on [&b.Status]. *)
Definition onStatus (f : BrokerStatus -> BrokerStatus) : Pipe Broker unit :=
    modify (fun b => withStatus b (f (brokerStatus b))).

Definition onStatusOf (f : Broker -> BrokerStatus -> BrokerStatus) : Pipe Broker unit :=
    modify (fun b => withStatus b (f b (brokerStatus b))).

  (** Modelled from the spec: the status helpers of the Broker lifecycle
      file ([MarkExchangeFailed], [MarkExchangeReady], ... , [SetAddress],
      [PropagateIngressAvailability]) are not among the sources. Each step
      owns one slot of [rabbitBrokerCondSet] and sets it False with a reason
      on failure and True on success (spec 4.3, 4.5, 7). *)
Definition markFailed (slot reason message : string) : BrokerStatus -> BrokerStatus :=
    manage (fun cs => Manager.MarkFalse rabbitBrokerCondSet cs slot reason message).
Definition markReady (slot : string) : BrokerStatus -> BrokerStatus :=
    manage (fun cs => Manager.MarkTrue rabbitBrokerCondSet cs slot).

Definition MarkExchangeFailed := markFailed BrokerConditionExchange.
Definition MarkExchangeReady := markReady BrokerConditionExchange.
Definition MarkDLXFailed := markFailed BrokerConditionDLX.
Definition MarkDLXReady := markReady BrokerConditionDLX.
Definition MarkDeadLetterSinkFailed := markFailed BrokerConditionDeadLetterSink.
Definition MarkDeadLetterSinkReady := markReady BrokerConditionDeadLetterSink.
Definition MarkSecretFailed := markFailed BrokerConditionSecret.
Definition MarkSecretReady := markReady BrokerConditionSecret.
Definition MarkIngressFailed := markFailed BrokerConditionIngress.

  (** Modelled from the spec: ingress availability follows the endpoints
      of the ingress service (spec 4.5 step 5). *)
Definition PropagateIngressAvailability (ep : Endpoints) : BrokerStatus -> BrokerStatus :=
    if bool_decide (endpointsAddresses ep = []) then
      MarkIngressFailed "EndpointsUnavailable"
        (Sprintf "Endpoints %q are unavailable." [fmtQ (Name (endpointsMeta ep))])
    else markReady BrokerConditionIngress.

  (** Modelled from the spec: the public address of the Broker is set from
      the service's stable network identity (spec 4.5 step 5). *)
Definition SetAddress (url : option URL) (bs : BrokerStatus) : BrokerStatus :=
    let bs := mkBrokerStatus (brokerObservedGeneration bs) (brokerConditions bs) url in
    match url with
    | Some _ => markReady BrokerConditionAddressable bs
    | None => markFailed BrokerConditionAddressable "nil URL" "URL is nil" bs
    end.

Definition withDeploymentSpec (d : Deployment) (s : DeploymentSpec) : Deployment :=
    mkDeployment (deploymentMeta d) s.
Definition withStringData (s : Secret) (d : gmap string string) : Secret :=
    mkSecret (secretMeta s) d.
Definition withServiceSpec (s : Service) (sp : ServiceSpec) : Service :=
    mkService (serviceMeta s) sp.
Definition withClusterIP (sp : ServiceSpec) (ip : string) : ServiceSpec :=
    mkServiceSpec ip (serviceSelector sp) (servicePorts sp).

Section Common.
Context `{NM : Naming} `{BD : Builders}.
Variable w : World.
Variable r : Reconciler.

  (** Modelled from the spec: [getExchangeArgs] is not among the sources;
      it builds the exchange arguments from the Broker identity and the
      cluster reference (spec 4.5 step 1), which takes reading the URL of
      the cluster. *)
Definition getExchangeArgs (b : Broker) : IO (result ExchangeArgs) :=
    entering "getExchangeArgs";;
    url ← call (GetExchangeArgs (Namespace (brokerMeta b)) (Name (brokerMeta b)))
            (rabbitmqURL w b);
    match url with
    | Err err => mret (Err err)
    | Ok url => mret (Ok (mkExchangeArgs b None (Some url) "" false))
    end.

  (** [reconcileSecret], broker.go 241-260. *)
Definition reconcileSecret (s : Secret) : IO (option error) :=
    entering "reconcileSecret";;
    let ns := Namespace (secretMeta s) in
    let name := Name (secretMeta s) in
    current ← call (ListerGet KSecret ns name) (get (secrets w) ns name);
    match current with
    | Err err =>
        if IsNotFound err then
          created ← call (ClientCreate KSecret ns name) (create (secrets w) ns s);
          match created with
          | Err err => mret (Some err)
          | Ok _ => mret None
          end
        else mret (Some err)
    | Ok current =>
        if negb (derive (StringData s) (StringData current)) then
          (* Don't modify the informers copy. *)
          let desired := withStringData current (StringData s) in
          updated ← call (ClientUpdate KSecret (Namespace (secretMeta desired))
                            (Name (secretMeta desired)))
                         (update (secrets w) (Namespace (secretMeta desired)) desired);
          match updated with
          | Err err => mret (Some err)
          | Ok _ => mret None
          end
        else mret None
    end.

  (** [reconcileDeployment], broker.go 263-282. *)
Definition reconcileDeployment (d : Deployment) : IO (option error) :=
    entering "reconcileDeployment";;
    let ns := Namespace (deploymentMeta d) in
    let name := Name (deploymentMeta d) in
    current ← call (ListerGet KDeployment ns name) (get (deployments w) ns name);
    match current with
    | Err err =>
        if IsNotFound err then
          created ← call (ClientCreate KDeployment ns name) (create (deployments w) ns d);
          match created with
          | Err err => mret (Some err)
          | Ok _ => mret None
          end
        else mret (Some err)
    | Ok current =>
        if negb (derive (Template (deploymentSpec d)) (Template (deploymentSpec current))) then
          (* Don't modify the informers copy. *)
          let desired := withDeploymentSpec current (deploymentSpec d) in
          updated ← call (ClientUpdate KDeployment (Namespace (deploymentMeta desired))
                            (Name (deploymentMeta desired)))
                         (update (deployments w) (Namespace (deploymentMeta desired)) desired);
          match updated with
          | Err err => mret (Some err)
          | Ok _ => mret None
          end
        else mret None
    end.

  (** [reconcileService], broker.go 285-309. *)
Definition reconcileService (svc : Service) : IO (result Endpoints) :=
    entering "reconcileService";;
    let ns := Namespace (serviceMeta svc) in
    let name := Name (serviceMeta svc) in
    current ← call (ListerGet KService ns name) (get (services w) ns name);
    current ← match current with
              | Err err =>
                  if IsNotFound err then
                    call (ClientCreate KService ns name) (create (services w) ns svc)
                  else mret (Err err)
              | Ok current => mret (Ok current)
              end;
    match current with
    | Err err => mret (Err err)
    | Ok current =>
        (* spec.clusterIP is immutable and is set on existing services. *)
        let svc := withServiceSpec svc
                     (withClusterIP (serviceSpec svc) (ClusterIP (serviceSpec current))) in
        updated ←
          (if negb (derive (serviceSpec svc) (serviceSpec current)) then
             (* Don't modify the informers copy. *)
             let desired := withServiceSpec current (serviceSpec svc) in
             updated ← call (ClientUpdate KService (Namespace (serviceMeta current))
                               (Name (serviceMeta desired)))
                            (update (services w) (Namespace (serviceMeta current)) desired);
             match updated with
             | Err err => mret (Some err)
             | Ok _ => mret None
             end
           else mret None);
        match updated with
        | Some err => mret (Err err)
        | None =>
            call (ListerGet KEndpoints ns name) (endpointsLister w ns name)
        end
    end.

  (** [reconcileIngressDeployment], broker.go 312-320. *)
Definition reconcileIngressDeployment (b : Broker) : IO (option error) :=
    entering "reconcileIngressDeployment";;
    let expected := MakeIngressDeployment
      (mkIngressArgs b (ingressImage r) (SecretName (Name (brokerMeta b))) BrokerURLSecretKey) in
    reconcileDeployment expected.

  (** [reconcileIngressService], broker.go 323-326. *)
Definition reconcileIngressService (b : Broker) : IO (result Endpoints) :=
    entering "reconcileIngressService";;
    let expected := MakeIngressService b in
    reconcileService expected.

  (** [reconcileDLXDispatcherDeployment], broker.go 329-355 and
      brokerstandalone/broker.go 272-298. *)
Definition reconcileDLXDispatcherDeployment (b : Broker) (sub : option URL)
    : IO (option error) :=
    entering "reconcileDLXDispatcherDeployment";;
    match sub with
    | Some sub =>
        (* If there's a sub, then reconcile the deployment as usual. *)
        let expected := MakeBrokerDispatcherDeployment
          (mkBrokerDispatcherArgs b (dispatcherImage r) (SecretName (Name (brokerMeta b)))
             (CreateBrokerDeadLetterQueueName b) BrokerURLSecretKey sub
             (brokerAddress (brokerStatus b))) in
        reconcileDeployment expected
    | None =>
        (* However if there's not, then ensure that one doesn't exist and
           delete it if does. *)
        let ns := Namespace (brokerMeta b) in
        let dispatcherName := DispatcherName (Name (brokerMeta b)) in
        found ← call (ListerGet KDeployment ns dispatcherName)
                  (get (deployments w) ns dispatcherName);
        match found with
        | Err err =>
            if IsNotFound err then
              (* Not there, we're good. *)
              mret None
            else mret (Some err)
        | Ok _ =>
            (* It's there but it shouldn't, so delete. *)
            call (ClientDelete KDeployment ns dispatcherName)
              (delete (deployments w) ns dispatcherName)
        end
    end.

Definition deadLetterSinkOf (b : Broker) : option Destination :=
    match brokerDelivery (brokerSpec b) with
    | Some d => DeadLetterSink d
    | None => None
    end.

  (** The dead-letter sink and its dispatcher, the end of
      [reconcileCommonIngressResources]: broker.go 523-545 and
      brokerstandalone/broker.go 392-414. *)
Definition reconcileDeadLetterSink : Pipe Broker unit :=
    (* If there's a Dead Letter Sink, then create a dispatcher for it. Note
       that this is for the whole broker, unlike for the Trigger, where we
       create one dispatcher per Trigger. *)
    b ← getObj;
    dlsURI ← match deadLetterSinkOf b with
             | Some deadLetterSink =>
                 resolved ← lift (call (Resolve deadLetterSink)
                                    (URIFromDestinationV1 w deadLetterSink (brokerMeta b)));
                 match resolved with
                 | Err err =>
                     lift (log "error" "Unable to get the DeadLetterSink URI");;
                     onStatus (MarkDeadLetterSinkFailed "Unable to get the DeadLetterSink's URI"
                                 (Sprintf "%v" [errMsg err]));;
                     return_ (Some err)
                 | Ok uri => mret (Some uri)
                 end
             | None => mret None
             end;
    (* Note that if we didn't actually resolve the URI above, as in it's
       left as nil it's ok to pass here it deals with it properly. *)
    err ← withObj (fun b => reconcileDLXDispatcherDeployment b dlsURI);
    match err with
    | Some err =>
        lift (log "error" "Problem reconciling DLX dispatcher Deployment");;
        onStatus (MarkDeadLetterSinkFailed "DeploymentFailure" (Sprintf "%v" [errMsg err]));;
        return_ (Some err)
    | None => return_ None
    end.

  (** [reconcileCommonIngressResources], broker.go 496-546 and
      brokerstandalone/broker.go 365-415. *)
Definition reconcileCommonIngressResources (s : Secret) : Pipe Broker unit :=
    lift (entering "reconcileCommonIngressResources");;
    err ← lift (reconcileSecret s);
    match err with
    | Some err =>
        lift (log "error" "Problem reconciling Secret");;
        onStatus (MarkSecretFailed "SecretFailure"
                    (Sprintf "Failed to reconcile secret: %s" [errMsg err]));;
        return_ (Some err)
    | None => mret ()
    end;;
    onStatus MarkSecretReady;;
    err ← withObj reconcileIngressDeployment;
    match err with
    | Some err =>
        lift (log "error" "Problem reconciling ingress Deployment");;
        onStatus (MarkIngressFailed "DeploymentFailure"
                    (Sprintf "Failed to reconcile deployment: %s" [errMsg err]));;
        return_ (Some err)
    | None => mret ()
    end;;
    ingressEndpoints ← withObj reconcileIngressService;
    ingressEndpoints ← match ingressEndpoints with
                       | Err err =>
                           lift (log "error" "Problem reconciling ingress Service");;
                           onStatus (MarkIngressFailed "ServiceFailure"
                                       (Sprintf "Failed to reconcile service: %s" [errMsg err]));;
                           return_ (Some err)
                       | Ok ep => mret ep
                       end;
    onStatus (PropagateIngressAvailability ingressEndpoints);;
    onStatus (SetAddress
                (Some ("http://" +:+
                       GetServiceHostname (Name (endpointsMeta ingressEndpoints))
                         (Namespace (endpointsMeta ingressEndpoints)))));;
    reconcileDeadLetterSink.

End Common.
End BrokerCommon.

(** ** The Broker reconciler on the topology operator:
       pkg/reconciler/broker/broker.go *)

Module BrokerReconciler.
Import BrokerCommon.

Definition withExchangeSpec (e : Exchange) (s : ExchangeSpec) : Exchange :=
    mkExchange (exchangeMeta e) s (exchangeStatus e).
Definition withQueueSpec (q : Queue) (s : QueueSpec) : Queue :=
    mkQueue (queueMeta q) s (queueStatus q).
Definition withBindingSpec (b : Binding) (s : BindingSpec) : Binding :=
    mkBinding (bindingMeta b) s (bindingStatus b).

Definition withDLX (args : ExchangeArgs) (dlx : bool) : ExchangeArgs :=
    mkExchangeArgs (argsBroker args) (argsTrigger args) (RabbitMQURL args)
      (RabbitMQCluster args) dlx.
Definition withRabbitMQCluster (args : ExchangeArgs) (c : string) : ExchangeArgs :=
    mkExchangeArgs (argsBroker args) (argsTrigger args) (RabbitMQURL args) c (DLX args).
  (** [args.Broker] points to the Broker being reconciled. *)
Definition pointingTo (args : ExchangeArgs) (b : Broker) : ExchangeArgs :=
    mkExchangeArgs b (argsTrigger args) (RabbitMQURL args) (RabbitMQCluster args) (DLX args).

Section Reconciler.
Context `{NM : Naming} `{BD : Builders}.
Variable w : World.
Variable r : Reconciler.

  (** [reconcileExchange], broker.go 357-372. *)
Definition reconcileExchange (args : ExchangeArgs) : IO (result Exchange) :=
    entering "reconcileExchange";;
    let want := NewExchange args in
    let ns := Namespace (brokerMeta (argsBroker args)) in
    let name := BrokerExchangeName (argsBroker args) (DLX args) in
    current ← call (ListerGet KExchange ns name) (get (exchanges w) ns name);
    match current with
    | Err err =>
        if IsNotFound err then
          log "debug" "Creating rabbitmq exchange";;
          call (ClientCreate KExchange ns (Name (exchangeMeta want)))
            (create (exchanges w) ns want)
        else mret (Err err)
    | Ok current =>
        if negb (derive (exchangeSpec want) (exchangeSpec current)) then
          (* Don't modify the informers copy. *)
          let desired := withExchangeSpec current (exchangeSpec want) in
          call (ClientUpdate KExchange ns (Name (exchangeMeta desired)))
            (update (exchanges w) ns desired)
        else mret (Ok current)
    end.

  (** [reconcileQueue], broker.go 374-390. *)
Definition reconcileQueue (b : Broker) : IO (result Queue) :=
    entering "reconcileQueue";;
    let queueName := CreateBrokerDeadLetterQueueName b in
    let want := NewQueue b None in
    let ns := Namespace (brokerMeta b) in
    current ← call (ListerGet KQueue ns queueName) (get (queues w) ns queueName);
    match current with
    | Err err =>
        if IsNotFound err then
          log "debug" "Creating rabbitmq exchange";;
          call (ClientCreate KQueue ns (Name (queueMeta want))) (create (queues w) ns want)
        else mret (Err err)
    | Ok current =>
        if negb (derive (queueSpec want) (queueSpec current)) then
          (* Don't modify the informers copy. *)
          let desired := withQueueSpec current (queueSpec want) in
          call (ClientUpdate KQueue ns (Name (queueMeta desired))) (update (queues w) ns desired)
        else mret (Ok current)
    end.

  (** [reconcileBinding], broker.go 392-413. *)
Definition reconcileBinding (b : Broker) : IO (result Binding) :=
    entering "reconcileBinding";;
    (* We can use the same name for queue / binding to keep things simpler *)
    let bindingName := CreateBrokerDeadLetterQueueName b in
    match NewBinding b None with
    | Err err => mret (Err (Errorf "failed to create the binding spec: " err))
    | Ok want =>
        let ns := Namespace (brokerMeta b) in
        current ← call (ListerGet KBinding ns bindingName) (get (bindings w) ns bindingName);
        match current with
        | Err err =>
            if IsNotFound err then
              log "info" "Creating rabbitmq binding";;
              call (ClientCreate KBinding ns (Name (bindingMeta want)))
                (create (bindings w) ns want)
            else mret (Err err)
        | Ok current =>
            if negb (derive (bindingSpec want) (bindingSpec current)) then
              (* Don't modify the informers copy. *)
              let desired := withBindingSpec current (bindingSpec want) in
              call (ClientUpdate KBinding ns (Name (bindingMeta desired)))
                (update (bindings w) ns desired)
            else mret (Ok current)
        end
    end.

  (** [reconcileUsingCRD], broker.go 415-479. *)
Definition reconcileUsingCRD (args : ExchangeArgs) : Pipe Broker unit :=
    lift (entering "reconcileUsingCRD");;
    lift (log "info" "Reconciling exchange");;
    exchange ← withObj (fun b => reconcileExchange (pointingTo args b));
    gate exchange (fun e => Conditions (exchangeStatus e))
      (fun err =>
         onStatusOf (fun b => MarkExchangeFailed "ExchangeFailure"
           (Sprintf (Sprintf "Failed to reconcile exchange %q: %s"
                       [fmtQ (BrokerExchangeName b false); errMsg err]) [])))
      (fun e =>
         lift (log "warn" (Sprintf "Exchange %q is not ready" [fmtQ (Name (exchangeMeta e))]));;
         onStatus (MarkExchangeFailed "ExchangeFailure"
           (Sprintf (Sprintf "exchange %q is not ready" [fmtQ (Name (exchangeMeta e))]) [])));;
    let args := withDLX args true in
    lift (log "info" "Reconciling DLX exchange");;
    dlxExchange ← withObj (fun b => reconcileExchange (pointingTo args b));
    gate dlxExchange (fun e => Conditions (exchangeStatus e))
      (fun err =>
         onStatusOf (fun b => MarkExchangeFailed "ExchangeFailure"
           (Sprintf (Sprintf "Failed to reconcile DLX exchange %q: %s"
                       [fmtQ (BrokerExchangeName b true); errMsg err]) [])))
      (fun e =>
         lift (log "warn" (Sprintf "DLX exchange %q is not ready" [fmtQ (Name (exchangeMeta e))]));;
         onStatus (MarkExchangeFailed "ExchangeFailure"
           (Sprintf (Sprintf "DLX exchange %q is not ready" [fmtQ (Name (exchangeMeta e))]) [])));;
    onStatus MarkExchangeReady;;
    lift (log "info" "Reconciling queue");;
    queue ← withObj reconcileQueue;
    gate queue (fun q => Conditions (queueStatus q))
      (fun err =>
         onStatusOf (fun b => MarkDLXFailed "QueueFailure"
           (Sprintf (Sprintf "Failed to reconcile Dead Letter Queue %q : %s"
                       [fmtQ (CreateBrokerDeadLetterQueueName b); errMsg err]) [])))
      (fun q =>
         lift (log "warn" (Sprintf "Queue %q is not ready" [fmtQ (Name (queueMeta q))]));;
         onStatus (MarkDLXFailed "QueueFailure"
           (Sprintf (Sprintf "Dead Letter Queue %q is not ready" [fmtQ (Name (queueMeta q))]) [])));;
    onStatus MarkDLXReady;;
    lift (log "info" "Reconciling binding");;
    binding ← withObj reconcileBinding;
    gate binding (fun bi => Conditions (bindingStatus bi))
      (fun err =>
         (* NB, binding has the same name as the queue. *)
         onStatusOf (fun b => MarkDeadLetterSinkFailed "DLQ binding"
           (Sprintf (Sprintf "Failed to reconcile DLQ binding %q : %s"
                       [fmtQ (CreateBrokerDeadLetterQueueName b); errMsg err]) [])))
      (fun bi =>
         lift (log "warn" (Sprintf "Binding %q is not ready" [fmtQ (Name (bindingMeta bi))]));;
         onStatus (MarkDeadLetterSinkFailed "DLQ binding"
           (Sprintf (Sprintf "DLQ binding %q is not ready" [fmtQ (Name (bindingMeta bi))]) [])));;
    onStatus MarkDeadLetterSinkReady;;
    b ← getObj;
    reconcileCommonIngressResources w r (MakeSecret (pointingTo args b)).

  (** [ReconcileKind], broker.go 220-238. *)
Definition ReconcileKind : Pipe Broker unit :=
    lift (entering "ReconcileKind");;
    lift (log "info" "Reconciling");;
    (* 1. RabbitMQ Exchange
       2. Ingress Deployment
       3. K8s Service that points to the Ingress Deployment *)
    args ← withObj (getExchangeArgs w);
    args ← match args with
           | Err err =>
               onStatus (MarkExchangeFailed "ExchangeCredentialsUnavailable"
                           (Sprintf "Failed to get arguments for creating exchange: %s"
                              [errMsg err]));;
               return_ (Some err)
           | Ok args => mret args
           end;
    b ← getObj;
    when (negb (isUsingOperator b))
      (onStatus (MarkExchangeFailed "ReconcileFailure"
                   "using secret is not supported with this controller");;
       return_ None);;
    let args := withRabbitMQCluster args (configName b) in
    reconcileUsingCRD args.

End Reconciler.
End BrokerReconciler.

(** ** The standalone Broker reconciler:
       pkg/reconciler/brokerstandalone/broker.go *)

Module BrokerStandalone.
Import BrokerCommon.

Section Reconciler.
Context `{NM : Naming} `{BD : Builders}.
Variable w : World.
Variable r : Reconciler.

  (** [args.RabbitMQURL.String()]; [getExchangeArgs] sets the URL. *)
Definition urlString (args : ExchangeArgs) : string :=
    default "" (RabbitMQURL args).

  (** [reconcileDLQBinding], brokerstandalone/broker.go 300-318. *)
Definition reconcileDLQBinding (b : Broker) : IO (option error) :=
    entering "reconcileDLQBinding";;
    args ← getExchangeArgs w b;
    match args with
    | Err err => mret (Some err)
    | Ok args =>
        let bindingArgs :=
          mkBindingArgs b "" (urlString args) (adminURL r) (CreateBrokerDeadLetterQueueName b) in
        err ← call (MakeDLQBinding (CreateBrokerDeadLetterQueueName b))
                (driverMakeDLQBinding w bindingArgs);
        match err with
        | Some err =>
            log "error" "Problem declaring Broker DLQ Binding";;
            mret (Some err)
        | None => mret None
        end
    end.

  (** [reconcileUsingLibraries], brokerstandalone/broker.go 320-362. *)
Definition reconcileUsingLibraries (args : ExchangeArgs) : Pipe Broker unit :=
    lift (entering "reconcileUsingLibraries");;
    s ← withObj (fun b =>
      call (DeclareExchange (DLX args))
        (driverDeclareExchange w (BrokerReconciler.pointingTo args b)));
    s ← match s with
        | Err err =>
            lift (log "error" "Problem creating RabbitMQ Exchange");;
            onStatus (MarkExchangeFailed "ExchangeFailure"
                        (Sprintf "Failed to create exchange: %s" [errMsg err]));;
            return_ (Some err)
        | Ok s => mret s
        end;
    onStatus MarkExchangeReady;;
    (* Always just create the DLX. *)
    let args := BrokerReconciler.withDLX args true in
    dlx ← withObj (fun b =>
      call (DeclareExchange (DLX args))
        (driverDeclareExchange w (BrokerReconciler.pointingTo args b)));
    match dlx with
    | Err err =>
        lift (log "error" "Problem creating RabbitMQ DLX");;
        onStatus (MarkDLXFailed "ExchangeFailure"
                    (Sprintf "Failed to create DLX: %s" [errMsg err]));;
        return_ (Some err)
    | Ok _ => mret ()
    end;;
    b ← getObj;
    let queueArgs := mkQueueArgs (CreateBrokerDeadLetterQueueName b) (urlString args) in
    err ← lift (call (DeclareQueue (qaQueueName queueArgs)) (driverDeclareQueue w queueArgs));
    match err with
    | Some err =>
        lift (log "error" "Problem creating RabbitMQ Dead Letter Queue");;
        onStatus (MarkDLXFailed "QueueFailure"
                    (Sprintf "Failed to create Dead Letter Queue: %s" [errMsg err]));;
        return_ (Some err)
    | None => mret ()
    end;;
    onStatus MarkDLXReady;;
    err ← withObj reconcileDLQBinding;
    match err with
    | Some err =>
        lift (log "error" "Problem reconciling DLX Binding");;
        onStatus (MarkDeadLetterSinkFailed "DLQ binding" (Sprintf "%v" [errMsg err]));;
        return_ (Some err)
    | None => mret ()
    end;;
    onStatus MarkDeadLetterSinkReady;;
    reconcileCommonIngressResources w r s.

  (** [ReconcileKind], brokerstandalone/broker.go 130-148. *)
Definition ReconcileKind : Pipe Broker unit :=
    lift (entering "ReconcileKind");;
    lift (log "info" "Reconciling");;
    args ← withObj (getExchangeArgs w);
    args ← match args with
           | Err err =>
               onStatus (MarkExchangeFailed "ExchangeCredentialsUnavailable"
                           (Sprintf "Failed to get arguments for creating exchange: %s"
                              [errMsg err]));;
               return_ (Some err)
           | Ok args => mret args
           end;
    b ← getObj;
    if isUsingOperator b then
      (* TODO: Mark as error since we can't reconcile these. *)
      return_ (Some (errorsNew "WON'T GO"))
    else reconcileUsingLibraries args.

  (** [FinalizeKind], brokerstandalone/broker.go 150-181. *)
Definition FinalizeKind : Pipe Broker unit :=
    lift (entering "FinalizeKind");;
    b ← getObj;
    when (isUsingOperator b)
      (* Everything gets cleaned up by garbage collection in this case. *)
      (return_ None);;
    args ← lift (getExchangeArgs w b);
    args ← match args with
           | Err err =>
               (* Log it and allow the removal of the resource. *)
               lift (log "error"
                 "Failed to get Exchange args, there might be leaked rabbit resources");;
               return_ None
           | Ok args => mret args
           end;
    err ← lift (call (DeleteExchange (DLX args)) (driverDeleteExchange w args));
    match err with
    | Some err => lift (log "error" "Problem deleting exchange")
    | None => mret ()
    end;;
    let args := BrokerReconciler.withDLX args true in
    err ← lift (call (DeleteExchange (DLX args)) (driverDeleteExchange w args));
    match err with
    | Some err => lift (log "error" "Problem deleting DLX exchange")
    | None => mret ()
    end;;
    let queueArgs := mkQueueArgs (CreateBrokerDeadLetterQueueName b) (urlString args) in
    err ← lift (call (DeleteQueue (qaQueueName queueArgs)) (driverDeleteQueue w queueArgs));
    match err with
    | Some err => lift (log "error" "Problem deleting DLX queue")
    | None => mret ()
    end;;
    return_ None.

End Reconciler.
End BrokerStandalone.

(** ** A concrete cluster to run the reconcilers on *)

Module Demo.

  (** Names as the tests of the resources packages expect them:
      [t.foobar.my-trigger.trigger-test-uid],
      [b.foobar.testbroker.dlq.broker-test-uid]. *)
Definition dotted (parts : list string) : string :=
    foldr (fun p acc => if bool_decide (acc = "") then p else p +:+ "." +:+ acc) "" parts.

#[export] Instance naming : Naming := {|
    BrokerExchangeName b dlx :=
      let m := brokerMeta b in
      if dlx then dotted ["b"; Namespace m; Name m; "dlx"; UID m]
      else dotted ["b"; Namespace m; Name m; UID m];
    TriggerDLXExchangeName t :=
      let m := triggerMeta t in dotted ["t"; Namespace m; Name m; "dlx"; UID m];
    CreateTriggerQueueName t :=
      let m := triggerMeta t in dotted ["t"; Namespace m; Name m; UID m];
    CreateTriggerDeadLetterQueueName t :=
      let m := triggerMeta t in dotted ["t"; Namespace m; Name m; "dlq"; UID m];
    CreateBrokerDeadLetterQueueName b :=
      let m := brokerMeta b in dotted ["b"; Namespace m; Name m; "dlq"; UID m]
  |}.

  (** A JSON object of strings, keys in the order of the map, without
      escapes. *)
Definition marshal (m : gmap string string) : string :=
    "{" +:+ foldr (fun '(k, v) acc =>
                     fmtQ k +:+ ":" +:+ fmtQ v
                     +:+ (if bool_decide (acc = "") then "" else "," +:+ acc))
              "" (map_to_list m) +:+ "}".

Definition simpleDeployment (ns name image : string) (env : list (string * string))
    : Deployment :=
    mkDeployment (mkObjectMeta ns name "" 0 ∅ ∅ [])
      (mkDeploymentSpec None ∅
         (mkPodTemplateSpec ∅ "" [mkContainer "dispatcher" image env])).

#[export] Instance builders : Builders := {|
    jsonMarshal := marshal;
    NewQueue b t :=
      let '(ns, name) :=
        match t with
        | Some t => (Namespace (brokerMeta b), CreateTriggerQueueName t)
        | None => (Namespace (brokerMeta b), CreateBrokerDeadLetterQueueName b)
        end in
      mkQueue (mkObjectMeta ns name "" 0 ∅ ∅ [])
        (mkQueueSpec name "" "" true false None (mkClusterRef (configName b))) emptyStatus;
    NewTriggerDLQ b t :=
      let name := CreateTriggerDeadLetterQueueName t in
      mkQueue (mkObjectMeta (Namespace (brokerMeta b)) name "" 0 ∅ ∅ [])
        (mkQueueSpec name "" "" true false None (mkClusterRef (configName b))) emptyStatus;
    MakeDispatcherDeployment da :=
      simpleDeployment (Namespace (triggerMeta (daTrigger da)))
        (Name (triggerMeta (daTrigger da))
         +:+ (if daDLX da then "-dlx-dispatcher" else "-dispatcher"))
        (daImage da) [("QUEUE_NAME", daQueueName da); ("SUBSCRIBER", daSubscriber da)];
    SecretName name := name +:+ "-broker-rabbit";
    BrokerURLSecretKey := "brokerURL";
    DispatcherName name := name +:+ "-dlq-dispatcher";
    MakeSecret args :=
      mkSecret (mkObjectMeta (Namespace (brokerMeta (argsBroker args)))
                  (Name (brokerMeta (argsBroker args)) +:+ "-broker-rabbit") "" 0 ∅ ∅ [])
        (<["brokerURL" := default "" (RabbitMQURL args)]> ∅);
    MakeIngressDeployment ia :=
      simpleDeployment (Namespace (brokerMeta (iaBroker ia)))
        (Name (brokerMeta (iaBroker ia)) +:+ "-broker-ingress") (iaImage ia) [];
    MakeIngressService b :=
      mkService (mkObjectMeta (Namespace (brokerMeta b))
                   (Name (brokerMeta b) +:+ "-broker-ingress") "" 0 ∅ ∅ [])
        (mkServiceSpec "" ∅ [("http", 80)]);
    MakeBrokerDispatcherDeployment bda :=
      simpleDeployment (Namespace (brokerMeta (bdaBroker bda)))
        (Name (brokerMeta (bdaBroker bda)) +:+ "-dlq-dispatcher") (bdaImage bda)
        [("QUEUE_NAME", bdaQueueName bda); ("SUBSCRIBER", bdaSubscriber bda)];
    GetObjRefFromDependencyAnnotation s :=
      if bool_decide (s = "") || String.prefix "{" s
      then Err (errorsNew "unexpected end of JSON input")
      else Ok (mkObjectReference "PingSource" "foobar" s "sources.knative.dev/v1");
    GetServiceHostname name ns := name +:+ "." +:+ ns +:+ ".svc.cluster.local"
  |}.

Definition notFound : error := Error true "not found".
Definition ready : TopologyStatus :=
    mkTopologyStatus [mkCondition "Ready" ConditionTrue "" ""] 1.
Definition readyCondition : KCondition := mkKCondition ConditionTrue "" "" "".

Definition cluster : KReference :=
    mkKReference "RabbitmqCluster" "foobar" "rabbit" "rabbitmq.com/v1beta1".
Definition secretConfig : KReference := mkKReference "Secret" "foobar" "rabbit" "v1".

  (** A Broker of class [class] whose config is [config], Ready or not. *)
Definition broker (class : string) (config : KReference) (isReady : bool) : Broker :=
    mkBroker
      (mkObjectMeta "foobar" "testbroker" "broker-test-uid" 1 ∅
         (<[BrokerClassKey := class]> ∅) [])
      (mkBrokerSpec (Some config) None)
      (mkBrokerStatus 1
         (if isReady then <[ConditionReady := readyCondition]> ∅ else ∅)
         (Some "http://testbroker-broker-ingress.foobar.svc.cluster.local")).

Definition sink : Destination := mkDestination None (Some "http://sink.example").
Definition subscriber : Destination := mkDestination None (Some "http://subscriber.example").

  (** A Trigger on [testbroker], fresh from the store: no condition yet. *)
Definition trigger (annotations filter : gmap string string) (withFilter withDLS : bool)
    : Trigger :=
    mkTrigger
      (mkObjectMeta "foobar" "my-trigger" "trigger-test-uid" 1 ∅ annotations [])
      (mkTriggerSpec "testbroker" (if withFilter then Some filter else None) subscriber
         (if withDLS then Some (mkDeliverySpec (Some sink) None None None) else None))
      (mkTriggerStatus 0 ∅ None None).

  (** A store of one kind: nothing is found, or whatever is asked for is
      there as [obj ns name]; writes succeed and give back what was sent. *)
Definition store {A} (found : option (string -> string -> A)) : Store A :=
    mkStore
      (fun ns name => match found with
                      | Some obj => Ok (obj ns name)
                      | None => Err notFound
                      end)
      (fun _ o => Ok o) (fun _ o => Ok o) (fun _ _ => None).

Definition anExchange (ns name : string) : Exchange :=
    mkExchange (mkObjectMeta ns name "uid" 1 ∅ ∅ [])
      (mkExchangeSpec name "/" "headers" true false None (mkClusterRef "rabbit")) ready.
Definition aQueue (ns name : string) : Queue :=
    mkQueue (mkObjectMeta ns name "uid" 1 ∅ ∅ [])
      (mkQueueSpec name "/" "quorum" true false None (mkClusterRef "rabbit")) ready.
  (** A binding of the queue [name] to an exchange no builder names. *)
Definition aBinding (ns name : string) : Binding :=
    mkBinding (mkObjectMeta ns name "uid" 1 ∅ ∅ [])
      (mkBindingSpec "/" "some-other-exchange" name "queue" "" None (mkClusterRef "rabbit"))
      ready.
Definition aDeployment (ns name : string) : Deployment :=
    simpleDeployment ns name "some-image" [].
Definition aSecret (ns name : string) : Secret :=
    mkSecret (mkObjectMeta ns name "uid" 1 ∅ ∅ []) ∅.
Definition aService (ns name : string) : Service :=
    mkService (mkObjectMeta ns name "uid" 1 ∅ ∅ []) (mkServiceSpec "10.0.0.7" ∅ [("http", 80)]).
Definition someEndpoints (ns name : string) : Endpoints :=
    mkEndpoints (mkObjectMeta ns name "uid" 1 ∅ ∅ []) ["10.1.2.3"].

  (** The dependency of a Trigger, at generation [gen] with [observed]
      reported in its status. *)
Definition aSource (gen observed : Z) (ns name : string) : Source :=
    mkSource (mkObjectMeta ns name "uid" gen ∅ ∅ []) observed
      (<[ConditionReady := readyCondition]> ∅).

  (** A cluster that knows the Broker [b], where the topology and compute
      objects are all present ([populated]) or all missing, bindings are
      given by [bindingsFound], and the driver answers [driver] to every
      delete. *)
Definition presentIf {A} (populated : bool) (obj : string -> string -> A)
    : option (string -> string -> A) :=
    if populated then Some obj else None.

Definition world (b : option Broker) (populated : bool)
      (bindingsFound : option (string -> string -> Binding))
      (src : Source) (driver : option error) : World :=
    let found := fun A => @presentIf A populated in
    mkWorld
      (fun ns name => match b with Some b => Ok b | None => Err notFound end)
      (store (found _ anExchange)) (store (found _ aQueue)) (store bindingsFound)
      (store (found _ aDeployment)) (store (found _ aSecret)) (store (found _ aService))
      (fun ns name => Ok (someEndpoints ns name))
      (fun ns name => Ok (aSecret ns name))
      (fun d _ => match destURI d with
                  | Some u => Ok u
                  | None => Err (errorsNew "destination missing Ref and URI")
                  end)
      (fun _ _ => None) (fun _ => None)
      (fun _ ns name => Ok src)
      (fun _ => Ok "amqp://rabbit.foobar.svc:5672")
      (fun _ => Ok (aSecret "foobar" "testbroker-broker-rabbit"))
      (fun _ => driver) (fun _ => driver) (fun _ => driver) (fun _ => None).

Definition triggerReconciler : TriggerReconciler.Reconciler :=
    TriggerReconciler.mkReconciler "dispatcher-image" "dispatcher-sa" "RabbitMQBroker".
Definition brokerReconciler : BrokerCommon.Reconciler :=
    BrokerCommon.mkReconciler "ingress-image" "ingress-sa" "RabbitMQBroker"
      "dispatcher-image" "http://admin.example".

  (** The Brokers, Triggers and clusters the runs below are made on. *)
Definition rabbitBroker : Broker := broker "RabbitMQBroker" cluster true.
Definition secretBroker (isReady : bool) : Broker := broker "RabbitMQBroker" secretConfig isReady.

Definition plainTrigger : Trigger := trigger ∅ ∅ false false.
Definition deadLetterTrigger : Trigger := trigger ∅ ∅ false true.
Definition dependentTrigger : Trigger :=
    trigger (<[DependencyAnnotation := "ping"]> ∅) ∅ false false.
Definition filteredTrigger : Trigger := trigger ∅ (<["x-match" := "any"]> ∅) true false.

  (** Everything is there, the bindings with a spec of their own; the
      dependency has observed generation [observed] of its 2. *)
Definition populatedWorld (b : Broker) (observed : Z) : World :=
    world (Some b) true (Some aBinding) (aSource 2 observed "foobar" "ping") None.

Definition unreadyBroker : Broker := broker "RabbitMQBroker" cluster false.
  (** A dependency annotation that breaks off after its first key. *)
Definition brokenAnnotation : string := "{" +:+ doubleQuote +:+ "kind" +:+ doubleQuote.
Definition badAnnotationTrigger : Trigger :=
    trigger (<[DependencyAnnotation := brokenAnnotation]> ∅) ∅ false false.

  (** A dispatcher Deployment as wanted with three replicas, on the pod
      template of the one that is there. *)
Definition scaledDeployment : Deployment :=
    mkDeployment (mkObjectMeta "foobar" "my-trigger-dispatcher" "" 0 ∅ ∅ [])
      (mkDeploymentSpec (Some 3) ∅
         (Template (deploymentSpec (aDeployment "foobar" "my-trigger-dispatcher")))).

  (** Nothing is there yet: every read of an object answers not found and
      every create gives back what was sent, without conditions. *)
Definition emptyWorld (b : Broker) : World :=
    world (Some b) false None (aSource 2 2 "foobar" "ping") None.

  (** The Broker is not there. *)
Definition brokerlessWorld : World :=
    world None true (Some aBinding) (aSource 2 2 "foobar" "ping") None.

  (** The informer of Brokers fails. *)
Definition connectionRefused : error := errorsNew "connection refused".
Definition brokenListerWorld : World :=
    let w0 := brokerlessWorld in
    mkWorld (fun _ _ => Err connectionRefused)
      (exchanges w0) (queues w0) (bindings w0) (deployments w0) (secrets w0) (services w0)
      (endpointsLister w0) (kubeGetSecret w0) (URIFromDestinationV1 w0) (trackKResource w0)
      (sourceListerFor w0) (sourceGet w0) (rabbitmqURL w0) (driverDeclareExchange w0)
      (driverDeleteExchange w0) (driverDeclareQueue w0) (driverDeleteQueue w0)
      (driverMakeDLQBinding w0).

  (** The informers of the topology and compute objects fail. *)
Definition failingStore {A} : Store A :=
    mkStore (fun _ _ => Err connectionRefused) (fun _ o => Ok o) (fun _ o => Ok o)
      (fun _ _ => None).
Definition brokenStoresWorld : World :=
    let w0 := populatedWorld rabbitBroker 2 in
    mkWorld (brokerLister w0) failingStore failingStore failingStore failingStore
      failingStore failingStore
      (endpointsLister w0) (kubeGetSecret w0) (URIFromDestinationV1 w0) (trackKResource w0)
      (sourceListerFor w0) (sourceGet w0) (rabbitmqURL w0) (driverDeclareExchange w0)
      (driverDeleteExchange w0) (driverDeclareQueue w0) (driverDeleteQueue w0)
      (driverMakeDLQBinding w0).

  (** An ingress Service as wanted on another port than the one there. *)
Definition otherPortService : Service :=
    mkService (mkObjectMeta "foobar" "testbroker-broker-ingress" "" 0 ∅ ∅ [])
      (mkServiceSpec "" ∅ [("http", 8080)]).

  (** A cluster where a run has already been made for [rabbitBroker] and
      [deadLetterTrigger]: the exchanges and queues are there and ready,
      the bindings have the specs that the builders give them, the Secret
      carries the URL of the cluster, the ingress and the two dispatchers
      of the Trigger run the wanted pod templates with one replica, and
      there is no dead-letter dispatcher of the Broker, which has no
      dead-letter sink. *)
Definition asFound (built : result Binding) (ns name : string) : Binding :=
    match built with
    | Ok b => mkBinding (mkObjectMeta ns name "uid" 1 ∅ ∅ []) (bindingSpec b) ready
    | Err _ => aBinding ns name
    end.

Definition builtBindings (ns name : string) : Binding :=
    if bool_decide (name = "t.foobar.my-trigger.trigger-test-uid") then
      asFound (NewBinding rabbitBroker (Some deadLetterTrigger)) ns name
    else if bool_decide (name = "t.foobar.my-trigger.dlq.trigger-test-uid") then
      asFound (NewTriggerDLQBinding rabbitBroker deadLetterTrigger) ns name
    else asFound (NewBinding rabbitBroker None) ns name.

Definition running (d : Deployment) : Deployment :=
    mkDeployment
      (mkObjectMeta (Namespace (deploymentMeta d)) (Name (deploymentMeta d)) "uid" 1 ∅ ∅ [])
      (mkDeploymentSpec (Some 1) (selectorLabels (deploymentSpec d)) (Template (deploymentSpec d))).

Definition runningDeployments (ns name : string) : result Deployment :=
    if bool_decide (name = "my-trigger-dispatcher") then
      Ok (running (simpleDeployment ns name "dispatcher-image"
                     [("QUEUE_NAME", "t.foobar.my-trigger.trigger-test-uid");
                      ("SUBSCRIBER", "http://subscriber.example")]))
    else if bool_decide (name = "my-trigger-dlx-dispatcher") then
      Ok (running (simpleDeployment ns name "dispatcher-image"
                     [("QUEUE_NAME", "t.foobar.my-trigger.dlq.trigger-test-uid");
                      ("SUBSCRIBER", "http://sink.example")]))
    else if bool_decide (name = "testbroker-broker-ingress") then
      Ok (running (simpleDeployment ns name "ingress-image" []))
    else Err notFound.

Definition urlSecret (ns name : string) : Secret :=
    mkSecret (mkObjectMeta ns name "uid" 1 ∅ ∅ [])
      (<["brokerURL" := "amqp://rabbit.foobar.svc:5672"]> ∅).

Definition settledWorld (b : Broker) : World :=
    let w0 := populatedWorld b 2 in
    mkWorld (brokerLister w0) (exchanges w0) (queues w0) (store (Some builtBindings))
      (mkStore runningDeployments (fun _ o => Ok o) (fun _ o => Ok o) (fun _ _ => None))
      (store (Some urlSecret)) (services w0)
      (endpointsLister w0) (kubeGetSecret w0) (URIFromDestinationV1 w0) (trackKResource w0)
      (sourceListerFor w0) (sourceGet w0) (rabbitmqURL w0) (driverDeclareExchange w0)
      (driverDeleteExchange w0) (driverDeclareQueue w0) (driverDeleteQueue w0)
      (driverMakeDLQBinding w0).

End Demo.

(** ** Reasoning about runs *)

(** [wp m Post Fin h s]: running [m] on the object [s] after the calls [h]
    ends in [Post] when the run goes on and in [Fin] when it returns, both
    over the calls made so far and the object as it then is. *)
Definition wp {S A} (m : Pipe S A) (Post : A -> list Event -> S -> Prop)
    (Fin : option error -> list Event -> S -> Prop) (h : list Event) (s : S) : Prop :=
  match m s with
  | (tr, s', Continue a) => Post a (h ++ tr) s'
  | (tr, s', Return r) => Fin r (h ++ tr) s'
  end.

(** [holds G I m]: the run [m] keeps the property [G] of the calls made so
    far and the property [I] of the object, however it ends. *)
Definition holds {S A} (G : list Event -> Prop) (I : S -> Prop) (m : Pipe S A) : Prop :=
  forall h s, G h -> I s ->
    wp m (fun _ h' s' => G h' /\ I s') (fun _ h' s' => G h' /\ I s') h s.

(** Kinds of calls. A delete is the delete of an object through the API
    server or the deletion of an exchange or queue through the driver. *)
Definition isDelete (e : Event) : bool :=
  match e with
  | ClientDelete _ _ _ | DeleteExchange _ | DeleteQueue _ => true
  | _ => false
  end.

Definition isWrite (e : Event) : bool :=
  match e with
  | ClientCreate _ _ _ | ClientUpdate _ _ _ | ClientDelete _ _ _ => true
  | _ => false
  end.

Definition isTopologyKind (k : Kind) : bool :=
  match k with
  | KExchange | KQueue | KBinding => true
  | _ => false
  end.

(** Work on the messaging topology: a read or write of an Exchange, Queue
    or Binding, a driver call, or the entry of one of their reconcile
    methods. *)
Definition isTopology (e : Event) : bool :=
  match e with
  | ListerGet k _ _ | ClientGet k _ _ | ClientCreate k _ _
  | ClientUpdate k _ _ | ClientDelete k _ _ => isTopologyKind k
  | DeclareExchange _ | DeleteExchange _ | DeclareQueue _ | DeleteQueue _
  | MakeDLQBinding _ => true
  | Invoke fn =>
      bool_decide (fn ∈ ["reconcileExchange"; "reconcileQueue"; "reconcileDLQ";
                         "reconcileBinding"; "reconcileDLQBinding";
                         "reconcileUsingCRD"; "reconcileUsingLibraries"])
  | _ => false
  end.

(** The calls a computation makes. *)
Definition calls {A} (m : IO A) : list Event := m.1.
Definition answer {A} (m : IO A) : A := m.2.

Definition noDelete (e : Event) : Prop := isDelete e = false.
Definition noWrite (e : Event) : Prop := isWrite e = false.
Definition noTopology (e : Event) : Prop := isTopology e = false.

(** The calls the Trigger reconciler is written to make: reads through the
    listers, the Secret read, creation of the four kinds it owns, updates
    of all of them but bindings, resolution and tracking. *)
Definition triggerCall (e : Event) : bool :=
  match e with
  | Invoke _ | Log _ _ | Resolve _ | Track _ | ListerFor _ => true
  | ListerGet k _ _ =>
      bool_decide (k ∈ [KBroker; KExchange; KQueue; KBinding; KDeployment; KSource])
  | ClientGet k _ _ => bool_decide (k = KSecret)
  | ClientCreate k _ _ => bool_decide (k ∈ [KExchange; KQueue; KBinding; KDeployment])
  | ClientUpdate k _ _ => bool_decide (k ∈ [KExchange; KQueue; KDeployment])
  | _ => false
  end.

(** ** What a Trigger run may write *)

Section TriggerUpserts.
Context `{NM : Naming} `{BD : Builders}.
Variable w : World.
Variable r : TriggerReconciler.Reconciler.
Import TriggerReconciler.

  (** The Trigger as a run sees it along the way: the identity and spec it
      started with, the namespace of the subscriber reference filled in or
      not, and whatever status. *)
Definition sameTrigger (t t' : Trigger) : Prop :=
    triggerMeta t' = triggerMeta t
    /\ (triggerSpec t' = triggerSpec t
        \/ triggerSpec t' = triggerSpec (defaultSubscriberNamespace t)).

  (** [e] is a call of one of the seven upserts of a run on the Trigger [t]
      under the Broker [broker]. *)
Definition upsertCall (broker : Broker) (t : Trigger) (e : Event) : Prop :=
    exists t', sameTrigger t t'
      /\ (e ∈ calls (reconcileExchange w (mkExchangeArgs broker (Some t') None "" true))
          \/ e ∈ calls (reconcileDLQ w broker t')
          \/ e ∈ calls (reconcileDLQBinding w broker t')
          \/ (exists sub, e ∈ calls (reconcileDLXDispatcherDeployment w r t' sub))
          \/ e ∈ calls (reconcileQueue w broker t')
          \/ e ∈ calls (reconcileBinding w broker t')
          \/ (exists sub delivery,
                e ∈ calls (reconcileDispatcherDeployment w r t' sub delivery))).

  (** Every write of the calls [h] is a call of an upsert. *)
Definition writesFromUpserts (broker : Broker) (t : Trigger) (h : list Event) : Prop :=
    Forall (fun e => isWrite e = true -> upsertCall broker t e) h.

End TriggerUpserts.

(** The line logged for a failed deletion, if it failed. *)
Definition loggedIf (err : option error) (msg : string) : list Event :=
  match err with
  | Some _ => [Log "error" msg]
  | None => []
  end.

(** ** What a Broker run may delete *)

Section BrokerDeletes.
Context `{NM : Naming} `{BD : Builders}.
Variable w : World.
Import BrokerCommon.

  (** The Broker as a run sees it along the way: its identity and spec,
      with whatever status. *)
Definition sameBroker (b b' : Broker) : Prop :=
    brokerMeta b' = brokerMeta b /\ brokerSpec b' = brokerSpec b.

  (** A delete call, if [e] is one, is the delete of the dead-letter
      dispatcher Deployment of [b], which has no dead-letter sink and whose
      dispatcher the lister found. *)
Definition dispatcherDeleteOnly (b : Broker) (e : Event) : Prop :=
    isDelete e = true ->
    e = ClientDelete KDeployment (Namespace (brokerMeta b))
          (DispatcherName (Name (brokerMeta b)))
    /\ deadLetterSinkOf b = None
    /\ exists d, get (deployments w) (Namespace (brokerMeta b))
                   (DispatcherName (Name (brokerMeta b))) = Ok d.

End BrokerDeletes.


(** ** The order of the steps of a Trigger run *)

Section Ordering.
Context `{NM : Naming} `{BD : Builders}.
Variable w : World.
Variable t : Trigger.
Import TriggerReconciler.

  (** Among the calls [pre] are those of a [reconcileExchange] for the
      dead-letter exchange of the Trigger, and it returned an exchange whose
      conditions are ready. *)
Definition dlxReadyIn (pre : list Event) : Prop :=
    exists broker t' dlx h1 h2,
      sameTrigger t t'
      /\ pre = h1 ++ calls (reconcileExchange w (mkExchangeArgs broker (Some t') None "" true))
                 ++ h2
      /\ answer (reconcileExchange w (mkExchangeArgs broker (Some t') None "" true)) = Ok dlx
      /\ isReady (Conditions (exchangeStatus dlx)) = true.

  (** Among the calls [pre] is the resolution of the subscriber of the
      Trigger, and it gave an address. *)
Definition resolvedIn (pre : list Event) : Prop :=
    exists t' uri,
      sameTrigger t t'
      /\ Resolve (Subscriber (triggerSpec t')) ∈ pre
      /\ URIFromDestinationV1 w (Subscriber (triggerSpec t')) (triggerMeta t') = Ok uri.

  (** What must have come before the call [e]. *)
Definition guarded (pre : list Event) (e : Event) : Prop :=
    (e = Invoke "reconcileDLQ" \/ e = Invoke "reconcileDLQBinding" -> dlxReadyIn pre)
    /\ (e = Invoke "reconcileDispatcherDeployment" -> resolvedIn pre).

Definition ordered (h : list Event) : Prop :=
    forall pre e post, h = pre ++ e :: post -> guarded pre e.

  (** A call that needs nothing before it. *)
Definition plain (e : Event) : Prop :=
    e <> Invoke "reconcileDLQ" /\ e <> Invoke "reconcileDLQBinding"
    /\ e <> Invoke "reconcileDispatcherDeployment".

  (** The calls so far are ordered and the dead-letter exchange is ready
      among them; the calls that may follow then. *)
Definition orderedWithDLX (h : list Event) : Prop := ordered h /\ dlxReadyIn h.
Definition deadLetterStep (e : Event) : Prop :=
    e = Invoke "reconcileDLQ" \/ e = Invoke "reconcileDLQBinding" \/ plain e.

  (** The same once the subscriber is resolved. *)
Definition orderedResolved (h : list Event) : Prop := ordered h /\ resolvedIn h.
Definition dispatcherStep (e : Event) : Prop :=
    e = Invoke "reconcileDispatcherDeployment" \/ plain e.

End Ordering.

(** The Trigger [s] of a run on [t] once the run has recorded the
    generation it reconciles. *)
Definition seenGeneration (t s : Trigger) : Prop :=
  triggerMeta s = triggerMeta t
  /\ triggerObservedGeneration (triggerStatus s) = Generation (triggerMeta t).

(** Calls by strategy: the wire-level driver of the standalone reconciler,
    and the topology objects of the operator. *)
Definition isDriverCall (e : Event) : bool :=
  match e with
  | DeclareExchange _ | DeleteExchange _ | DeclareQueue _ | DeleteQueue _
  | MakeDLQBinding _ => true
  | _ => false
  end.

Definition isTopologyObjectCall (e : Event) : bool :=
  match e with
  | ListerGet k _ _ | ClientGet k _ _ | ClientCreate k _ _
  | ClientUpdate k _ _ | ClientDelete k _ _ => isTopologyKind k
  | _ => false
  end.

(** The Trigger [t] as a run holds it when it has passed the Broker gates
    and comes to its dependency: conditions initialised, the generation
    recorded, the Broker's top-level condition copied. *)
Definition afterBrokerGates (t : Trigger) (broker : Broker) : Trigger :=
  let s := TriggerReconciler.setObservedGeneration
             (TriggerReconciler.withStatus t (TS.InitializeConditions (triggerStatus t))) in
  TriggerReconciler.withStatus s
    (TS.PropagateBrokerCondition (brokerGetTopLevelCondition (brokerStatus broker))
       (triggerStatus s)).

(** ** A store that holds what a run wants *)

Section Settled.
Context `{NM : Naming} `{BD : Builders}.
Variable w : World.

  (** The lister finds, under the name the upsert reads, an object of which
      the part the upsert compares partial-matches the desired one. *)
Definition exchangeSettled (ns name : string) (want : Exchange) : Prop :=
    exists current,
      get (exchanges w) ns name = Ok current
      /\ derive (exchangeSpec want) (exchangeSpec current) = true.

Definition queueSettled (ns name : string) (want : Queue) : Prop :=
    exists current,
      get (queues w) ns name = Ok current
      /\ derive (queueSpec want) (queueSpec current) = true.

Definition bindingSettled (ns name : string) (want : result Binding) : Prop :=
    exists current,
      get (bindings w) ns name = Ok current
      /\ forall binding, want = Ok binding ->
           derive (bindingSpec binding) (bindingSpec current) = true.

Definition bindingFound (ns name : string) : Prop :=
    exists current, get (bindings w) ns name = Ok current.

Definition deploymentSettled (d : Deployment) : Prop :=
    exists current,
      get (deployments w) (Namespace (deploymentMeta d)) (Name (deploymentMeta d)) = Ok current
      /\ derive (Template (deploymentSpec d)) (Template (deploymentSpec current)) = true.

Definition secretSettled (s : Secret) : Prop :=
    exists current,
      get (secrets w) (Namespace (secretMeta s)) (Name (secretMeta s)) = Ok current
      /\ derive (StringData s) (StringData current) = true.

Definition serviceSettled (svc : Service) : Prop :=
    exists current,
      get (services w) (Namespace (serviceMeta svc)) (Name (serviceMeta svc)) = Ok current
      /\ derive (BrokerCommon.withClusterIP (serviceSpec svc) (ClusterIP (serviceSpec current)))
           (serviceSpec current) = true.

  (** The store holds what a run on the Trigger [t] under [broker] upserts:
      its queue, its binding (a binding that is found is never written) and,
      for the address its subscriber resolves to, its dispatcher; and when
      the Trigger has a dead-letter sink, its dead-letter exchange, queue
      and binding and, for the address the sink resolves to, its dead-letter
      dispatcher. The names and the desired objects are those of the Trigger
      as the run holds it, [t] with whatever status. *)
Definition triggerSettled (r : TriggerReconciler.Reconciler) (broker : Broker) (t : Trigger)
    : Prop :=
    forall t', sameTrigger t t' ->
      queueSettled (Namespace (brokerMeta broker)) (CreateTriggerQueueName t')
        (NewQueue broker (Some t'))
      /\ bindingFound (Namespace (brokerMeta broker)) (CreateTriggerQueueName t')
      /\ (forall sub secret b',
            URIFromDestinationV1 w (Subscriber (triggerSpec t')) (triggerMeta t') = Ok sub ->
            kubeGetSecret w (Namespace (triggerMeta t'))
              (SecretName (specBroker (triggerSpec t'))) = Ok secret ->
            brokerLister w (Namespace (triggerMeta t')) (specBroker (triggerSpec t')) = Ok b' ->
            deploymentSettled
              (MakeDispatcherDeployment
                 (mkDispatcherArgs t' (TriggerReconciler.dispatcherImage r)
                    (Name (secretMeta secret)) (CreateTriggerQueueName t') BrokerURLSecretKey
                    (brokerAddress (brokerStatus b')) sub
                    match triggerDelivery (triggerSpec t') with
                    | Some d => Some d
                    | None => brokerDelivery (brokerSpec broker)
                    end
                    false)))
      /\ (forall sink,
            TriggerReconciler.hasDeadLetterSink (triggerDelivery (triggerSpec t')) = Some sink ->
            exchangeSettled (Namespace (triggerMeta t')) (TriggerDLXExchangeName t')
              (NewExchange (mkExchangeArgs broker (Some t') None "" true))
            /\ queueSettled (Namespace (brokerMeta broker))
                 (CreateTriggerDeadLetterQueueName t') (NewTriggerDLQ broker t')
            /\ bindingFound (Namespace (brokerMeta broker))
                 (CreateTriggerDeadLetterQueueName t')
            /\ (forall sub secret b',
                  URIFromDestinationV1 w sink (triggerMeta t') = Ok sub ->
                  kubeGetSecret w (Namespace (triggerMeta t'))
                    (SecretName (specBroker (triggerSpec t'))) = Ok secret ->
                  brokerLister w (Namespace (triggerMeta t'))
                    (specBroker (triggerSpec t')) = Ok b' ->
                  deploymentSettled
                    (MakeDispatcherDeployment
                       (mkDispatcherArgs t' (TriggerReconciler.dispatcherImage r)
                          (Name (secretMeta secret)) (CreateTriggerDeadLetterQueueName t')
                          BrokerURLSecretKey (brokerAddress (brokerStatus b')) sub None
                          true)))).

  (** The store holds what [reconcileCommonIngressResources] upserts for
      the Broker [b] and the Secret [s]: the Secret, the ingress Deployment
      and Service and, for the address the dead-letter sink resolves to, the
      dispatcher; without a dead-letter sink, no dispatcher is there. *)
Definition ingressSettled (r : BrokerCommon.Reconciler) (b : Broker) (s : Secret) : Prop :=
    forall b', sameBroker b b' ->
      secretSettled s
      /\ deploymentSettled
           (MakeIngressDeployment
              (mkIngressArgs b' (BrokerCommon.ingressImage r)
                 (SecretName (Name (brokerMeta b'))) BrokerURLSecretKey))
      /\ serviceSettled (MakeIngressService b')
      /\ match BrokerCommon.deadLetterSinkOf b' with
         | Some sink =>
             forall sub,
               URIFromDestinationV1 w sink (brokerMeta b') = Ok sub ->
               deploymentSettled
                 (MakeBrokerDispatcherDeployment
                    (mkBrokerDispatcherArgs b' (BrokerCommon.dispatcherImage r)
                       (SecretName (Name (brokerMeta b')))
                       (CreateBrokerDeadLetterQueueName b') BrokerURLSecretKey sub
                       (brokerAddress (brokerStatus b'))))
         | None =>
             exists err,
               get (deployments w) (Namespace (brokerMeta b'))
                 (DispatcherName (Name (brokerMeta b'))) = Err err
               /\ IsNotFound err = true
         end.

  (** The store holds what a run of the Broker pipeline on the operator
      upserts for the Broker [b], with the exchange arguments [args]: its
      two exchanges, its dead-letter queue and binding, and the ingress
      resources. *)
Definition brokerSettled (r : BrokerCommon.Reconciler) (b : Broker) (args : ExchangeArgs)
    : Prop :=
    forall b', sameBroker b b' ->
      let args := BrokerReconciler.withRabbitMQCluster args (configName b) in
      exchangeSettled (Namespace (brokerMeta b')) (BrokerExchangeName b' (DLX args))
        (NewExchange (BrokerReconciler.pointingTo args b'))
      /\ exchangeSettled (Namespace (brokerMeta b')) (BrokerExchangeName b' true)
           (NewExchange (BrokerReconciler.pointingTo (BrokerReconciler.withDLX args true) b'))
      /\ queueSettled (Namespace (brokerMeta b')) (CreateBrokerDeadLetterQueueName b')
           (NewQueue b' None)
      /\ bindingSettled (Namespace (brokerMeta b')) (CreateBrokerDeadLetterQueueName b')
           (NewBinding b' None)
      /\ ingressSettled r b
           (MakeSecret (BrokerReconciler.pointingTo (BrokerReconciler.withDLX args true) b')).

  (** The store holds what a run of the standalone Broker pipeline upserts
      for the Broker [b]: the ingress resources, with the Secret that the
      declaration of the exchange gives. The exchanges, the queue and the
      binding are declared through the driver in every run. *)
Definition standaloneSettled (r : BrokerCommon.Reconciler) (b : Broker) (args : ExchangeArgs)
    : Prop :=
    forall b' s, sameBroker b b' ->
      driverDeclareExchange w (BrokerReconciler.pointingTo args b') = Ok s ->
      ingressSettled r b s.

End Settled.
(** * Properties *)

(** ** Readiness evaluator: proofs *)

Section IsReady.

Lemma isReady_loop_spec cs n : isReady_loop cs n = n - numTrue cs.
Proof.
    unfold isReady_loop, numTrue. revert n.
    induction cs as [|c cs IH]; intros n; simpl.
    - lia.
    - rewrite IH. rewrite filter_cons. case_bool_decide; case_decide; simpl; try tauto; lia.
Qed.

Lemma numTrue_le cs : numTrue cs <= Z.of_nat (length cs).
Proof. unfold numTrue. pose proof (length_filter (fun c => condStatus c = ConditionTrue) cs). lia. Qed.

Lemma numTrue_full cs :
    numTrue cs = Z.of_nat (length cs) <-> Forall (fun c => condStatus c = ConditionTrue) cs.
Proof.
    unfold numTrue. induction cs as [|c cs IH]; simpl.
    - split; [constructor | reflexivity].
    - rewrite filter_cons. pose proof (numTrue_le cs) as Hle. unfold numTrue in Hle.
      case_decide; simpl.
      + rewrite Forall_cons. split.
        * intros Heq. split; [assumption|]. apply IH. lia.
        * intros [_ Hall]. apply IH in Hall. lia.
      + split; [lia|]. intros Hall. apply Forall_cons in Hall. tauto.
Qed.

End IsReady.

(** C2: the readiness evaluator answers true exactly for the non-empty
    condition lists all of whose conditions have status True; the empty
    list is not ready. *)
Theorem isReady_iff_nonempty_all_true :
  (forall conditions : list Condition,
      isReady conditions = true <->
      conditions <> [] /\ Forall (fun c => condStatus c = ConditionTrue) conditions)
  /\ isReady [] = false.
Proof.
  split; [|reflexivity].
  intros cs. unfold isReady. rewrite isReady_loop_spec.
  destruct cs as [|c cs].
  - simpl. split; [discriminate | intros [H _]; congruence].
  - destruct (Z.eqb_spec (Z.of_nat (length (c :: cs))) 0) as [H0|H0].
    + simpl in H0. lia.
    + rewrite Z.eqb_eq. rewrite <- numTrue_full. split.
      * intros H. split; [discriminate | lia].
      * intros [_ H]. lia.
Qed.
(** ** Rules of the run logic *)

Section RunLogic.
Context {S : Type}.
  Implicit Types (h : list Event) (s : S).

Lemma io_bind_calls {A B} (m : IO A) (f : A -> IO B) :
    calls (m ≫= f) = calls m ++ calls (f (answer m)).
Proof. destruct m as [tr a]. unfold calls, answer, mbind, IO_bind. simpl. by destruct (f a). Qed.

Lemma io_bind_answer {A B} (m : IO A) (f : A -> IO B) :
    answer (m ≫= f) = answer (f (answer m)).
Proof. destruct m as [tr a]. unfold calls, answer, mbind, IO_bind. simpl. by destruct (f a). Qed.

Lemma answer_call {A} e (a : A) : answer (call e a) = a.
Proof. done. Qed.

Lemma calls_call {A} e (a : A) : calls (call e a) = [e].
Proof. done. Qed.

Lemma wp_ret {A} (a : A) Post Fin h s : Post a h s -> wp (S:=S) (mret a) Post Fin h s.
Proof. unfold wp, mret, Pipe_ret. by rewrite app_nil_r. Qed.

Lemma wp_bind {A B} (m : Pipe S A) (f : A -> Pipe S B) Post Fin h s :
    wp m (fun a h' s' => wp (f a) Post Fin h' s') Fin h s ->
    wp (m ≫= f) Post Fin h s.
Proof.
    unfold wp, mbind, Pipe_bind. destruct (m s) as [[tr s1] [a|r]]; [|done].
    destruct (f a s1) as [[tr' s2] [b|r]]; by rewrite app_assoc.
Qed.

Lemma wp_lift {A} (m : IO A) Post Fin h s :
    Post (answer m) (h ++ calls m) s -> wp (lift m) Post Fin h s.
Proof. done. Qed.

Lemma wp_withObj {A} (f : S -> IO A) Post Fin h s :
    Post (answer (f s)) (h ++ calls (f s)) s -> wp (withObj f) Post Fin h s.
Proof.
    intros HP. unfold withObj. apply wp_bind. unfold wp at 1, getObj.
    rewrite app_nil_r. by apply wp_lift.
Qed.

Lemma wp_getObj Post Fin h s : Post s h s -> wp getObj Post Fin h s.
Proof. unfold wp, getObj. by rewrite app_nil_r. Qed.

Lemma wp_modify (f : S -> S) Post Fin h s : Post () h (f s) -> wp (modify f) Post Fin h s.
Proof. unfold wp, modify. by rewrite app_nil_r. Qed.

Lemma wp_return {A} (r : option error) (Post : A -> _) Fin h s :
    Fin r h s -> wp (return_ r) Post Fin h s.
Proof. unfold wp, return_. by rewrite app_nil_r. Qed.

Lemma wp_when (c : bool) (m : Pipe S unit) Post Fin h s :
    (c = true -> wp m Post Fin h s) -> (c = false -> Post () h s) ->
    wp (when c m) Post Fin h s.
Proof. destruct c; simpl; intros H1 H2; [by apply H1 | by apply wp_ret, H2]. Qed.

Lemma wp_mono {A} (m : Pipe S A) (Post Post' : A -> list Event -> S -> Prop)
      (Fin Fin' : option error -> list Event -> S -> Prop) h s :
    (forall a h' s', Post a h' s' -> Post' a h' s') ->
    (forall r h' s', Fin r h' s' -> Fin' r h' s') ->
    wp m Post Fin h s -> wp m Post' Fin' h s.
Proof. unfold wp. destruct (m s) as [[tr s1] [a|r]]; auto. Qed.

Lemma wp_mono_post {A} (m : Pipe S A) (Post Post' : A -> list Event -> S -> Prop) Fin h s :
    (forall a h' s', Post a h' s' -> Post' a h' s') ->
    wp m Post Fin h s -> wp m Post' Fin h s.
Proof. intros HP. by apply wp_mono. Qed.

Lemma wp_then_return {A B} (m : Pipe S A) (r : option error) (Post : B -> _) Fin h s :
    wp m (fun _ h' s' => Fin r h' s') Fin h s ->
    wp (m ≫= fun _ => return_ r) Post Fin h s.
Proof. intros Hm. apply wp_bind. eapply wp_mono_post; [|exact Hm]. intros; by apply wp_return. Qed.

Lemma wp_gate {A} (res : result A) conds onErr onNotReady Post Fin h s :
    (forall err, res = Err err ->
       wp (onErr err) (fun _ h' s' => Fin (Some err) h' s') Fin h s) ->
    (forall obj, res = Ok obj -> isReady (conds obj) = false ->
       wp (onNotReady obj) (fun _ h' s' => Fin None h' s') Fin h s) ->
    (forall obj, res = Ok obj -> isReady (conds obj) = true -> Post obj h s) ->
    wp (gate res conds onErr onNotReady) Post Fin h s.
Proof.
    intros HErr HNot HOk. unfold gate. destruct res as [obj|err].
    - apply wp_bind, wp_when.
      + intros Hc. apply negb_true_iff in Hc. by apply wp_then_return, HNot.
      + intros Hc. apply negb_false_iff in Hc. by apply wp_ret, HOk.
    - by apply wp_then_return, HErr.
Qed.

  (** A whole run: falling off the end is [return nil]. *)
Lemma wp_run (m : Pipe S unit) (Fin : option error -> list Event -> S -> Prop) s :
    wp m (fun _ => Fin None) Fin [] s -> Fin (returned m s) (trace m s) (final m s).
Proof.
    unfold wp, returned, trace, final, run. by destruct (m s) as [[tr s1] [a|r]].
Qed.

End RunLogic.

(** One step of symbolic execution of a run. *)
Ltac wp_step :=
  lazymatch goal with
  | |- wp (mbind _ _) _ _ _ _ => apply wp_bind
  | |- wp (mret _) _ _ _ _ => apply wp_ret
  | |- wp (lift _) _ _ _ _ => apply wp_lift
  | |- wp (withObj _) _ _ _ _ => apply wp_withObj
  | |- wp getObj _ _ _ _ => apply wp_getObj
  | |- wp (modify _) _ _ _ _ => apply wp_modify
  | |- wp (return_ _) _ _ _ _ => apply wp_return
  | |- wp (when _ _) _ _ _ _ => apply wp_when; intros ?
  | |- wp (gate _ _ _ _) _ _ _ _ => apply wp_gate; [intros ? ?|intros ? ? ?|intros ? ? ?]
  | |- wp (match ?x with _ => _ end) _ _ _ _ => destruct x eqn:?
  | |- wp (if ?c then _ else _) _ _ _ _ => destruct c eqn:?
  end.


(** Symbolic execution of a run down to its leaves, unfolding the helpers
    given by [unf]. *)
Ltac wp_run_with unf :=
  repeat (cbv beta zeta; first [ wp_step | progress unf ]).


Lemma Forall_step (P : Event -> Prop) h e : Forall P h -> P e -> Forall P (h ++ [e]).
Proof. intros. apply Forall_app. split; [done|by apply Forall_singleton]. Qed.

(** ** Properties kept along a run *)

Section Holds.
Context {S : Type}.
Variable G : list Event -> Prop.
Variable ok : Event -> Prop.
Variable I : S -> Prop.
Hypothesis G_step : forall h e, G h -> ok e -> G (h ++ [e]).

Lemma G_steps h tr : G h -> Forall ok tr -> G (h ++ tr).
Proof.
    intros HG Htr. revert h HG. induction Htr as [|e tr He _ IH]; intros h HG.
    - by rewrite app_nil_r.
    - replace (h ++ e :: tr) with ((h ++ [e]) ++ tr) by (by rewrite <- app_assoc).
      apply IH. by apply G_step.
Qed.

Lemma holds_ret {A} (a : A) : holds G I (mret a).
Proof. intros h s HG HI. by apply wp_ret. Qed.

Lemma holds_bind {A B} (m : Pipe S A) (f : A -> Pipe S B) :
    holds G I m -> (forall a, holds G I (f a)) -> holds G I (m ≫= f).
Proof.
    intros Hm Hf h s HG HI. apply wp_bind.
    eapply wp_mono_post; [|by apply Hm]. intros a h' s' [? ?]. by apply Hf.
Qed.

Lemma holds_bind_getObj {B} (f : S -> Pipe S B) :
    (forall s, I s -> holds G I (f s)) -> holds G I (getObj ≫= f).
Proof. intros Hf h s HG HI. apply wp_bind, wp_getObj. by apply Hf. Qed.

Lemma holds_lift {A} (m : IO A) : Forall ok (calls m) -> holds G I (lift m).
Proof. intros Hm h s HG HI. apply wp_lift. split; [by apply G_steps|done]. Qed.

Lemma holds_withObj {A} (f : S -> IO A) :
    (forall s, I s -> Forall ok (calls (f s))) -> holds G I (withObj f).
Proof. intros Hf h s HG HI. apply wp_withObj. split; [apply G_steps; auto|done]. Qed.

Lemma holds_getObj : holds G I getObj.
Proof. intros h s HG HI. by apply wp_getObj. Qed.

Lemma holds_modify (f : S -> S) : (forall s, I s -> I (f s)) -> holds G I (modify f).
Proof. intros Hf h s HG HI. apply wp_modify. auto. Qed.

Lemma holds_return {A} r : holds G I (return_ (A:=A) r).
Proof. intros h s HG HI. by apply wp_return. Qed.

Lemma holds_when c m : holds G I m -> holds G I (when c m).
Proof. intros Hm. destruct c; [done|apply holds_ret]. Qed.

Lemma holds_gate {A} (res : result A) conds onErr onNotReady :
    (forall err, holds G I (onErr err)) -> (forall obj, holds G I (onNotReady obj)) ->
    holds G I (gate res conds onErr onNotReady).
Proof.
    intros HErr HNot. unfold gate. destruct res as [obj|err].
    - apply holds_bind; [|intros; apply holds_ret].
      apply holds_when, holds_bind; [done|intros; apply holds_return].
    - apply holds_bind; [done|intros; apply holds_return].
Qed.

Lemma holds_wp {A} (m : Pipe S A) h s :
    holds G I m -> G h -> I s ->
    wp m (fun _ h' s' => G h' /\ I s') (fun _ h' s' => G h' /\ I s') h s.
Proof. intros Hm. apply Hm. Qed.

  (** What a whole run gives. *)
Lemma holds_run (m : Pipe S unit) s :
    holds G I m -> G [] -> I s -> G (trace m s) /\ I (final m s).
Proof.
    intros Hm HG HI. apply (wp_run m (fun _ h' s' => G h' /\ I s')).
    by apply Hm.
Qed.

End Holds.

(** Splits [holds G I m] along the text of [m]. *)
Ltac holds_step :=
  lazymatch goal with
  | |- holds _ _ (mbind _ getObj) => apply holds_bind_getObj; intros ? ?
  | |- holds _ _ (mbind _ _) => apply holds_bind; [|intros ?]
  | |- holds _ _ (mret _) => apply holds_ret
  | |- holds _ _ (lift _) =>
      lazymatch goal with
      | Hs : forall h e, _ -> _ -> _ (h ++ [e]) |- _ => apply (holds_lift _ _ _ Hs)
      end
  | |- holds _ _ (withObj _) =>
      lazymatch goal with
      | Hs : forall h e, _ -> _ -> _ (h ++ [e]) |- _ =>
          apply (holds_withObj _ _ _ Hs); intros ? ?
      end
  | |- holds _ _ getObj => apply holds_getObj
  | |- holds _ _ (modify _) => apply holds_modify; intros ? ?
  | |- holds _ _ (return_ _) => apply holds_return
  | |- holds _ _ (when _ _) => apply holds_when
  | |- holds _ _ (gate _ _ _ _) => apply holds_gate; [intros ?|intros ?]
  | |- holds _ _ (match ?x with _ => _ end) => destruct x eqn:?
  | |- holds _ _ (if ?c then _ else _) => destruct c eqn:?
  end.

Ltac holds_with unf := repeat (cbv beta zeta; first [ holds_step | progress unf ]).
(** ** Calls of a computation, piece by piece *)

Section Calls.
Context {A : Type} (P : Event -> Prop).

Lemma Forall_calls_call e (a : A) : P e -> Forall P (calls (call e a)).
Proof. intros. by apply Forall_singleton. Qed.

Lemma Forall_calls_log level msg : P (Log level msg) -> Forall P (calls (log level msg)).
Proof. intros. by apply Forall_singleton. Qed.

Lemma Forall_calls_entering fn : P (Invoke fn) -> Forall P (calls (entering fn)).
Proof. intros. by apply Forall_singleton. Qed.

Lemma Forall_calls_ret (a : A) : Forall P (calls (mret a)).
Proof. constructor. Qed.

Lemma Forall_calls_bind {B} (m : IO B) (f : B -> IO A) :
    Forall P (calls m) -> Forall P (calls (f (answer m))) -> Forall P (calls (m ≫= f)).
Proof. intros. rewrite io_bind_calls. by apply Forall_app. Qed.
End Calls.

(** Splits [Forall P (calls m)] along the text of [m]; what is left are the
    single calls and the calls of the methods [m] invokes. *)
Ltac forall_calls :=
  repeat (cbv zeta;
          lazymatch goal with
          | |- Forall _ (calls (mbind _ _)) => apply Forall_calls_bind
          | |- Forall _ (calls (call _ _)) => apply Forall_calls_call
          | |- Forall _ (calls (log _ _)) => apply Forall_calls_log
          | |- Forall _ (calls (entering _)) => apply Forall_calls_entering
          | |- Forall _ (calls (mret _)) => apply Forall_calls_ret
          | |- Forall _ (calls (match ?x with _ => _ end)) => destruct x eqn:?
          | |- Forall _ (calls (if ?c then _ else _)) => destruct c eqn:?
          end).

(** ** Calls of the Trigger reconciler *)

Create HintDb calls.
#[global] Hint Extern 1 (Is_true (triggerCall _)) => exact I : calls.
#[global] Hint Extern 1 (Is_true (triggerCall _)) => (vm_compute; exact I) : calls.

Section TriggerCalls.
Context `{NM : Naming} `{BD : Builders}.
Variable w : World.
Variable r : TriggerReconciler.Reconciler.
Import TriggerReconciler.

Lemma reconcileDeployment_calls d : Forall triggerCall (calls (reconcileDeployment w d)).
Proof. unfold reconcileDeployment. forall_calls; done. Qed.

Lemma getRabbitmqSecret_calls t : Forall triggerCall (calls (getRabbitmqSecret w t)).
Proof. unfold getRabbitmqSecret. forall_calls; done. Qed.

Lemma reconcileDispatcherDeployment_calls t sub delivery :
    Forall triggerCall (calls (reconcileDispatcherDeployment w r t sub delivery)).
Proof.
    unfold reconcileDispatcherDeployment.
    forall_calls; auto using reconcileDeployment_calls, getRabbitmqSecret_calls; done.
Qed.

Lemma reconcileDLXDispatcherDeployment_calls t sub :
    Forall triggerCall (calls (reconcileDLXDispatcherDeployment w r t sub)).
Proof.
    unfold reconcileDLXDispatcherDeployment.
    forall_calls; auto using reconcileDeployment_calls, getRabbitmqSecret_calls; done.
Qed.

Lemma reconcileExchange_calls args : Forall triggerCall (calls (reconcileExchange w args)).
Proof. unfold reconcileExchange. forall_calls; done. Qed.

Lemma upsertQueue_calls ns name want : Forall triggerCall (calls (upsertQueue w ns name want)).
Proof. unfold upsertQueue. forall_calls; done. Qed.

Lemma reconcileQueue_calls b t : Forall triggerCall (calls (reconcileQueue w b t)).
Proof. unfold reconcileQueue. forall_calls; auto using upsertQueue_calls; done. Qed.

Lemma reconcileDLQ_calls b t : Forall triggerCall (calls (reconcileDLQ w b t)).
Proof. unfold reconcileDLQ. forall_calls; auto using upsertQueue_calls; done. Qed.

Lemma ensureBinding_calls ns name msg want :
    Forall triggerCall (calls (ensureBinding w ns name msg want)).
Proof. unfold ensureBinding. forall_calls; done. Qed.

Lemma reconcileBinding_calls b t : Forall triggerCall (calls (reconcileBinding w b t)).
Proof. unfold reconcileBinding. forall_calls; auto using ensureBinding_calls; done. Qed.

Lemma reconcileDLQBinding_calls b t : Forall triggerCall (calls (reconcileDLQBinding w b t)).
Proof. unfold reconcileDLQBinding. forall_calls; auto using ensureBinding_calls; done. Qed.

End TriggerCalls.

#[global] Hint Resolve reconcileDeployment_calls getRabbitmqSecret_calls
  reconcileDispatcherDeployment_calls reconcileDLXDispatcherDeployment_calls
  reconcileExchange_calls reconcileQueue_calls reconcileDLQ_calls
  reconcileBinding_calls reconcileDLQBinding_calls : calls.

(** ** The Trigger pipeline: its calls *)

Section TriggerPipeline.
Context `{NM : Naming} `{BD : Builders}.
Variable w : World.
Variable r : TriggerReconciler.Reconciler.
Import TriggerReconciler.

Ltac unf :=
    unfold onStatus, onStatusOf, reconcileDeadLetter, reconcilePrimary,
      reconcileSubscriber, checkDependencyAnnotation, propagateDependencyReadiness.

Lemma ReconcileKind_calls t :
    Forall triggerCall (trace (ReconcileKind w r) t).
Proof.
    pose proof (Forall_step triggerCall) as Hstep. simpl in Hstep.
    apply (holds_run (Forall triggerCall) (fun _ => True)); [|done|done].
    unfold ReconcileKind.
    holds_with unf; auto with calls; try (forall_calls; done).
Qed.

End TriggerPipeline.

(** ** The upsert primitive: found and matching *)

Ltac io_unfold :=
  unfold mbind, IO_bind, mret, IO_ret, log, entering, call; simpl.

Section TriggerUpsert.
Context `{NM : Naming} `{BD : Builders}.
Variable w : World.
Variable r : TriggerReconciler.Reconciler.
Import TriggerReconciler.

Lemma trigger_reconcileExchange_found t args current :
    argsTrigger args = Some t ->
    get (exchanges w) (Namespace (triggerMeta t)) (TriggerDLXExchangeName t) = Ok current ->
    derive (exchangeSpec (NewExchange args)) (exchangeSpec current) = true ->
    reconcileExchange w args =
      ([Invoke "reconcileExchange";
        ListerGet KExchange (Namespace (triggerMeta t)) (TriggerDLXExchangeName t)],
       Ok current).
Proof.
    intros Ht Hget Hd. unfold reconcileExchange. rewrite Ht. io_unfold.
    by rewrite Hget, Hd.
Qed.

Lemma trigger_reconcileQueue_found b t current :
    get (queues w) (Namespace (brokerMeta b)) (CreateTriggerQueueName t) = Ok current ->
    derive (queueSpec (NewQueue b (Some t))) (queueSpec current) = true ->
    reconcileQueue w b t =
      ([Invoke "reconcileQueue";
        ListerGet KQueue (Namespace (brokerMeta b)) (CreateTriggerQueueName t)],
       Ok current).
Proof.
    intros Hget Hd. unfold reconcileQueue, upsertQueue. io_unfold. by rewrite Hget, Hd.
Qed.

Lemma trigger_reconcileDLQ_found b t current :
    get (queues w) (Namespace (brokerMeta b)) (CreateTriggerDeadLetterQueueName t) = Ok current ->
    derive (queueSpec (NewTriggerDLQ b t)) (queueSpec current) = true ->
    reconcileDLQ w b t =
      ([Invoke "reconcileDLQ";
        ListerGet KQueue (Namespace (brokerMeta b)) (CreateTriggerDeadLetterQueueName t)],
       Ok current).
Proof.
    intros Hget Hd. unfold reconcileDLQ, upsertQueue. io_unfold. by rewrite Hget, Hd.
Qed.

  (** The comparison of [reconcileDeployment] is on the pod template, one
      field of the spec. *)
Lemma derive_spec_template (d current : DeploymentSpec) :
    derive d current = true -> derive (Template d) (Template current) = true.
Proof.
    unfold derive at 1, derive_DeploymentSpec. intros Hd.
    apply andb_true_iff in Hd as [_ Hd]. exact Hd.
Qed.

Lemma trigger_reconcileDeployment_found d current :
    get (deployments w) (Namespace (deploymentMeta d)) (Name (deploymentMeta d)) = Ok current ->
    derive (Template (deploymentSpec d)) (Template (deploymentSpec current)) = true ->
    reconcileDeployment w d =
      ([Invoke "reconcileDeployment";
        ListerGet KDeployment (Namespace (deploymentMeta d)) (Name (deploymentMeta d))],
       Ok current).
Proof.
    intros Hget Hd. unfold reconcileDeployment. io_unfold. by rewrite Hget, Hd.
Qed.

  (** A binding that is found is never written, whatever its spec. *)
Lemma ensureBinding_found ns name msg want current :
    get (bindings w) ns name = Ok current ->
    calls (ensureBinding w ns name msg want) = [ListerGet KBinding ns name]
    /\ answer (ensureBinding w ns name msg want) =
         if derive (bindingSpec want) (bindingSpec current) then Ok current
         else Err (errorsNew "binding spec differs and it's immutable").
Proof.
    intros Hget. unfold ensureBinding, calls, answer. io_unfold. rewrite Hget.
    by destruct (derive _ _).
Qed.

End TriggerUpsert.

(** ** Every write of a Trigger run is a write of one of its upserts *)

Section TriggerProvenance.
Context `{NM : Naming} `{BD : Builders}.
Variable w : World.
Variable r : TriggerReconciler.Reconciler.
Import TriggerReconciler.

Lemma sameTrigger_refl t : sameTrigger t t.
Proof. split; auto. Qed.

Lemma sameTrigger_withStatus t t' ts : sameTrigger t t' -> sameTrigger t (withStatus t' ts).
Proof. intros [? ?]. split; done. Qed.

Lemma defaultSubscriberNamespace_spec t t' :
    triggerMeta t' = triggerMeta t -> triggerSpec t' = triggerSpec t ->
    triggerSpec (defaultSubscriberNamespace t') = triggerSpec (defaultSubscriberNamespace t).
Proof.
    intros Hm Hs. unfold defaultSubscriberNamespace. rewrite Hs, Hm.
    by destruct (destRef (Subscriber (triggerSpec t))).
Qed.

Lemma defaultSubscriberNamespace_meta t :
    triggerMeta (defaultSubscriberNamespace t) = triggerMeta t.
Proof. unfold defaultSubscriberNamespace. by destruct (destRef _). Qed.

Lemma defaultSubscriberNamespace_idem t :
    triggerSpec (defaultSubscriberNamespace (defaultSubscriberNamespace t))
    = triggerSpec (defaultSubscriberNamespace t).
Proof.
    unfold defaultSubscriberNamespace.
    destruct (destRef (Subscriber (triggerSpec t))) eqn:E; simpl; [done|by rewrite E].
Qed.

Lemma sameTrigger_default t t' :
    sameTrigger t t' -> sameTrigger t (defaultSubscriberNamespace t').
Proof.
    intros [Hm [Hs|Hs]]; split; try (by rewrite defaultSubscriberNamespace_meta); right.
    - by apply defaultSubscriberNamespace_spec.
    - rewrite <- (defaultSubscriberNamespace_idem t).
      apply defaultSubscriberNamespace_spec; [|done].
      by rewrite defaultSubscriberNamespace_meta.
Qed.

Lemma Forall_self {A} (l : list A) : Forall (fun x => x ∈ l) l.
Proof. by apply Forall_forall. Qed.

Lemma Forall_upsert broker t t' (l : list Event) :
    sameTrigger t t' ->
    (forall e, e ∈ l ->
       e ∈ calls (reconcileExchange w (mkExchangeArgs broker (Some t') None "" true))
       \/ e ∈ calls (reconcileDLQ w broker t')
       \/ e ∈ calls (reconcileDLQBinding w broker t')
       \/ (exists sub, e ∈ calls (reconcileDLXDispatcherDeployment w r t' sub))
       \/ e ∈ calls (reconcileQueue w broker t')
       \/ e ∈ calls (reconcileBinding w broker t')
       \/ (exists sub delivery,
             e ∈ calls (reconcileDispatcherDeployment w r t' sub delivery))) ->
    Forall (fun e => isWrite e = true -> upsertCall w r broker t e) l.
Proof. intros Hs Hl. apply Forall_forall. intros e He _. exists t'. auto. Qed.

  (** Runs [ReconcileKind] up to the answer [Hb] of the Broker lister. *)
Ltac find_broker Hb :=
    unfold ReconcileKind;
    do 4 (cbv beta; wp_step); cbv beta; wp_step; unfold onStatus; wp_step;
    do 3 (cbv beta; wp_step); cbv beta;
    rewrite answer_call; unfold withStatus at 1 2; cbn [triggerMeta triggerSpec];
    rewrite Hb.

  (** The run from the class check on, under the Broker it found. *)
Lemma ReconcileKind_writes t :
    match brokerLister w (Namespace (triggerMeta t)) (specBroker (triggerSpec t)) with
    | Ok broker => writesFromUpserts w r broker t (trace (ReconcileKind w r) t)
    | Err _ => Forall noWrite (trace (ReconcileKind w r) t)
    end.
Proof.
    destruct (brokerLister w _ _) as [broker|err] eqn:Hb.
    - pose proof (Forall_step (fun e => isWrite e = true -> upsertCall w r broker t e)) as Hstep.
      simpl in Hstep.
      apply (wp_run (ReconcileKind w r)
               (fun _ h s => writesFromUpserts w r broker t h /\ sameTrigger t s)).
      unfold ReconcileKind.
      find_broker Hb. wp_step. cbv beta.
      apply holds_wp.
      + holds_with ltac:(unfold onStatus, onStatusOf, reconcileDeadLetter, reconcilePrimary,
                           reconcileSubscriber, checkDependencyAnnotation,
                           propagateDependencyReadiness);
          try (by apply sameTrigger_withStatus);
          try (by apply sameTrigger_default);
          try (by apply Forall_singleton);
          try (forall_calls; done).
        all: try (eapply Forall_upsert; [eassumption|]; intros e He; eauto 10).
        all: try (split; [by destruct H|]; by destruct H).
      + unfold writesFromUpserts. rewrite !Forall_app. repeat split; by repeat constructor.
      + by apply sameTrigger_withStatus, sameTrigger_refl.
    - apply (wp_run (ReconcileKind w r) (fun _ h s => Forall noWrite h)).
      unfold ReconcileKind.
      find_broker Hb.
      wp_run_with ltac:(unfold onStatusOf); rewrite !Forall_app; repeat split; by repeat constructor.
Qed.

End TriggerProvenance.

Section BrokerUpsert.
Context `{NM : Naming} `{BD : Builders}.
Variable w : World.
Variable r : BrokerCommon.Reconciler.
Import BrokerCommon BrokerReconciler.

Lemma broker_reconcileExchange_found args current :
    get (exchanges w) (Namespace (brokerMeta (argsBroker args)))
      (BrokerExchangeName (argsBroker args) (DLX args)) = Ok current ->
    derive (exchangeSpec (NewExchange args)) (exchangeSpec current) = true ->
    reconcileExchange w args =
      ([Invoke "reconcileExchange";
        ListerGet KExchange (Namespace (brokerMeta (argsBroker args)))
          (BrokerExchangeName (argsBroker args) (DLX args))],
       Ok current).
Proof.
    intros Hget Hd. unfold reconcileExchange. io_unfold. by rewrite Hget, Hd.
Qed.

Lemma broker_reconcileQueue_found b current :
    get (queues w) (Namespace (brokerMeta b)) (CreateBrokerDeadLetterQueueName b) = Ok current ->
    derive (queueSpec (NewQueue b None)) (queueSpec current) = true ->
    reconcileQueue w b =
      ([Invoke "reconcileQueue";
        ListerGet KQueue (Namespace (brokerMeta b)) (CreateBrokerDeadLetterQueueName b)],
       Ok current).
Proof.
    intros Hget Hd. unfold reconcileQueue. io_unfold. by rewrite Hget, Hd.
Qed.

Lemma broker_reconcileDeployment_found d current :
    get (deployments w) (Namespace (deploymentMeta d)) (Name (deploymentMeta d)) = Ok current ->
    derive (Template (deploymentSpec d)) (Template (deploymentSpec current)) = true ->
    reconcileDeployment w d =
      ([Invoke "reconcileDeployment";
        ListerGet KDeployment (Namespace (deploymentMeta d)) (Name (deploymentMeta d))],
       None).
Proof.
    intros Hget Hd. unfold reconcileDeployment. io_unfold. by rewrite Hget, Hd.
Qed.

  (** The Broker's binding upsert writes the desired spec over a binding
      that diverges from it. *)
Lemma broker_reconcileBinding_diverging b want current :
    NewBinding b None = Ok want ->
    get (bindings w) (Namespace (brokerMeta b)) (CreateBrokerDeadLetterQueueName b) = Ok current ->
    derive (bindingSpec want) (bindingSpec current) = false ->
    reconcileBinding w b =
      ([Invoke "reconcileBinding";
        ListerGet KBinding (Namespace (brokerMeta b)) (CreateBrokerDeadLetterQueueName b);
        ClientUpdate KBinding (Namespace (brokerMeta b)) (Name (bindingMeta current))],
       update (bindings w) (Namespace (brokerMeta b))
         (withBindingSpec current (bindingSpec want))).
Proof.
    intros Hwant Hget Hd. unfold reconcileBinding. rewrite Hwant. io_unfold.
    by rewrite Hget, Hd.
Qed.

End BrokerUpsert.


(** ** Binding arguments *)

Section BindingArguments.
Context `{NM : Naming} `{BD : Builders}.

  (** The loop over the filter attributes leaves every attribute in the
      arguments and keeps the other keys. *)
Lemma mergeAttributes_lookup (attributes arguments : gmap string string) key :
    mergeAttributes attributes arguments !! key =
      match attributes !! key with
      | Some val => Some val
      | None => arguments !! key
      end.
Proof.
    unfold mergeAttributes.
    apply (map_fold_weak_ind
             (fun (acc : gmap string string) (m : gmap string string) =>
                acc !! key = match m !! key with
                             | Some val => Some val
                             | None => arguments !! key
                             end)).
    - by rewrite lookup_empty.
    - intros i x m acc Hi IH.
      destruct (decide (i = key)) as [->|Hne].
      + by rewrite !lookup_insert_eq.
      + by rewrite !lookup_insert_ne.
Qed.

Lemma mergeAttributes_union (attributes arguments : gmap string string) :
    mergeAttributes attributes arguments = attributes ∪ arguments.
Proof.
    apply map_eq. intros key. rewrite mergeAttributes_lookup, lookup_union.
    destruct (attributes !! key), (arguments !! key); done.
Qed.

  (** Without a filter on them, the reserved keys carry the owner and the
      all-match mode. *)
Lemma bindingArguments_reserved broker trigger :
    (default ∅ (filterAttributes (triggerSpec trigger))) !! BindingKey = None ->
    (default ∅ (filterAttributes (triggerSpec trigger))) !! "x-match" = None ->
    bindingArguments broker (Some trigger) !! BindingKey = Some (Name (triggerMeta trigger))
    /\ bindingArguments broker (Some trigger) !! "x-match" = Some "all".
Proof.
    unfold bindingArguments. destruct (filterAttributes (triggerSpec trigger)) as [attrs|];
      simpl; intros H1 H2.
    - rewrite !mergeAttributes_lookup, H1, H2. split; [by rewrite lookup_insert_eq|].
      rewrite lookup_insert_ne by done. by rewrite lookup_insert_eq.
    - split; [by rewrite lookup_insert_eq|].
      rewrite lookup_insert_ne by done. by rewrite lookup_insert_eq.
Qed.

  (** C10: [NewBinding] for a Trigger sets the reserved entries
      "x-match" = "all" and "x-knative-trigger" = the name of the Trigger
      first and assigns the filter attributes over them after. So for a
      filter attribute under the key "x-knative-trigger" or "x-match": the
      reserved entry of that key was set, and the marshalled arguments of
      the binding spec hold the attribute's value in its place; every other
      filter attribute is in the arguments too, a key the filter does not
      hold has what the reserved entries give it, and no error is
      returned. *)
Theorem NewBinding_filter_overwrites_reserved_keys
      (broker : Broker) (trigger : Trigger) (attributes : gmap string string)
      (key val : string) :
    filterAttributes (triggerSpec trigger) = Some attributes ->
    attributes !! key = Some val ->
    key = BindingKey \/ key = "x-match" ->
    let reserved : gmap string string :=
      <[BindingKey := Name (triggerMeta trigger)]> (<["x-match" := "all"]> ∅) in
    exists binding,
      NewBinding broker (Some trigger) = Ok binding
      /\ biArguments (bindingSpec binding)
         = Some (jsonMarshal (bindingArguments broker (Some trigger)))
      /\ reserved !! key
         = Some (if bool_decide (key = BindingKey) then Name (triggerMeta trigger) else "all")
      /\ bindingArguments broker (Some trigger) !! key = Some val
      /\ (forall k v, attributes !! k = Some v ->
            bindingArguments broker (Some trigger) !! k = Some v)
      /\ (forall k, attributes !! k = None ->
            bindingArguments broker (Some trigger) !! k = reserved !! k).
Proof.
    intros Hf Hk Hkey reserved. eexists. split; [reflexivity|]. split; [reflexivity|].
    assert (Hargs : forall k,
               bindingArguments broker (Some trigger) !! k
               = match attributes !! k with Some v => Some v | None => reserved !! k end).
    { intros k. unfold bindingArguments. rewrite Hf. apply mergeAttributes_lookup. }
    split; [|split; [|split]].
    - subst reserved. destruct Hkey as [->| ->].
      + rewrite bool_decide_eq_true_2 by done. by rewrite lookup_insert_eq.
      + rewrite bool_decide_eq_false_2 by done.
        rewrite lookup_insert_ne by done. by rewrite lookup_insert_eq.
    - by rewrite Hargs, Hk.
    - intros k v Hv. by rewrite Hargs, Hv.
    - intros k Hn. by rewrite Hargs, Hn.
Qed.

End BindingArguments.

(** ** Finalization of a standalone Broker *)

Section Finalize.
Context `{NM : Naming} `{BD : Builders}.
Variable w : World.
Import BrokerCommon BrokerStandalone.

  (** C9: [FinalizeKind] returns nil on every Broker and in every world,
      and leaves the Broker as it is. Under the Direct strategy, once the
      exchange arguments are there, it calls the three deletions (exchange,
      dead-letter exchange, dead-letter queue) one after the other whatever
      the earlier ones answered, and each failure leaves a line in the log
      and nothing else. *)
Theorem FinalizeKind_returns_nil (b : Broker) :
    returned (FinalizeKind w) b = None
    /\ final (FinalizeKind w) b = b
    /\ (isUsingOperator b = false ->
        forall url, rabbitmqURL w b = Ok url ->
        let args := mkExchangeArgs b None (Some url) "" false in
        let dlqArgs := mkQueueArgs (CreateBrokerDeadLetterQueueName b) url in
        trace (FinalizeKind w) b =
          [Invoke "FinalizeKind"; Invoke "getExchangeArgs";
           GetExchangeArgs (Namespace (brokerMeta b)) (Name (brokerMeta b));
           DeleteExchange false]
          ++ loggedIf (driverDeleteExchange w args) "Problem deleting exchange"
          ++ [DeleteExchange true]
          ++ loggedIf (driverDeleteExchange w (BrokerReconciler.withDLX args true))
               "Problem deleting DLX exchange"
          ++ [DeleteQueue (CreateBrokerDeadLetterQueueName b)]
          ++ loggedIf (driverDeleteQueue w dlqArgs) "Problem deleting DLX queue").
Proof.
    unfold returned, final, trace, run, FinalizeKind, getExchangeArgs.
    unfold mbind, Pipe_bind, IO_bind, mret, Pipe_ret, IO_ret, lift, getObj, when, return_,
      log, entering, call, urlString, BrokerReconciler.withDLX.
    cbn. destruct (isUsingOperator b) eqn:Hop; cbn; [by repeat split|].
    destruct (rabbitmqURL w b) as [url|err] eqn:Hurl; cbn; [|by repeat split].
    destruct (driverDeleteExchange w (mkExchangeArgs b None (Some url) "" false)) eqn:H1;
      cbn;
      destruct (driverDeleteExchange w (mkExchangeArgs b None (Some url) "" true)) eqn:H2;
      cbn;
      destruct (driverDeleteQueue w _) eqn:H3; cbn;
      (repeat split; [intros _ url' [= <-]; cbn; by rewrite ?H1, ?H2, ?H3]).
Qed.

End Finalize.

(** ** Deletes *)

Section BrokerCalls.
Context `{NM : Naming} `{BD : Builders}.
Variable w : World.
Variable r : BrokerCommon.Reconciler.
Import BrokerCommon.

Lemma getExchangeArgs_noDelete b : Forall noDelete (calls (getExchangeArgs w b)).
Proof. unfold getExchangeArgs. forall_calls; done. Qed.

Lemma reconcileSecret_noDelete s : Forall noDelete (calls (reconcileSecret w s)).
Proof. unfold reconcileSecret. forall_calls; done. Qed.

Lemma broker_reconcileDeployment_noDelete d : Forall noDelete (calls (reconcileDeployment w d)).
Proof. unfold reconcileDeployment. forall_calls; done. Qed.

Lemma reconcileService_noDelete svc : Forall noDelete (calls (reconcileService w svc)).
Proof. unfold reconcileService. forall_calls; done. Qed.

Lemma reconcileIngressDeployment_noDelete b :
    Forall noDelete (calls (reconcileIngressDeployment w r b)).
Proof.
    unfold reconcileIngressDeployment. forall_calls;
      auto using broker_reconcileDeployment_noDelete; done.
Qed.

Lemma reconcileIngressService_noDelete b :
    Forall noDelete (calls (reconcileIngressService w b)).
Proof.
    unfold reconcileIngressService. forall_calls; auto using reconcileService_noDelete; done.
Qed.

Lemma broker_reconcileExchange_noDelete args :
    Forall noDelete (calls (BrokerReconciler.reconcileExchange w args)).
Proof. unfold BrokerReconciler.reconcileExchange. forall_calls; done. Qed.

Lemma broker_reconcileQueue_noDelete b :
    Forall noDelete (calls (BrokerReconciler.reconcileQueue w b)).
Proof. unfold BrokerReconciler.reconcileQueue. forall_calls; done. Qed.

Lemma broker_reconcileBinding_noDelete b :
    Forall noDelete (calls (BrokerReconciler.reconcileBinding w b)).
Proof. unfold BrokerReconciler.reconcileBinding. forall_calls; done. Qed.

Lemma standalone_reconcileDLQBinding_noDelete b :
    Forall noDelete (calls (BrokerStandalone.reconcileDLQBinding w r b)).
Proof.
    unfold BrokerStandalone.reconcileDLQBinding.
    forall_calls; auto using getExchangeArgs_noDelete; done.
Qed.

Lemma noDelete_dispatcherDeleteOnly b l :
    Forall noDelete l -> Forall (dispatcherDeleteOnly w b) l.
Proof.
    intros Hl. eapply Forall_impl; [exact Hl|]. intros e He Hd. unfold noDelete in He. congruence.
Qed.

Lemma sameBroker_withStatus b b' bs : sameBroker b b' -> sameBroker b (withStatus b' bs).
Proof. by intros [? ?]. Qed.

Lemma sameBroker_deadLetterSink b b' :
    sameBroker b b' -> deadLetterSinkOf b' = deadLetterSinkOf b.
Proof. intros [_ Hs]. unfold deadLetterSinkOf. by rewrite Hs. Qed.

  (** The dispatcher upsert deletes only when it is given no address, and
      then only the dispatcher it found. *)
Lemma reconcileDLXDispatcherDeployment_deletes b b' sub :
    sameBroker b b' ->
    (sub = None -> deadLetterSinkOf b = None) ->
    Forall (dispatcherDeleteOnly w b) (calls (reconcileDLXDispatcherDeployment w r b' sub)).
Proof.
    intros [Hm Hs] Hsub. unfold reconcileDLXDispatcherDeployment.
    forall_calls; try (intros ?; discriminate).
    - apply noDelete_dispatcherDeleteOnly, broker_reconcileDeployment_noDelete.
    - intros _. rewrite answer_call in Heqr0. rewrite Hm in *. eauto.
Qed.

  (** The end of [reconcileCommonIngressResources], where the delete is. *)
Lemma reconcileDeadLetterSink_deletes b :
    holds (Forall (dispatcherDeleteOnly w b)) (sameBroker b) (reconcileDeadLetterSink w r).
Proof.
    intros h s HG HI. unfold reconcileDeadLetterSink.
    pose proof (sameBroker_deadLetterSink b s HI) as Hdls.
    pose proof HI as [Hm Hs].
    wp_run_with ltac:(unfold onStatus);
      rewrite ?Forall_app; repeat split; try done;
      try (by apply sameBroker_withStatus);
      try (apply Forall_singleton; intros ?; discriminate);
      try (apply reconcileDLXDispatcherDeployment_deletes; [done|]; try done;
           intros _; congruence).
Qed.

Ltac broker_leaves b :=
    try (by apply sameBroker_withStatus);
    try (intros ?; discriminate);
    try (apply noDelete_dispatcherDeleteOnly;
         auto using getExchangeArgs_noDelete, reconcileSecret_noDelete,
           reconcileIngressDeployment_noDelete, reconcileIngressService_noDelete,
           broker_reconcileExchange_noDelete, broker_reconcileQueue_noDelete,
           broker_reconcileBinding_noDelete, standalone_reconcileDLQBinding_noDelete;
         forall_calls; done).

Lemma reconcileCommonIngressResources_deletes b s :
    holds (Forall (dispatcherDeleteOnly w b)) (sameBroker b)
      (reconcileCommonIngressResources w r s).
Proof.
    pose proof (Forall_step (dispatcherDeleteOnly w b)) as Hstep.
    unfold reconcileCommonIngressResources.
    repeat (cbv beta zeta;
            lazymatch goal with
            | |- holds _ _ (reconcileDeadLetterSink _ _) =>
                apply reconcileDeadLetterSink_deletes
            | |- _ => first [ holds_step | progress unfold onStatus, onStatusOf ]
            end);
      broker_leaves b.
Qed.

Ltac broker_pipeline b :=
    repeat (cbv beta zeta;
            lazymatch goal with
            | |- holds _ _ (reconcileCommonIngressResources _ _ _) =>
                apply reconcileCommonIngressResources_deletes
            | |- _ => first [ holds_step | progress unfold onStatus, onStatusOf ]
            end);
    broker_leaves b.

Lemma broker_ReconcileKind_deletes b :
    Forall (dispatcherDeleteOnly w b) (trace (BrokerReconciler.ReconcileKind w r) b).
Proof.
    pose proof (Forall_step (dispatcherDeleteOnly w b)) as Hstep.
    apply (holds_run (Forall (dispatcherDeleteOnly w b)) (sameBroker b)); [|done|done].
    unfold BrokerReconciler.ReconcileKind, BrokerReconciler.reconcileUsingCRD.
    broker_pipeline b.
Qed.

Lemma standalone_ReconcileKind_deletes b :
    Forall (dispatcherDeleteOnly w b) (trace (BrokerStandalone.ReconcileKind w r) b).
Proof.
    pose proof (Forall_step (dispatcherDeleteOnly w b)) as Hstep.
    apply (holds_run (Forall (dispatcherDeleteOnly w b)) (sameBroker b)); [|done|done].
    unfold BrokerStandalone.ReconcileKind, BrokerStandalone.reconcileUsingLibraries.
    broker_pipeline b.
Qed.

End BrokerCalls.

Section DeleteClaim.
Context `{NM : Naming} `{BD : Builders}.
Variable w : World.

  (** C5, amended: a run of the Trigger pipeline issues no delete, neither
      of an object through the API server nor of an exchange or queue
      through the driver. A run of a Broker pipeline (on the operator or
      standalone) issues no delete through the driver and none through the
      API server but one: the delete of the Broker's dead-letter dispatcher
      Deployment, when the Broker has no dead-letter sink and the lister
      found that Deployment. *)
Theorem pipeline_deletes_only_stale_dispatcher :
    (forall r t, Forall noDelete (trace (TriggerReconciler.ReconcileKind w r) t))
    /\ (forall r b,
          Forall (dispatcherDeleteOnly w b) (trace (BrokerReconciler.ReconcileKind w r) b))
    /\ (forall r b,
          Forall (dispatcherDeleteOnly w b) (trace (BrokerStandalone.ReconcileKind w r) b)).
Proof.
    split; [|split].
    - intros r t. eapply Forall_impl; [apply ReconcileKind_calls|].
      intros e He. unfold noDelete. by destruct e.
    - intros r b. apply broker_ReconcileKind_deletes.
    - intros r b. apply standalone_ReconcileKind_deletes.
Qed.

End DeleteClaim.

(** ** Bindings whose spec diverges *)

Section BindingDivergence.
Context `{NM : Naming} `{BD : Builders}.
Variable w : World.

  (** The Trigger reconciler treats an existing binding as immutable: on a
      spec that does not partial-match it reads, writes nothing and fails. *)
Lemma trigger_reconcileBinding_diverging b t want current :
    NewBinding b (Some t) = Ok want ->
    get (bindings w) (Namespace (brokerMeta b)) (CreateTriggerQueueName t) = Ok current ->
    derive (bindingSpec want) (bindingSpec current) = false ->
    TriggerReconciler.reconcileBinding w b t =
      ([Invoke "reconcileBinding";
        ListerGet KBinding (Namespace (brokerMeta b)) (CreateTriggerQueueName t)],
       Err (errorsNew "binding spec differs and it's immutable")).
Proof.
    intros Hwant Hget Hd. unfold TriggerReconciler.reconcileBinding.
    rewrite Hwant. unfold TriggerReconciler.ensureBinding. io_unfold.
    by rewrite Hget, Hd.
Qed.

Lemma trigger_reconcileDLQBinding_diverging b t want current :
    NewTriggerDLQBinding b t = Ok want ->
    get (bindings w) (Namespace (brokerMeta b)) (CreateTriggerDeadLetterQueueName t)
      = Ok current ->
    derive (bindingSpec want) (bindingSpec current) = false ->
    TriggerReconciler.reconcileDLQBinding w b t =
      ([Invoke "reconcileDLQBinding";
        ListerGet KBinding (Namespace (brokerMeta b)) (CreateTriggerDeadLetterQueueName t)],
       Err (errorsNew "binding spec differs and it's immutable")).
Proof.
    intros Hwant Hget Hd. unfold TriggerReconciler.reconcileDLQBinding.
    rewrite Hwant. unfold TriggerReconciler.ensureBinding. io_unfold.
    by rewrite Hget, Hd.
Qed.

  (** C1, as the code is: when the dead-letter binding of a Broker exists
      and its spec does not partial-match the desired one, the Broker
      reconciler's [reconcileBinding] does not fail: after the lister read
      it issues an update of the binding with the desired spec and returns
      what the update returns. The two binding upserts of the Trigger
      reconciler, in the same situation, read, write nothing and return the
      error "binding spec differs and it's immutable". *)
Theorem broker_binding_divergence_is_updated (b : Broker) (want current : Binding) :
    NewBinding b None = Ok want ->
    get (bindings w) (Namespace (brokerMeta b)) (CreateBrokerDeadLetterQueueName b)
      = Ok current ->
    derive (bindingSpec want) (bindingSpec current) = false ->
    calls (BrokerReconciler.reconcileBinding w b) =
      [Invoke "reconcileBinding";
       ListerGet KBinding (Namespace (brokerMeta b)) (CreateBrokerDeadLetterQueueName b);
       ClientUpdate KBinding (Namespace (brokerMeta b)) (Name (bindingMeta current))]
    /\ answer (BrokerReconciler.reconcileBinding w b) =
         update (bindings w) (Namespace (brokerMeta b))
           (BrokerReconciler.withBindingSpec current (bindingSpec want))
    /\ (forall t wantT currentT,
          NewBinding b (Some t) = Ok wantT ->
          get (bindings w) (Namespace (brokerMeta b)) (CreateTriggerQueueName t)
            = Ok currentT ->
          derive (bindingSpec wantT) (bindingSpec currentT) = false ->
          Forall noWrite (calls (TriggerReconciler.reconcileBinding w b t))
          /\ answer (TriggerReconciler.reconcileBinding w b t)
             = Err (errorsNew "binding spec differs and it's immutable"))
    /\ (forall t wantT currentT,
          NewTriggerDLQBinding b t = Ok wantT ->
          get (bindings w) (Namespace (brokerMeta b)) (CreateTriggerDeadLetterQueueName t)
            = Ok currentT ->
          derive (bindingSpec wantT) (bindingSpec currentT) = false ->
          Forall noWrite (calls (TriggerReconciler.reconcileDLQBinding w b t))
          /\ answer (TriggerReconciler.reconcileDLQBinding w b t)
             = Err (errorsNew "binding spec differs and it's immutable")).
Proof.
    intros Hwant Hget Hd.
    rewrite (broker_reconcileBinding_diverging w b want current Hwant Hget Hd).
    split; [done|]. split; [done|]. split.
    - intros t wantT currentT HwantT HgetT HdT.
      rewrite (trigger_reconcileBinding_diverging b t wantT currentT HwantT HgetT HdT).
      split; [|done]. by repeat constructor.
    - intros t wantT currentT HwantT HgetT HdT.
      rewrite (trigger_reconcileDLQBinding_diverging b t wantT currentT HwantT HgetT HdT).
      split; [|done]. by repeat constructor.
Qed.

End BindingDivergence.

(** ** A Trigger of a Broker of another class *)

Section InitializedConditions.
Variable cset : ConditionSet.



  (** It sets the happy condition when it is not. *)
Lemma InitializeConditions_happy (cs : gmap string KCondition) :
    is_Some (Manager.InitializeConditions cset cs !! happy cset).
Proof.
    unfold Manager.InitializeConditions.
    assert (Hkeep : forall status deps (acc : gmap string KCondition),
               is_Some (acc !! happy cset) ->
               is_Some (fold_left (fun acc t =>
                 match Manager.GetCondition acc t with
                 | Some _ => acc
                 | None =>
                     Manager.SetCondition acc t (mkKCondition status ConditionSeverityError "" "")
                 end) deps acc !! happy cset)).
    { intros status deps. induction deps as [|t deps IH]; intros acc Hacc; [done|].
      simpl. apply IH. destruct (Manager.GetCondition acc t); [done|].
      unfold Manager.SetCondition. destruct (decide (t = happy cset)) as [->|Hne].
      - rewrite lookup_insert_eq. eauto.
      - by rewrite lookup_insert_ne. }
    unfold Manager.GetCondition at 1. destruct (cs !! happy cset) as [h|] eqn:Hh.
    - apply Hkeep. rewrite Hh. eauto.
    - apply Hkeep. unfold Manager.SetCondition. rewrite lookup_insert_eq. eauto.
Qed.

End InitializedConditions.

(** Runs the Trigger's [ReconcileKind] up to the answer [Hb] of the Broker
    lister. *)
Ltac trigger_find_broker Hb :=
  unfold TriggerReconciler.ReconcileKind;
  do 4 (cbv beta; wp_step); cbv beta; wp_step; unfold TriggerReconciler.onStatus; wp_step;
  do 3 (cbv beta; wp_step); cbv beta;
  rewrite answer_call; unfold TriggerReconciler.withStatus at 1 2;
  cbn [triggerMeta triggerSpec];
  rewrite Hb.

Section IgnoredTrigger.
Context `{NM : Naming} `{BD : Builders}.
Variable w : World.
Variable r : TriggerReconciler.Reconciler.
Import TriggerReconciler.


End IgnoredTrigger.

(** ** A dependency that has not caught up *)

Section MarkedUnknown.
Variable cset : ConditionSet.

Lemma MarkFalse_happy_other cs t reason message :
    t <> happy cset ->
    Manager.MarkFalse cset cs (happy cset) reason message !! t = cs !! t.
Proof.
    intros Hne. unfold Manager.MarkFalse, Manager.SetCondition.
    destruct (bool_decide _); simpl; by rewrite !lookup_insert_ne.
Qed.

Lemma markUnknown_loop_other cs t reason message deps isDependent cs' ty :
    ty <> happy cset ->
    Manager.markUnknown_loop cset cs t reason message deps isDependent = inl cs' ->
    cs' !! ty = cs !! ty.
Proof.
    intros Hne. revert isDependent.
    induction deps as [|cond deps IH]; intros isDependent; simpl; [done|].
    destruct (match Manager.GetCondition cs cond with Some c => _ | None => _ end).
    - intros [= <-].
      destruct (match Manager.GetCondition cs (happy cset) with Some c => _ | None => _ end);
        [done|by apply MarkFalse_happy_other].
    - apply IH.
Qed.

  (** [MarkUnknown] of a condition other than the happy one leaves that
      condition Unknown with the reason and message given, whatever it does
      to the happy condition. *)
Lemma MarkUnknown_lookup cs t reason message :
    t <> happy cset ->
    Manager.MarkUnknown cset cs t reason message !! t
    = Some (mkKCondition ConditionUnknown (Manager.severity cset t) reason message).
Proof.
    intros Hne. unfold Manager.MarkUnknown.
    destruct (Manager.markUnknown_loop _ _ _ _ _ _ _) as [cs2|[|]] eqn:Hloop.
    - rewrite (markUnknown_loop_other _ _ _ _ _ _ _ t Hne Hloop).
      unfold Manager.SetCondition. by rewrite lookup_insert_eq.
    - unfold Manager.SetCondition. rewrite lookup_insert_ne by done. by rewrite lookup_insert_eq.
    - unfold Manager.SetCondition. by rewrite lookup_insert_eq.
Qed.
End MarkedUnknown.

Lemma MarkDependencyUnknown_condition reason message ts :
  TS.GetCondition (TS.MarkDependencyUnknown reason message ts) TriggerConditionDependency
  = Some (mkKCondition ConditionUnknown ConditionSeverityError reason message).
Proof.
  unfold TS.GetCondition, TS.MarkDependencyUnknown, TS.manage, TS.withConditions,
    Manager.GetCondition.
  cbn [triggerConditions]. by rewrite MarkUnknown_lookup.
Qed.

(** One step of a run whose case is decided by a hypothesis. *)
Ltac wp_known :=
  lazymatch goal with
  | |- wp (mbind _ _) _ _ _ _ => apply wp_bind
  | |- wp (mret _) _ _ _ _ => apply wp_ret
  | |- wp (lift _) _ _ _ _ => apply wp_lift
  | |- wp (withObj _) _ _ _ _ => apply wp_withObj
  | |- wp getObj _ _ _ _ => apply wp_getObj
  | |- wp (modify _) _ _ _ _ => apply wp_modify
  | |- wp (return_ _) _ _ _ _ => apply wp_return
  | |- wp (when ?c _) _ _ _ _ =>
      match goal with H : c = _ |- _ => rewrite H; unfold when end
  | |- wp (match ?x with _ => _ end) _ _ _ _ =>
      match goal with H : x = _ |- _ => rewrite H end
  | |- wp (if ?c then _ else _) _ _ _ _ =>
      match goal with H : c = _ |- _ => rewrite H end
  end.

Ltac wp_known_with unf :=
  repeat (cbv beta zeta; rewrite ?answer_call; first [ wp_known | progress unf ]).

Section DependencyGeneration.
Context `{NM : Naming} `{BD : Builders}.
Variable w : World.
Variable r : TriggerReconciler.Reconciler.
Import TriggerReconciler.

  (** [propagateDependencyReadiness] on a dependency whose generation is
      not the observed one. *)
Lemma propagate_mismatch (ref : ObjectReference) (dependency : Source) (t0 : Trigger) :
    sourceListerFor w ref = None ->
    sourceGet w ref (Namespace (triggerMeta t0)) (objName ref) = Ok dependency ->
    Generation (sourceMeta dependency) <> sourceObservedGeneration dependency ->
    wp (propagateDependencyReadiness w ref)
      (fun err h s =>
         err = None
         /\ h = [Invoke "propagateDependencyReadiness"; ListerFor ref;
                 ListerGet KSource (Namespace (triggerMeta t0)) (objName ref);
                 Log "info" "The ObjectMeta Generation of dependency is not equal to the observedGeneration of status"]
         /\ TS.GetCondition (triggerStatus s) TriggerConditionDependency
            = Some (mkKCondition ConditionUnknown ConditionSeverityError "GenerationNotEqual"
                      (Sprintf "The dependency's metadata.generation, %q, is not equal to its status.observedGeneration, %q."
                         [fmtQRune (Generation (sourceMeta dependency));
                          fmtQRune (sourceObservedGeneration dependency)])))
      (fun _ _ _ => False) [] t0.
Proof.
    intros Hl Hg Hne.
    assert (Hn : negb (bool_decide (Generation (sourceMeta dependency)
                                    = sourceObservedGeneration dependency)) = true)
      by (by rewrite bool_decide_eq_false_2).
    unfold propagateDependencyReadiness.
    wp_known_with ltac:(unfold onStatus, withStatus; cbn [triggerMeta triggerSpec triggerStatus]).
    split; [done|]. split; [done|]. apply MarkDependencyUnknown_condition.
Qed.

  (** C8: when the run of a Trigger reaches its dependency (the Broker is
      found, of this reconciler's class and Ready; the dependency annotation
      parses; tracking, the lister and the read of the dependency succeed)
      and the generation of the dependency is not the one its status has
      observed, then [propagateDependencyReadiness] returns nil, the run
      returns nil, its last call is the log line "Dependency is not ready"
      with no call of a later step after it, and the Dependency condition of
      the Trigger is Unknown with reason GenerationNotEqual. *)
Theorem dependency_generation_mismatch_soft_stops (t : Trigger) (broker : Broker)
      (annotation : string) (ref : ObjectReference) (dependency : Source) :
    brokerLister w (Namespace (triggerMeta t)) (specBroker (triggerSpec t)) = Ok broker ->
    mapIndex (Annotations (brokerMeta broker)) BrokerClassKey = brokerClass r ->
    brokerIsReady broker = true ->
    Annotations (triggerMeta t) !! DependencyAnnotation = Some annotation ->
    GetObjRefFromDependencyAnnotation annotation = Ok ref ->
    trackKResource w (triggerMeta t) ref = None ->
    sourceListerFor w ref = None ->
    sourceGet w ref (Namespace (triggerMeta t)) (objName ref) = Ok dependency ->
    Generation (sourceMeta dependency) <> sourceObservedGeneration dependency ->
    (propagateDependencyReadiness w ref t).2 = Continue None
    /\ returned (ReconcileKind w r) t = None
    /\ trace (ReconcileKind w r) t =
         [Invoke "ReconcileKind"; Log "debug" "Reconciling";
          ListerGet KBroker (Namespace (triggerMeta t)) (specBroker (triggerSpec t));
          Invoke "checkDependencyAnnotation"; Track ref;
          Invoke "propagateDependencyReadiness"; ListerFor ref;
          ListerGet KSource (Namespace (triggerMeta t)) (objName ref);
          Log "info" "The ObjectMeta Generation of dependency is not equal to the observedGeneration of status";
          Log "info" "Dependency is not ready"]
    /\ exists c,
         TS.GetCondition (triggerStatus (final (ReconcileKind w r) t)) TriggerConditionDependency
           = Some c
         /\ kStatus c = ConditionUnknown /\ kReason c = "GenerationNotEqual".
Proof.
    intros Hb Hclass Hready Hann Href Htrack Hl Hg Hne. split.
    { pose proof (propagate_mismatch ref dependency t Hl Hg Hne) as Hp. unfold wp in Hp.
      destruct (propagateDependencyReadiness w ref t) as [[tr s'] [err|ret]]; [|done].
      destruct Hp as [-> _]. done. }
    apply (wp_run (ReconcileKind w r)
             (fun ret h s =>
                ret = None
                /\ h = [Invoke "ReconcileKind"; Log "debug" "Reconciling";
                        ListerGet KBroker (Namespace (triggerMeta t))
                          (specBroker (triggerSpec t));
                        Invoke "checkDependencyAnnotation"; Track ref;
                        Invoke "propagateDependencyReadiness"; ListerFor ref;
                        ListerGet KSource (Namespace (triggerMeta t)) (objName ref);
                        Log "info" "The ObjectMeta Generation of dependency is not equal to the observedGeneration of status";
                        Log "info" "Dependency is not ready"]
                /\ exists c,
                     TS.GetCondition (triggerStatus s) TriggerConditionDependency = Some c
                     /\ kStatus c = ConditionUnknown /\ kReason c = "GenerationNotEqual")).
    trigger_find_broker Hb.
    assert (Hc : negb (bool_decide (mapIndex (Annotations (brokerMeta broker)) BrokerClassKey
                                    = brokerClass r)) = false)
      by (by rewrite bool_decide_eq_true_2).
    assert (Hr : negb (brokerIsReady broker) = false) by (by rewrite Hready).
    assert (Hn : negb (bool_decide (Generation (sourceMeta dependency)
                                    = sourceObservedGeneration dependency)) = true)
      by (by rewrite bool_decide_eq_false_2).
    wp_known_with ltac:(unfold onStatus, checkDependencyAnnotation, propagateDependencyReadiness,
                          setObservedGeneration, withStatus;
                        cbn [triggerMeta triggerSpec triggerStatus]).
    unfold dependencyNotTrue. cbn [triggerStatus].
    rewrite MarkDependencyUnknown_condition. cbn [kStatus].
    rewrite bool_decide_eq_false_2 by done. cbn [negb].
    wp_known_with idtac.
    split; [done|]. split; [done|]. eexists. split; [apply MarkDependencyUnknown_condition|done].
Qed.

End DependencyGeneration.

(** ** A Broker that is not backed by a RabbitmqCluster *)

Section MarkedFalse.
Variable cset : ConditionSet.

  (** [MarkFalse] of a condition other than the happy one leaves it False
      with the reason and message given. *)
Lemma MarkFalse_lookup cs t reason message :
    t <> happy cset ->
    Manager.MarkFalse cset cs t reason message !! t
    = Some (mkKCondition ConditionFalse (Manager.severity cset t) reason message).
Proof.
    intros Hne. unfold Manager.MarkFalse, Manager.SetCondition.
    destruct (bool_decide _); simpl.
    - rewrite lookup_insert_ne by done. by rewrite lookup_insert_eq.
    - by rewrite lookup_insert_eq.
Qed.

Lemma recomputeHappiness_other cs t ty :
    ty <> happy cset -> Manager.recomputeHappiness cset cs t !! ty = cs !! ty.
Proof.
    intros Hne. unfold Manager.recomputeHappiness, Manager.SetCondition.
    destruct (Manager.findUnhappyDependent cset cs); [by rewrite lookup_insert_ne|].
    destruct (bool_decide _); [by rewrite lookup_insert_ne|done].
Qed.

  (** [MarkTrue] of a condition other than the happy one leaves it True. *)
Lemma MarkTrue_lookup cs t :
    t <> happy cset ->
    Manager.MarkTrue cset cs t !! t
    = Some (mkKCondition ConditionTrue (Manager.severity cset t) "" "").
Proof.
    intros Hne. unfold Manager.MarkTrue. rewrite recomputeHappiness_other by done.
    unfold Manager.SetCondition. by rewrite lookup_insert_eq.
Qed.
End MarkedFalse.

Lemma MarkDependencyFailed_condition reason message ts :
  TS.GetCondition (TS.MarkDependencyFailed reason message ts) TriggerConditionDependency
  = Some (mkKCondition ConditionFalse ConditionSeverityError reason message).
Proof.
  unfold TS.GetCondition, TS.MarkDependencyFailed, TS.manage, TS.withConditions,
    Manager.GetCondition.
  cbn [triggerConditions]. by rewrite MarkFalse_lookup.
Qed.

Lemma MarkDependencySucceeded_condition ts :
  TS.GetCondition (TS.MarkDependencySucceeded ts) TriggerConditionDependency
  = Some (mkKCondition ConditionTrue ConditionSeverityError "" "").
Proof.
  unfold TS.GetCondition, TS.MarkDependencySucceeded, TS.manage, TS.withConditions,
    Manager.GetCondition.
  cbn [triggerConditions]. by rewrite MarkTrue_lookup.
Qed.

(** A step of a run, by a hypothesis where one decides the case. *)
Ltac wp_any := first [ wp_known | wp_step ].
Ltac wp_any_with unf :=
  repeat (cbv beta zeta; rewrite ?answer_call; first [ wp_known | wp_step | progress unf ]).

Section TriggerUnsupported.
Context `{NM : Naming} `{BD : Builders}.
Variable w : World.
Variable r : TriggerReconciler.Reconciler.
Import TriggerReconciler.

Lemma trigger_unsupported_noTopology (t : Trigger) (broker : Broker) :
    brokerLister w (Namespace (triggerMeta t)) (specBroker (triggerSpec t)) = Ok broker ->
    isUsingOperator broker = false ->
    Forall noTopology (trace (ReconcileKind w r) t).
Proof.
    intros Hb Hop.
    assert (Hn : negb (isUsingOperator broker) = true) by (by rewrite Hop).
    apply (wp_run (ReconcileKind w r) (fun _ h _ => Forall noTopology h)).
    trigger_find_broker Hb.
    wp_any_with ltac:(unfold onStatus, onStatusOf, checkDependencyAnnotation,
                        propagateDependencyReadiness).
    all: rewrite ?Forall_app; repeat split; by repeat constructor.
Qed.

Lemma trigger_unsupported_marked (t : Trigger) (broker : Broker) :
    brokerLister w (Namespace (triggerMeta t)) (specBroker (triggerSpec t)) = Ok broker ->
    isUsingOperator broker = false ->
    mapIndex (Annotations (brokerMeta broker)) BrokerClassKey = brokerClass r ->
    brokerIsReady broker = true ->
    Annotations (triggerMeta t) !! DependencyAnnotation = None ->
    returned (ReconcileKind w r) t = None
    /\ trace (ReconcileKind w r) t =
         [Invoke "ReconcileKind"; Log "debug" "Reconciling";
          ListerGet KBroker (Namespace (triggerMeta t)) (specBroker (triggerSpec t));
          Invoke "checkDependencyAnnotation"]
    /\ TS.GetCondition (triggerStatus (final (ReconcileKind w r) t)) TriggerConditionDependency
       = Some (mkKCondition ConditionFalse ConditionSeverityError "ReconcileFailure"
                 "using secret is not supported with this controller").
Proof.
    intros Hb Hop Hclass Hready Hann.
    assert (Hn : negb (isUsingOperator broker) = true) by (by rewrite Hop).
    assert (Hc : negb (bool_decide (mapIndex (Annotations (brokerMeta broker)) BrokerClassKey
                                    = brokerClass r)) = false)
      by (by rewrite bool_decide_eq_true_2).
    assert (Hr : negb (brokerIsReady broker) = false) by (by rewrite Hready).
    apply (wp_run (ReconcileKind w r)
             (fun ret h s =>
                ret = None
                /\ h = [Invoke "ReconcileKind"; Log "debug" "Reconciling";
                        ListerGet KBroker (Namespace (triggerMeta t))
                          (specBroker (triggerSpec t));
                        Invoke "checkDependencyAnnotation"]
                /\ TS.GetCondition (triggerStatus s) TriggerConditionDependency
                   = Some (mkKCondition ConditionFalse ConditionSeverityError "ReconcileFailure"
                             "using secret is not supported with this controller"))).
    trigger_find_broker Hb.
    wp_known_with ltac:(unfold onStatus, checkDependencyAnnotation, setObservedGeneration,
                          withStatus;
                        cbn [triggerMeta triggerSpec triggerStatus]).
    unfold dependencyNotTrue. cbn [triggerStatus].
    rewrite MarkDependencySucceeded_condition. cbn [kStatus].
    rewrite bool_decide_eq_true_2 by done. cbn [negb].
    wp_known_with ltac:(unfold onStatus, withStatus; cbn [triggerMeta triggerSpec triggerStatus]).
    split; [done|]. split; [done|]. apply MarkDependencyFailed_condition.
Qed.

  (** The run from the dependency check on, under a Broker of this class
      that is Ready and not backed by a RabbitmqCluster: what the run
      returns and the Trigger it leaves, by what [checkDependencyAnnotation]
      gives on the Trigger that passed the Broker gates. *)
Lemma trigger_unsupported_by_dependency (t : Trigger) (broker : Broker)
      (tr : list Event) (s1 : Trigger) (err : option error) :
    brokerLister w (Namespace (triggerMeta t)) (specBroker (triggerSpec t)) = Ok broker ->
    isUsingOperator broker = false ->
    mapIndex (Annotations (brokerMeta broker)) BrokerClassKey = brokerClass r ->
    brokerIsReady broker = true ->
    checkDependencyAnnotation w (afterBrokerGates t broker) = (tr, s1, Continue err) ->
    match err with
    | Some err =>
        returned (ReconcileKind w r) t = Some err /\ final (ReconcileKind w r) t = s1
    | None =>
        returned (ReconcileKind w r) t = None
        /\ final (ReconcileKind w r) t =
             if dependencyNotTrue s1 then s1
             else withStatus s1
                    (TS.MarkDependencyFailed "ReconcileFailure"
                       "using secret is not supported with this controller"
                       (triggerStatus s1))
    end.
Proof.
    intros Hb Hop Hclass Hready Hdep.
    assert (Hn : negb (isUsingOperator broker) = true) by (by rewrite Hop).
    assert (Hc : negb (bool_decide (mapIndex (Annotations (brokerMeta broker)) BrokerClassKey
                                    = brokerClass r)) = false)
      by (by rewrite bool_decide_eq_true_2).
    assert (Hr : negb (brokerIsReady broker) = false) by (by rewrite Hready).
    apply (wp_run (ReconcileKind w r)
             (fun ret _ s =>
                match err with
                | Some err => ret = Some err /\ s = s1
                | None =>
                    ret = None
                    /\ s = if dependencyNotTrue s1 then s1
                           else withStatus s1
                                  (TS.MarkDependencyFailed "ReconcileFailure"
                                     "using secret is not supported with this controller"
                                     (triggerStatus s1))
                end)).
    trigger_find_broker Hb.
    wp_known_with ltac:(unfold onStatus).
    match goal with
    | |- wp _ _ _ ?h ?s => change s with (afterBrokerGates t broker)
    end.
    unfold wp at 1. rewrite Hdep.
    destruct err as [err|].
    - wp_known_with idtac. done.
    - destruct (dependencyNotTrue s1) eqn:Hnt; wp_known_with ltac:(unfold onStatus); done.
Qed.

  (** The same with a dependency that is there, up to date and Ready. *)
Lemma trigger_unsupported_marked_annotated (t : Trigger) (broker : Broker)
      (annotation : string) (ref : ObjectReference) (dependency : Source) (kc : KCondition) :
    brokerLister w (Namespace (triggerMeta t)) (specBroker (triggerSpec t)) = Ok broker ->
    isUsingOperator broker = false ->
    mapIndex (Annotations (brokerMeta broker)) BrokerClassKey = brokerClass r ->
    brokerIsReady broker = true ->
    Annotations (triggerMeta t) !! DependencyAnnotation = Some annotation ->
    GetObjRefFromDependencyAnnotation annotation = Ok ref ->
    trackKResource w (triggerMeta t) ref = None ->
    sourceListerFor w ref = None ->
    sourceGet w ref (Namespace (triggerMeta t)) (objName ref) = Ok dependency ->
    Generation (sourceMeta dependency) = sourceObservedGeneration dependency ->
    sourceConditions dependency !! ConditionReady = Some kc ->
    kStatus kc = ConditionTrue ->
    returned (ReconcileKind w r) t = None
    /\ TS.GetCondition (triggerStatus (final (ReconcileKind w r) t)) TriggerConditionDependency
       = Some (mkKCondition ConditionFalse ConditionSeverityError "ReconcileFailure"
                 "using secret is not supported with this controller").
Proof.
    intros Hb Hop Hclass Hready Hann Href Htrack Hl Hget Hgen Hkc Htrue.
    assert (Hn : negb (isUsingOperator broker) = true) by (by rewrite Hop).
    assert (Hc : negb (bool_decide (mapIndex (Annotations (brokerMeta broker)) BrokerClassKey
                                    = brokerClass r)) = false)
      by (by rewrite bool_decide_eq_true_2).
    assert (Hr : negb (brokerIsReady broker) = false) by (by rewrite Hready).
    assert (Hg : negb (bool_decide (Generation (sourceMeta dependency)
                                    = sourceObservedGeneration dependency)) = false)
      by (by rewrite bool_decide_eq_true_2).
    apply (wp_run (ReconcileKind w r)
             (fun ret h s =>
                ret = None
                /\ TS.GetCondition (triggerStatus s) TriggerConditionDependency
                   = Some (mkKCondition ConditionFalse ConditionSeverityError "ReconcileFailure"
                             "using secret is not supported with this controller"))).
    trigger_find_broker Hb.
    wp_known_with ltac:(unfold onStatus, checkDependencyAnnotation,
                          propagateDependencyReadiness, setObservedGeneration, withStatus;
                        cbn [triggerMeta triggerSpec triggerStatus]).
    unfold dependencyNotTrue. cbn [triggerStatus].
    unfold TS.PropagateDependencyStatus. rewrite Hkc, Htrue.
    rewrite (bool_decide_eq_false_2 (ConditionTrue = ConditionUnknown)) by done.
    rewrite (bool_decide_eq_true_2 (ConditionTrue = ConditionTrue)) by done.
    rewrite MarkDependencySucceeded_condition. cbn [kStatus].
    rewrite bool_decide_eq_true_2 by done. cbn [negb].
    wp_known_with ltac:(unfold onStatus, withStatus; cbn [triggerMeta triggerSpec triggerStatus]).
    split; [done|]. apply MarkDependencyFailed_condition.
Qed.

  (** The two gates before the dependency. *)
Lemma trigger_other_class_final (t : Trigger) (broker : Broker) :
    brokerLister w (Namespace (triggerMeta t)) (specBroker (triggerSpec t)) = Ok broker ->
    mapIndex (Annotations (brokerMeta broker)) BrokerClassKey <> brokerClass r ->
    returned (ReconcileKind w r) t = None
    /\ final (ReconcileKind w r) t = withStatus t (TS.InitializeConditions (triggerStatus t)).
Proof.
    intros Hb Hclass.
    assert (Hc : negb (bool_decide (mapIndex (Annotations (brokerMeta broker)) BrokerClassKey
                                    = brokerClass r)) = true)
      by (by rewrite bool_decide_eq_false_2).
    apply (wp_run (ReconcileKind w r)
             (fun ret _ s =>
                ret = None /\ s = withStatus t (TS.InitializeConditions (triggerStatus t)))).
    trigger_find_broker Hb. wp_known_with idtac. done.
Qed.

Lemma trigger_unready_final (t : Trigger) (broker : Broker) :
    brokerLister w (Namespace (triggerMeta t)) (specBroker (triggerSpec t)) = Ok broker ->
    mapIndex (Annotations (brokerMeta broker)) BrokerClassKey = brokerClass r ->
    brokerIsReady broker = false ->
    returned (ReconcileKind w r) t = None
    /\ final (ReconcileKind w r) t = afterBrokerGates t broker.
Proof.
    intros Hb Hclass Hready.
    assert (Hc : negb (bool_decide (mapIndex (Annotations (brokerMeta broker)) BrokerClassKey
                                    = brokerClass r)) = false)
      by (by rewrite bool_decide_eq_true_2).
    assert (Hr : negb (brokerIsReady broker) = true) by (by rewrite Hready).
    apply (wp_run (ReconcileKind w r)
             (fun ret _ s => ret = None /\ s = afterBrokerGates t broker)).
    trigger_find_broker Hb. wp_known_with ltac:(unfold onStatus). done.
Qed.

End TriggerUnsupported.

Section BrokerUnsupported.
Context `{NM : Naming} `{BD : Builders}.
Variable w : World.
Variable r : BrokerCommon.Reconciler.
Import BrokerCommon.

Lemma getExchangeArgs_noTopology b : Forall noTopology (calls (getExchangeArgs w b)).
Proof. unfold getExchangeArgs. forall_calls; done. Qed.

Lemma broker_unsupported_noTopology (b : Broker) :
    isUsingOperator b = false ->
    Forall noTopology (trace (BrokerReconciler.ReconcileKind w r) b).
Proof.
    intros Hop.
    assert (Hn : negb (isUsingOperator b) = true) by (by rewrite Hop).
    apply (wp_run (BrokerReconciler.ReconcileKind w r) (fun _ h _ => Forall noTopology h)).
    unfold BrokerReconciler.ReconcileKind.
    wp_any_with ltac:(unfold onStatus).
    all: rewrite ?Forall_app; repeat split;
      first [ apply getExchangeArgs_noTopology | by repeat constructor ].
Qed.

Lemma broker_unsupported_marked (b : Broker) (args : ExchangeArgs) :
    isUsingOperator b = false ->
    answer (getExchangeArgs w b) = Ok args ->
    returned (BrokerReconciler.ReconcileKind w r) b = None
    /\ final (BrokerReconciler.ReconcileKind w r) b
       = withStatus b (MarkExchangeFailed "ReconcileFailure"
                         "using secret is not supported with this controller"
                         (brokerStatus b)).
Proof.
    intros Hop Hargs.
    assert (Hn : negb (isUsingOperator b) = true) by (by rewrite Hop).
    apply (wp_run (BrokerReconciler.ReconcileKind w r)
             (fun ret _ s =>
                ret = None
                /\ s = withStatus b (MarkExchangeFailed "ReconcileFailure"
                                       "using secret is not supported with this controller"
                                       (brokerStatus b)))).
    unfold BrokerReconciler.ReconcileKind.
    wp_known_with ltac:(unfold onStatus). done.
Qed.

Lemma broker_credentials_unavailable (b : Broker) (err : error) :
    answer (getExchangeArgs w b) = Err err ->
    returned (BrokerReconciler.ReconcileKind w r) b = Some err
    /\ final (BrokerReconciler.ReconcileKind w r) b
       = withStatus b (MarkExchangeFailed "ExchangeCredentialsUnavailable"
                         (Sprintf "Failed to get arguments for creating exchange: %s"
                            [errMsg err])
                         (brokerStatus b)).
Proof.
    intros Hargs.
    apply (wp_run (BrokerReconciler.ReconcileKind w r)
             (fun ret _ s =>
                ret = Some err
                /\ s = withStatus b (MarkExchangeFailed "ExchangeCredentialsUnavailable"
                         (Sprintf "Failed to get arguments for creating exchange: %s"
                            [errMsg err])
                         (brokerStatus b)))).
    unfold BrokerReconciler.ReconcileKind.
    wp_known_with ltac:(unfold onStatus). done.
Qed.

End BrokerUnsupported.

Section UnsupportedClaim.
Context `{NM : Naming} `{BD : Builders}.
Variable w : World.

  (** [checkDependencyAnnotation] hands its error or nil to its caller: it
      does not end the run by itself. *)
Lemma checkDependencyAnnotation_continues s :
    exists tr s1 err,
      TriggerReconciler.checkDependencyAnnotation w s = (tr, s1, Continue err).
Proof.
    assert (H : wp (TriggerReconciler.checkDependencyAnnotation w)
                  (fun _ _ _ => True) (fun _ _ _ => False) [] s).
    { unfold TriggerReconciler.checkDependencyAnnotation,
        TriggerReconciler.propagateDependencyReadiness.
      wp_run_with ltac:(unfold TriggerReconciler.onStatus, TriggerReconciler.onStatusOf);
        done. }
    unfold wp in H.
    destruct (TriggerReconciler.checkDependencyAnnotation w s) as [[tr s1] [a|ret]];
      [eauto|done].
Qed.

  (** C4, amended: a run on a Broker whose config is not of kind
      RabbitmqCluster does no topology work, in either reconciler: no read
      or write of an exchange, queue or binding and no call of their
      reconcile methods. The unsupported-configuration mark, after which the
      run returns nil, is set exactly when the steps before the check have
      passed.

      In the Broker reconciler: when the exchange arguments are obtained the
      Exchange condition is failed with reason ReconcileFailure; when they
      are not, it is failed with reason ExchangeCredentialsUnavailable and
      the error is returned.

      In the Trigger reconciler, for a Trigger whose Broker is found: a
      Broker of another class leaves the Trigger with its conditions
      initialised and nothing else; a Broker that is not Ready leaves it as
      the Broker gates made it; otherwise [checkDependencyAnnotation] runs
      on that Trigger and gives an error or nil, and the run returns its
      error if it gives one,
      returns nil leaving the Trigger as the check made it if the Dependency
      condition is not True, and fails the Dependency condition for
      ReconcileFailure and returns nil if it is True. The Dependency
      condition is True, and the mark set, for a Trigger without dependency
      annotation and for one whose annotated dependency is read, up to date
      and Ready. *)
Theorem unsupported_config_does_no_topology_work :
    (forall (r : BrokerCommon.Reconciler) (b : Broker),
        BrokerCommon.isUsingOperator b = false ->
        Forall noTopology (trace (BrokerReconciler.ReconcileKind w r) b)
        /\ (forall args,
              answer (BrokerCommon.getExchangeArgs w b) = Ok args ->
              returned (BrokerReconciler.ReconcileKind w r) b = None
              /\ final (BrokerReconciler.ReconcileKind w r) b
                 = BrokerCommon.withStatus b
                     (BrokerCommon.MarkExchangeFailed "ReconcileFailure"
                        "using secret is not supported with this controller"
                        (brokerStatus b)))
        /\ (forall err,
              answer (BrokerCommon.getExchangeArgs w b) = Err err ->
              returned (BrokerReconciler.ReconcileKind w r) b = Some err
              /\ final (BrokerReconciler.ReconcileKind w r) b
                 = BrokerCommon.withStatus b
                     (BrokerCommon.MarkExchangeFailed "ExchangeCredentialsUnavailable"
                        (Sprintf "Failed to get arguments for creating exchange: %s"
                           [errMsg err])
                        (brokerStatus b))))
    /\ (forall (r : TriggerReconciler.Reconciler) (t : Trigger) (broker : Broker),
          brokerLister w (Namespace (triggerMeta t)) (specBroker (triggerSpec t)) = Ok broker ->
          TriggerReconciler.isUsingOperator broker = false ->
          Forall noTopology (trace (TriggerReconciler.ReconcileKind w r) t)
          /\ (mapIndex (Annotations (brokerMeta broker)) BrokerClassKey
                = TriggerReconciler.brokerClass r ->
              brokerIsReady broker = true ->
              Annotations (triggerMeta t) !! DependencyAnnotation = None ->
              returned (TriggerReconciler.ReconcileKind w r) t = None
              /\ TS.GetCondition (triggerStatus (final (TriggerReconciler.ReconcileKind w r) t))
                   TriggerConditionDependency
                 = Some (mkKCondition ConditionFalse ConditionSeverityError "ReconcileFailure"
                           "using secret is not supported with this controller"))
          /\ (forall annotation ref dependency kc,
                mapIndex (Annotations (brokerMeta broker)) BrokerClassKey
                  = TriggerReconciler.brokerClass r ->
                brokerIsReady broker = true ->
                Annotations (triggerMeta t) !! DependencyAnnotation = Some annotation ->
                GetObjRefFromDependencyAnnotation annotation = Ok ref ->
                trackKResource w (triggerMeta t) ref = None ->
                sourceListerFor w ref = None ->
                sourceGet w ref (Namespace (triggerMeta t)) (objName ref) = Ok dependency ->
                Generation (sourceMeta dependency) = sourceObservedGeneration dependency ->
                sourceConditions dependency !! ConditionReady = Some kc ->
                kStatus kc = ConditionTrue ->
                returned (TriggerReconciler.ReconcileKind w r) t = None
                /\ TS.GetCondition
                     (triggerStatus (final (TriggerReconciler.ReconcileKind w r) t))
                     TriggerConditionDependency
                   = Some (mkKCondition ConditionFalse ConditionSeverityError
                             "ReconcileFailure"
                             "using secret is not supported with this controller"))
          /\ (mapIndex (Annotations (brokerMeta broker)) BrokerClassKey
                = TriggerReconciler.brokerClass r ->
              brokerIsReady broker = true ->
              exists tr s1 err,
                TriggerReconciler.checkDependencyAnnotation w (afterBrokerGates t broker)
                  = (tr, s1, Continue err)
                /\
                match err with
                | Some err =>
                    returned (TriggerReconciler.ReconcileKind w r) t = Some err
                    /\ final (TriggerReconciler.ReconcileKind w r) t = s1
                | None =>
                    returned (TriggerReconciler.ReconcileKind w r) t = None
                    /\ final (TriggerReconciler.ReconcileKind w r) t =
                         if TriggerReconciler.dependencyNotTrue s1 then s1
                         else TriggerReconciler.withStatus s1
                                (TS.MarkDependencyFailed "ReconcileFailure"
                                   "using secret is not supported with this controller"
                                   (triggerStatus s1))
                end)
          /\ (mapIndex (Annotations (brokerMeta broker)) BrokerClassKey
                <> TriggerReconciler.brokerClass r ->
              returned (TriggerReconciler.ReconcileKind w r) t = None
              /\ final (TriggerReconciler.ReconcileKind w r) t
                 = TriggerReconciler.withStatus t (TS.InitializeConditions (triggerStatus t)))
          /\ (mapIndex (Annotations (brokerMeta broker)) BrokerClassKey
                = TriggerReconciler.brokerClass r ->
              brokerIsReady broker = false ->
              returned (TriggerReconciler.ReconcileKind w r) t = None
              /\ final (TriggerReconciler.ReconcileKind w r) t = afterBrokerGates t broker)).
Proof.
    split.
    - intros r b Hop. split; [by apply broker_unsupported_noTopology|]. split.
      + intros args Hargs. by apply broker_unsupported_marked with args.
      + intros err Herr. by apply broker_credentials_unavailable.
    - intros r t broker Hb Hop. split; [by apply trigger_unsupported_noTopology with broker|].
      split; [|split; [|split; [|split]]].
      + intros Hclass Hready Hann.
        destruct (trigger_unsupported_marked w r t broker Hb Hop Hclass Hready Hann)
          as (Hret & _ & Hcond).
        done.
      + intros annotation ref dependency kc Hclass Hready Hann Href Htrack Hl Hget Hgen Hkc Ht.
        by apply (trigger_unsupported_marked_annotated w r t broker annotation ref
                    dependency kc).
      + intros Hclass Hready.
        destruct (checkDependencyAnnotation_continues (afterBrokerGates t broker))
          as (tr & s1 & err & Hdep).
        exists tr, s1, err. split; [done|].
        by apply (trigger_unsupported_by_dependency w r t broker tr s1 err).
      + intros Hclass. by apply trigger_other_class_final with broker.
      + intros Hclass Hready. by apply trigger_unready_final.
Qed.

End UnsupportedClaim.

(** ** Ordering of the dead-letter steps and of the dispatcher *)

Section OrderingFacts.
Context `{NM : Naming} `{BD : Builders}.
Variable w : World.
Variable t : Trigger.
Import TriggerReconciler.

Lemma dlxReadyIn_mono pre more : dlxReadyIn w t pre -> dlxReadyIn w t (pre ++ more).
Proof.
    intros (broker & t' & dlx & h1 & h2 & Hs & -> & Ha & Hr).
    exists broker, t', dlx, h1, (h2 ++ more). by rewrite <- !app_assoc.
Qed.

Lemma resolvedIn_mono pre more : resolvedIn w t pre -> resolvedIn w t (pre ++ more).
Proof.
    intros (t' & uri & Hs & Hin & Hu). exists t', uri. split; [done|]. split; [|done].
    apply elem_of_app. by left.
Qed.

Lemma guarded_mono pre more e : guarded w t pre e -> guarded w t (pre ++ more) e.
Proof.
    intros [Hd Hr]. split; intros He; [by apply dlxReadyIn_mono, Hd|by apply resolvedIn_mono, Hr].
Qed.

Lemma plain_guarded pre e : plain e -> guarded w t pre e.
Proof. intros (H1 & H2 & H3). split; [intros [?|?]|intros ?]; congruence. Qed.

Lemma ordered_nil : ordered w t [].
Proof. intros pre e post Heq. by destruct pre. Qed.

Lemma ordered_snoc h e : ordered w t h -> guarded w t h e -> ordered w t (h ++ [e]).
Proof.
    intros Hh He pre e' post Heq.
    destruct post as [|x post _] using rev_ind.
    - apply (app_inj_tail h pre e e') in Heq as [-> ->]. done.
    - rewrite app_comm_cons, app_assoc in Heq.
      apply app_inj_tail in Heq as [-> ->]. by apply (Hh pre e' post).
Qed.

Lemma ordered_app h tr :
    ordered w t h -> Forall (guarded w t h) tr -> ordered w t (h ++ tr).
Proof.
    intros Hh Htr. revert h Hh Htr. induction tr as [|e tr IH]; intros h Hh Htr.
    - by rewrite app_nil_r.
    - apply Forall_cons in Htr as [He Htr].
      replace (h ++ e :: tr) with ((h ++ [e]) ++ tr) by (by rewrite <- app_assoc).
      apply IH; [by apply ordered_snoc|].
      eapply Forall_impl; [exact Htr|]. intros e' He'. by apply guarded_mono.
Qed.

Lemma ordered_app_plain h tr : ordered w t h -> Forall plain tr -> ordered w t (h ++ tr).
Proof.
    intros Hh Htr. apply ordered_app; [done|].
    eapply Forall_impl; [exact Htr|]. intros e. apply plain_guarded.
Qed.

Lemma ordered_step h e : ordered w t h -> plain e -> ordered w t (h ++ [e]).
Proof. intros Hh He. by apply ordered_snoc, plain_guarded. Qed.

End OrderingFacts.

Section PlainCalls.
Context `{NM : Naming} `{BD : Builders}.
Variable w : World.
Variable r : TriggerReconciler.Reconciler.
Import TriggerReconciler.

Ltac plain_leaf := first [ by repeat split | by left | by right; repeat split ].

Lemma reconcileDeployment_plain d : Forall plain (calls (reconcileDeployment w d)).
Proof. unfold reconcileDeployment. forall_calls; plain_leaf. Qed.

Lemma getRabbitmqSecret_plain t : Forall plain (calls (getRabbitmqSecret w t)).
Proof. unfold getRabbitmqSecret. forall_calls; plain_leaf. Qed.

Lemma reconcileDLXDispatcherDeployment_plain t sub :
    Forall plain (calls (reconcileDLXDispatcherDeployment w r t sub)).
Proof.
    unfold reconcileDLXDispatcherDeployment.
    forall_calls; auto using reconcileDeployment_plain, getRabbitmqSecret_plain; plain_leaf.
Qed.

Lemma reconcileExchange_plain args : Forall plain (calls (reconcileExchange w args)).
Proof. unfold reconcileExchange. forall_calls; plain_leaf. Qed.

Lemma upsertQueue_plain ns name want : Forall plain (calls (upsertQueue w ns name want)).
Proof. unfold upsertQueue. forall_calls; plain_leaf. Qed.

Lemma reconcileQueue_plain b t : Forall plain (calls (reconcileQueue w b t)).
Proof. unfold reconcileQueue. forall_calls; auto using upsertQueue_plain; plain_leaf. Qed.

Lemma ensureBinding_plain ns name msg want :
    Forall plain (calls (ensureBinding w ns name msg want)).
Proof. unfold ensureBinding. forall_calls; plain_leaf. Qed.

Lemma reconcileBinding_plain b t : Forall plain (calls (reconcileBinding w b t)).
Proof. unfold reconcileBinding. forall_calls; auto using ensureBinding_plain; plain_leaf. Qed.

Lemma plain_or (e0 : Event) l : Forall plain l -> Forall (fun e => e = e0 \/ plain e) l.
Proof. intros Hl. eapply Forall_impl; [exact Hl|]. auto. Qed.

Lemma reconcileDLQ_steps b t :
    Forall (fun e => e = Invoke "reconcileDLQ" \/ plain e) (calls (reconcileDLQ w b t)).
Proof.
    unfold reconcileDLQ. forall_calls; auto using plain_or, upsertQueue_plain; plain_leaf.
Qed.

Lemma reconcileDLQBinding_steps b t :
    Forall (fun e => e = Invoke "reconcileDLQBinding" \/ plain e)
      (calls (reconcileDLQBinding w b t)).
Proof.
    unfold reconcileDLQBinding.
    forall_calls; auto using plain_or, ensureBinding_plain; plain_leaf.
Qed.

Lemma reconcileDispatcherDeployment_steps t sub delivery :
    Forall (fun e => e = Invoke "reconcileDispatcherDeployment" \/ plain e)
      (calls (reconcileDispatcherDeployment w r t sub delivery)).
Proof.
    unfold reconcileDispatcherDeployment.
    forall_calls;
      auto using plain_or, reconcileDeployment_plain, getRabbitmqSecret_plain; plain_leaf.
Qed.

End PlainCalls.

Section OrderedRun.
Context `{NM : Naming} `{BD : Builders}.
Variable w : World.
Variable r : TriggerReconciler.Reconciler.
Variable t : Trigger.
Import TriggerReconciler.

Lemma guarded_by_dlx h (l : list Event) (e0 : Event) :
    e0 = Invoke "reconcileDLQ" \/ e0 = Invoke "reconcileDLQBinding" ->
    dlxReadyIn w t h ->
    Forall (fun e => e = e0 \/ plain e) l -> Forall (guarded w t h) l.
Proof.
    intros He0 Hd Hl. eapply Forall_impl; [exact Hl|].
    intros e [->|He]; [|by apply plain_guarded].
    split; [done|]. intros ->. destruct He0; discriminate.
Qed.

Lemma guarded_by_resolve h (l : list Event) :
    resolvedIn w t h ->
    Forall (fun e => e = Invoke "reconcileDispatcherDeployment" \/ plain e) l ->
    Forall (guarded w t h) l.
Proof.
    intros Hr Hl. eapply Forall_impl; [exact Hl|].
    intros e [->|He]; [|by apply plain_guarded].
    split; [|done]. intros [?|?]; discriminate.
Qed.

  (** Closes the goals an ordered run leaves: the history grown by blocks of
      plain calls. *)
Ltac ordered_plain :=
    repeat first
      [ assumption
      | apply ordered_app_plain;
        [|first [ apply reconcileExchange_plain | apply reconcileDLXDispatcherDeployment_plain
                | apply reconcileQueue_plain | apply reconcileBinding_plain
                | by repeat constructor ]] ].

Lemma orderedWithDLX_step h e :
    orderedWithDLX w t h -> deadLetterStep e -> orderedWithDLX w t (h ++ [e]).
Proof.
    intros [Ho Hd] He. split; [|by apply dlxReadyIn_mono].
    apply ordered_snoc; [done|]. destruct He as [->|[->|He]]; [| |by apply plain_guarded].
    - split; [done|discriminate].
    - split; [done|discriminate].
Qed.

Lemma orderedResolved_step h e :
    orderedResolved w t h -> dispatcherStep e -> orderedResolved w t (h ++ [e]).
Proof.
    intros [Ho Hr] He. split; [|by apply resolvedIn_mono].
    apply ordered_snoc; [done|]. destruct He as [->|He]; [|by apply plain_guarded].
    split; [intros [?|?]; discriminate|done].
Qed.

Lemma plain_deadLetterStep l : Forall plain l -> Forall deadLetterStep l.
Proof. intros Hl. eapply Forall_impl; [exact Hl|]. intros e He. right. by right. Qed.

Lemma plain_dispatcherStep l : Forall plain l -> Forall dispatcherStep l.
Proof. intros Hl. eapply Forall_impl; [exact Hl|]. intros e He. by right. Qed.

Lemma reconcileDLQ_deadLetterStep b s :
    Forall deadLetterStep (calls (reconcileDLQ w b s)).
Proof.
    eapply Forall_impl; [apply reconcileDLQ_steps|]. intros e [->|He]; [by left|right; by right].
Qed.

Lemma reconcileDLQBinding_deadLetterStep b s :
    Forall deadLetterStep (calls (reconcileDLQBinding w b s)).
Proof.
    eapply Forall_impl; [apply reconcileDLQBinding_steps|].
    intros e [->|He]; [right; by left|right; by right].
Qed.

Lemma reconcileDeadLetter_ordered broker sink :
    holds (ordered w t) (sameTrigger t) (reconcileDeadLetter w r broker sink).
Proof.
    intros h s HG HI. unfold reconcileDeadLetter.
    wp_step. wp_step. cbv beta zeta. wp_step. wp_step. cbv beta.
    set (args := mkExchangeArgs broker (Some s) None "" true).
    assert (Hx : ordered w t (h ++ calls (reconcileExchange w args)))
      by (apply ordered_app_plain; [done|apply reconcileExchange_plain]).
    wp_step. wp_step.
    - wp_run_with ltac:(unfold onStatusOf). split; [done|by apply sameTrigger_withStatus].
    - wp_run_with ltac:(unfold onStatus).
      split; [ordered_plain|by apply sameTrigger_withStatus].
    - assert (Hd : orderedWithDLX w t (h ++ calls (reconcileExchange w args))).
      { split; [done|]. exists broker, s, obj, h, []. rewrite app_nil_r. done. }
      pose proof (orderedWithDLX_step) as Hstep.
      eapply wp_mono;
        [| |apply (holds_wp (orderedWithDLX w t) (sameTrigger t)); [|exact Hd|exact HI]].
      + intros a h' s' [[? ?] ?]. done.
      + intros a h' s' [[? ?] ?]. done.
      + holds_with ltac:(unfold onStatus);
          try (by apply sameTrigger_withStatus);
          try (by apply sameTrigger_setDeadLetterSinkURI);
          first [ apply reconcileDLQ_deadLetterStep | apply reconcileDLQBinding_deadLetterStep
                | apply plain_deadLetterStep;
                  first [ apply reconcileDLXDispatcherDeployment_plain | by repeat constructor ] ].
Qed.

Lemma reconcileDispatcherDeployment_dispatcherStep s sub delivery :
    Forall dispatcherStep (calls (reconcileDispatcherDeployment w r s sub delivery)).
Proof. apply reconcileDispatcherDeployment_steps. Qed.

Lemma reconcileSubscriber_ordered broker :
    holds (ordered w t) (sameTrigger t) (reconcileSubscriber w r broker).
Proof.
    intros h s HG HI. unfold reconcileSubscriber.
    wp_step. wp_step. cbv beta. wp_step. wp_step. cbv beta.
    assert (HI' : sameTrigger t (defaultSubscriberNamespace s)) by (by apply sameTrigger_default).
    set (s1 := defaultSubscriberNamespace s) in *.
    assert (Hx : ordered w t (h ++ calls (call (Resolve (Subscriber (triggerSpec s1)))
                                 (URIFromDestinationV1 w (Subscriber (triggerSpec s1))
                                    (triggerMeta s1)))))
      by (apply ordered_app_plain; [done|by repeat constructor]).
    rewrite answer_call.
    destruct (URIFromDestinationV1 w (Subscriber (triggerSpec s1)) (triggerMeta s1))
      as [uri|err] eqn:Huri.
    - assert (Hd : orderedResolved w t
                     (h ++ calls (call (Resolve (Subscriber (triggerSpec s1)))
                                    (Ok (A:=URL) uri)))).
      { split; [done|]. exists s1, uri. split; [done|]. split; [|done].
        apply elem_of_app. right. unfold calls, call. simpl. constructor. }
      pose proof (orderedResolved_step) as Hstep.
      eapply wp_mono;
        [| |apply (holds_wp (orderedResolved w t) (sameTrigger t)); [|exact Hd|exact HI']].
      + intros a h' s' [[? ?] ?]. done.
      + intros a h' s' [[? ?] ?]. done.
      + holds_with ltac:(unfold onStatus);
          try (by apply sameTrigger_withStatus);
          first [ apply reconcileDispatcherDeployment_dispatcherStep
                | apply plain_dispatcherStep; by repeat constructor ].
    - wp_run_with ltac:(unfold onStatus).
      split; [ordered_plain|]. by apply sameTrigger_withStatus.
Qed.

Lemma ReconcileKind_ordered :
    ordered w t (trace (ReconcileKind w r) t).
Proof.
    pose proof (ordered_step w t) as Hstep.
    apply (holds_run (ordered w t) (sameTrigger t));
      [|apply ordered_nil|apply sameTrigger_refl].
    unfold ReconcileKind.
    repeat (cbv beta zeta;
            lazymatch goal with
            | |- holds _ _ (reconcileDeadLetter _ _ _ _) => apply reconcileDeadLetter_ordered
            | |- holds _ _ (reconcileSubscriber _ _ _) => apply reconcileSubscriber_ordered
            | |- _ => first [ holds_step
                            | progress unfold onStatus, onStatusOf, reconcilePrimary,
                                checkDependencyAnnotation, propagateDependencyReadiness ]
            end);
      try (by apply sameTrigger_withStatus);
      first [ apply reconcileQueue_plain | apply reconcileBinding_plain | by repeat constructor ].
Qed.

End OrderedRun.

Section OrderingClaim.
Context `{NM : Naming} `{BD : Builders}.
Variable w : World.
Variable r : TriggerReconciler.Reconciler.
Import TriggerReconciler.

  (** C6: in a run of the Trigger pipeline, wherever [reconcileDLQ] or
      [reconcileDLQBinding] is called, the calls before it hold those of the
      [reconcileExchange] of the Trigger's dead-letter exchange, which
      returned an exchange whose conditions are ready; and wherever
      [reconcileDispatcherDeployment] is called, the calls before it hold
      the resolution of the Trigger's subscriber, which gave an address. *)
Theorem dead_letter_steps_follow_ready_exchange (t : Trigger)
      (pre post : list Event) (e : Event) :
    trace (ReconcileKind w r) t = pre ++ e :: post ->
    (e = Invoke "reconcileDLQ" \/ e = Invoke "reconcileDLQBinding" -> dlxReadyIn w t pre)
    /\ (e = Invoke "reconcileDispatcherDeployment" -> resolvedIn w t pre).
Proof. intros Htrace. by apply (ReconcileKind_ordered w r t pre e post). Qed.

End OrderingClaim.

(** ** A run over a store that holds what it wants writes nothing *)

Section SettledTrigger.
Context `{NM : Naming} `{BD : Builders}.
Variable w : World.
Variable r : TriggerReconciler.Reconciler.
Variable t : Trigger.
Variable broker : Broker.
Hypothesis Hset : triggerSettled w r broker t.
Import TriggerReconciler.

Lemma sameTrigger_delivery s :
    sameTrigger t s -> triggerDelivery (triggerSpec s) = triggerDelivery (triggerSpec t).
Proof.
    intros [_ [-> | ->]]; [done|].
    unfold defaultSubscriberNamespace. by destruct (destRef (Subscriber (triggerSpec t))).
Qed.

Lemma settled_queue s : sameTrigger t s -> Forall noWrite (calls (reconcileQueue w broker s)).
Proof.
    intros Hs. destruct (Hset s Hs) as ((current & Hget & Hd) & _).
    rewrite (trigger_reconcileQueue_found w broker s current Hget Hd). by repeat constructor.
Qed.

Lemma settled_binding s :
    sameTrigger t s -> Forall noWrite (calls (reconcileBinding w broker s)).
Proof.
    intros Hs. destruct (Hset s Hs) as (_ & (current & Hget) & _).
    unfold reconcileBinding, NewBinding, ensureBinding. io_unfold. rewrite Hget.
    destruct (derive _ _); by repeat constructor.
Qed.

Lemma settled_deployment d :
    deploymentSettled w d -> Forall noWrite (calls (reconcileDeployment w d)).
Proof.
    intros (current & Hget & Hd).
    rewrite (trigger_reconcileDeployment_found w d current Hget Hd). by repeat constructor.
Qed.

Lemma settled_dispatcher s sub :
    sameTrigger t s ->
    URIFromDestinationV1 w (Subscriber (triggerSpec s)) (triggerMeta s) = Ok sub ->
    Forall noWrite
      (calls (reconcileDispatcherDeployment w r s sub
                match triggerDelivery (triggerSpec s) with
                | Some d => Some d
                | None => brokerDelivery (brokerSpec broker)
                end)).
Proof.
    intros Hs Hsub. destruct (Hset s Hs) as (_ & _ & Hdisp & _).
    unfold reconcileDispatcherDeployment, getRabbitmqSecret.
    forall_calls; try done.
    apply settled_deployment. rewrite !io_bind_answer, !answer_call in *.
    by apply Hdisp.
Qed.

Lemma settled_exchange s sink :
    sameTrigger t s ->
    hasDeadLetterSink (triggerDelivery (triggerSpec s)) = Some sink ->
    Forall noWrite (calls (reconcileExchange w (mkExchangeArgs broker (Some s) None "" true))).
Proof.
    intros Hs Hsink. destruct (Hset s Hs) as (_ & _ & _ & Hdl).
    destruct (Hdl sink Hsink) as ((current & Hget & Hd) & _).
    rewrite (trigger_reconcileExchange_found w s (mkExchangeArgs broker (Some s) None "" true)
               current eq_refl Hget Hd).
    by repeat constructor.
Qed.

Lemma settled_DLQ s sink :
    sameTrigger t s ->
    hasDeadLetterSink (triggerDelivery (triggerSpec s)) = Some sink ->
    Forall noWrite (calls (reconcileDLQ w broker s)).
Proof.
    intros Hs Hsink. destruct (Hset s Hs) as (_ & _ & _ & Hdl).
    destruct (Hdl sink Hsink) as (_ & (current & Hget & Hd) & _).
    rewrite (trigger_reconcileDLQ_found w broker s current Hget Hd). by repeat constructor.
Qed.

Lemma settled_DLQBinding s sink :
    sameTrigger t s ->
    hasDeadLetterSink (triggerDelivery (triggerSpec s)) = Some sink ->
    Forall noWrite (calls (reconcileDLQBinding w broker s)).
Proof.
    intros Hs Hsink. destruct (Hset s Hs) as (_ & _ & _ & Hdl).
    destruct (Hdl sink Hsink) as (_ & _ & (current & Hget) & _).
    unfold reconcileDLQBinding, NewTriggerDLQBinding, ensureBinding. io_unfold. rewrite Hget.
    destruct (derive _ _); by repeat constructor.
Qed.

Lemma settled_DLXDispatcher s sink sub :
    sameTrigger t s ->
    hasDeadLetterSink (triggerDelivery (triggerSpec s)) = Some sink ->
    URIFromDestinationV1 w sink (triggerMeta s) = Ok sub ->
    Forall noWrite (calls (reconcileDLXDispatcherDeployment w r s sub)).
Proof.
    intros Hs Hsink Hsub. destruct (Hset s Hs) as (_ & _ & _ & Hdl).
    destruct (Hdl sink Hsink) as (_ & _ & _ & Hdisp).
    unfold reconcileDLXDispatcherDeployment, getRabbitmqSecret.
    forall_calls; try done.
    apply settled_deployment. rewrite !io_bind_answer, !answer_call in *.
    by apply (Hdisp sub).
Qed.

Ltac settled_leaves :=
    rewrite ?Forall_app; repeat split;
    first [ assumption
          | by apply sameTrigger_withStatus
          | by apply sameTrigger_withStatus, sameTrigger_withStatus
          | by repeat constructor
          | idtac ].

Lemma reconcileDeadLetter_noWrite sink :
    hasDeadLetterSink (triggerDelivery (triggerSpec t)) = Some sink ->
    holds (Forall noWrite) (sameTrigger t) (reconcileDeadLetter w r broker sink).
Proof.
    intros Hsink h s HG HI.
    assert (Hsinks : forall s', sameTrigger t s' ->
                       hasDeadLetterSink (triggerDelivery (triggerSpec s')) = Some sink).
    { intros s' Hs'. by rewrite (sameTrigger_delivery s' Hs'). }
    pose proof (settled_exchange s sink HI (Hsinks s HI)) as Hx.
    pose proof (settled_DLQ s sink HI (Hsinks s HI)) as Hq.
    pose proof (settled_DLQBinding s sink HI (Hsinks s HI)) as Hb.
    unfold reconcileDeadLetter.
    wp_run_with ltac:(unfold onStatus, onStatusOf); settled_leaves.
    all: try (rewrite answer_call in *).
    all: try (apply (settled_DLXDispatcher _ sink);
              [by repeat apply sameTrigger_withStatus|by apply Hsinks|done]).
Qed.

Lemma reconcileSubscriber_noWrite :
    holds (Forall noWrite) (sameTrigger t) (reconcileSubscriber w r broker).
Proof.
    intros h s HG HI.
    assert (HI' : sameTrigger t (defaultSubscriberNamespace s)) by (by apply sameTrigger_default).
    unfold reconcileSubscriber.
    wp_run_with ltac:(unfold onStatus, onStatusOf); settled_leaves.
    all: try (rewrite answer_call in *).
    all: try (apply (settled_dispatcher (withStatus _ _));
              [by repeat apply sameTrigger_withStatus|done]).
Qed.

  (** The run from the class check on, under the Broker it found. *)
Lemma ReconcileKind_settled :
    brokerLister w (Namespace (triggerMeta t)) (specBroker (triggerSpec t)) = Ok broker ->
    Forall noWrite (trace (ReconcileKind w r) t).
Proof.
    intros Hb.
    pose proof (Forall_step noWrite) as Hstep.
    apply (wp_run (ReconcileKind w r) (fun _ h s => Forall noWrite h /\ sameTrigger t s)).
    trigger_find_broker Hb. wp_step. cbv beta.
    apply holds_wp.
    - repeat (cbv beta zeta;
              lazymatch goal with
              | |- holds _ _ (reconcileDeadLetter _ _ _ _) => apply reconcileDeadLetter_noWrite
              | |- holds _ _ (reconcileSubscriber _ _ _) => apply reconcileSubscriber_noWrite
              | |- _ => first [ holds_step
                              | progress unfold onStatus, onStatusOf, reconcilePrimary,
                                  checkDependencyAnnotation, propagateDependencyReadiness ]
              end);
        try (by apply sameTrigger_withStatus);
        try (by apply settled_queue);
        try (by apply settled_binding);
        try (by repeat constructor).
      match goal with
      | Hs : sameTrigger t ?s, Hd : hasDeadLetterSink (triggerDelivery (triggerSpec ?s)) = _
        |- _ => by rewrite <- (sameTrigger_delivery s Hs)
      end.
    - rewrite !Forall_app. repeat split; by repeat constructor.
    - apply sameTrigger_withStatus, sameTrigger_refl.
Qed.

End SettledTrigger.

Section SettledBroker.
Context `{NM : Naming} `{BD : Builders}.
Variable w : World.
Variable r : BrokerCommon.Reconciler.
Variable b : Broker.
Import BrokerCommon.

Lemma settled_secret s : secretSettled w s -> Forall noWrite (calls (reconcileSecret w s)).
Proof.
    intros (current & Hget & Hd). unfold reconcileSecret. io_unfold. rewrite Hget, Hd.
    by repeat constructor.
Qed.

Lemma settled_broker_deployment d :
    deploymentSettled w d -> Forall noWrite (calls (reconcileDeployment w d)).
Proof.
    intros (current & Hget & Hd).
    rewrite (broker_reconcileDeployment_found w d current Hget Hd). by repeat constructor.
Qed.

Lemma settled_service svc :
    serviceSettled w svc -> Forall noWrite (calls (reconcileService w svc)).
Proof.
    intros (current & Hget & Hd). unfold reconcileService. io_unfold. rewrite Hget.
    io_unfold. unfold withServiceSpec. cbn [serviceSpec]. rewrite Hd.
    by repeat constructor.
Qed.

Section Ingress.
Variable s : Secret.
Hypothesis Hset : ingressSettled w r b s.

Lemma settled_ingressDeployment b' :
      sameBroker b b' -> Forall noWrite (calls (reconcileIngressDeployment w r b')).
Proof.
      intros Hb. destruct (Hset b' Hb) as (_ & Hd & _).
      unfold reconcileIngressDeployment. forall_calls; try done.
      by apply settled_broker_deployment.
Qed.

Lemma settled_ingressService b' :
      sameBroker b b' -> Forall noWrite (calls (reconcileIngressService w b')).
Proof.
      intros Hb. destruct (Hset b' Hb) as (_ & _ & Hs & _).
      unfold reconcileIngressService. forall_calls; try done.
      by apply settled_service.
Qed.

Lemma reconcileDeadLetterSink_noWrite :
      holds (Forall noWrite) (sameBroker b) (reconcileDeadLetterSink w r).
Proof.
      intros h b' HG HI. destruct (Hset b' HI) as (_ & _ & _ & Hdisp).
      unfold reconcileDeadLetterSink.
      wp_run_with ltac:(unfold onStatus, onStatusOf);
        rewrite ?Forall_app; repeat split;
        try assumption; try (by repeat apply sameBroker_withStatus);
        try (by repeat constructor).
      all: rewrite ?answer_call in *.
      all: try apply HI.
      all: unfold reconcileDLXDispatcherDeployment.
      all: try (forall_calls; try done; by apply settled_broker_deployment, Hdisp).
      all: destruct Hdisp as (err & Hget & Hnf); io_unfold; rewrite Hget, Hnf;
        by repeat constructor.
Qed.

Lemma reconcileCommonIngressResources_noWrite :
      holds (Forall noWrite) (sameBroker b) (reconcileCommonIngressResources w r s).
Proof.
      pose proof (Forall_step noWrite) as Hstep.
      assert (Hs : secretSettled w s) by (by destruct (Hset b (conj eq_refl eq_refl))).
      unfold reconcileCommonIngressResources.
      repeat (cbv beta zeta;
              lazymatch goal with
              | |- holds _ _ (reconcileDeadLetterSink _ _) =>
                  apply reconcileDeadLetterSink_noWrite
              | |- _ => first [ holds_step | progress unfold onStatus, onStatusOf ]
              end);
        try (by apply sameBroker_withStatus);
        try (by apply settled_secret);
        try (by apply settled_ingressDeployment);
        try (by apply settled_ingressService);
        try (by repeat constructor).
Qed.

End Ingress.

Lemma settled_broker_exchange args b' :
    sameBroker b b' ->
    exchangeSettled w (Namespace (brokerMeta b')) (BrokerExchangeName b' (DLX args))
      (NewExchange (BrokerReconciler.pointingTo args b')) ->
    Forall noWrite (calls (BrokerReconciler.reconcileExchange w (BrokerReconciler.pointingTo args b'))).
Proof.
    intros Hb (current & Hget & Hd).
    rewrite (broker_reconcileExchange_found w (BrokerReconciler.pointingTo args b') current Hget Hd).
    by repeat constructor.
Qed.

Lemma settled_broker_queue b' :
    queueSettled w (Namespace (brokerMeta b')) (CreateBrokerDeadLetterQueueName b')
      (NewQueue b' None) ->
    Forall noWrite (calls (BrokerReconciler.reconcileQueue w b')).
Proof.
    intros (current & Hget & Hd).
    rewrite (broker_reconcileQueue_found w b' current Hget Hd). by repeat constructor.
Qed.

Lemma settled_broker_binding b' :
    bindingSettled w (Namespace (brokerMeta b')) (CreateBrokerDeadLetterQueueName b')
      (NewBinding b' None) ->
    Forall noWrite (calls (BrokerReconciler.reconcileBinding w b')).
Proof.
    intros (current & Hget & Hd). unfold BrokerReconciler.reconcileBinding.
    destruct (NewBinding b' None) as [want|err] eqn:Hwant; [|by repeat constructor].
    io_unfold. rewrite Hget, (Hd want eq_refl). by repeat constructor.
Qed.

  (** A run of the Broker pipeline on the operator. *)
Lemma broker_ReconcileKind_settled args0 :
    answer (getExchangeArgs w b) = Ok args0 ->
    brokerSettled w r b args0 ->
    Forall noWrite (trace (BrokerReconciler.ReconcileKind w r) b).
Proof.
    intros Hargs Hset.
    pose proof (Forall_step noWrite) as Hstep.
    apply (wp_run (BrokerReconciler.ReconcileKind w r)
             (fun _ h s => Forall noWrite h /\ sameBroker b s)).
    unfold BrokerReconciler.ReconcileKind.
    wp_step. wp_step. wp_step. wp_step. wp_step. wp_step.
    rewrite Hargs. wp_step. wp_step. wp_step. wp_step.
    apply holds_wp.
    - unfold BrokerReconciler.reconcileUsingCRD.
      repeat (cbv beta zeta;
              lazymatch goal with
              | |- holds _ _ (reconcileCommonIngressResources _ _ _) =>
                  apply reconcileCommonIngressResources_noWrite
              | |- _ => first [ holds_step | progress unfold onStatus, onStatusOf ]
              end);
        try (by apply sameBroker_withStatus);
        try (by repeat constructor);
        try match goal with
            | Hs : sameBroker b ?s |- _ =>
                destruct (Hset s Hs) as (Hx & Hdlx & Hq & Hbi & Hin);
                first [ by apply settled_broker_exchange
                      | by apply (settled_broker_exchange (BrokerReconciler.withDLX _ true))
                      | by apply settled_broker_queue
                      | by apply settled_broker_binding
                      | exact Hin ]
            end.
    - rewrite !Forall_app. repeat split; try (by repeat constructor).
      unfold getExchangeArgs. forall_calls; done.
    - done.
Qed.

  (** A run of the standalone Broker pipeline: its declarations go to the
      driver, none of its calls writes to the store. *)
Lemma standalone_ReconcileKind_settled args0 :
    answer (getExchangeArgs w b) = Ok args0 ->
    standaloneSettled w r b args0 ->
    Forall noWrite (trace (BrokerStandalone.ReconcileKind w r) b).
Proof.
    intros Hargs Hset.
    pose proof (Forall_step noWrite) as Hstep.
    apply (wp_run (BrokerStandalone.ReconcileKind w r)
             (fun _ h s => Forall noWrite h /\ sameBroker b s)).
    unfold BrokerStandalone.ReconcileKind.
    wp_step. wp_step. wp_step. wp_step. wp_step. wp_step.
    rewrite Hargs. wp_step. wp_step. wp_step. wp_step.
    assert (Hh : Forall noWrite ((([] ++ calls (entering "ReconcileKind")) ++
                                  calls (log "info" "Reconciling")) ++
                                 calls (getExchangeArgs w b))).
    { rewrite !Forall_app. repeat split; try (by repeat constructor).
      unfold getExchangeArgs. forall_calls; done. }
    revert Hh. generalize ((([] ++ calls (entering "ReconcileKind")) ++
                            calls (log "info" "Reconciling")) ++
                           calls (getExchangeArgs w b)).
    intros h Hh.
    destruct (isUsingOperator b); [by wp_step|].
    unfold BrokerStandalone.reconcileUsingLibraries.
    wp_step. wp_step. wp_step. wp_step. rewrite answer_call.
    destruct (driverDeclareExchange w (BrokerReconciler.pointingTo args0 b)) as [s|err] eqn:Hdecl.
    - wp_step.
      pose proof (Hset b s (conj eq_refl eq_refl) Hdecl) as Hin.
      apply holds_wp.
      + repeat (cbv beta zeta;
                lazymatch goal with
                | |- holds _ _ (reconcileCommonIngressResources _ _ _) =>
                    apply (reconcileCommonIngressResources_noWrite s Hin)
                | |- _ => first [ holds_step | progress unfold onStatus, onStatusOf ]
                end);
          try (by apply sameBroker_withStatus);
          try (by repeat constructor).
        unfold BrokerStandalone.reconcileDLQBinding, getExchangeArgs. forall_calls; done.
      + rewrite !Forall_app. repeat split; try done; by repeat constructor.
      + done.
    - wp_run_with ltac:(unfold onStatus, onStatusOf);
        rewrite ?Forall_app; repeat split; try done; by repeat constructor.
Qed.

End SettledBroker.

Section UpsertClaim.
Context `{NM : Naming} `{BD : Builders}.
Variable w : World.

  (** C3: an upsert that finds its object with a spec that partial-matches
      the desired one reads it through the lister, returns it as observed
      and makes no create, update or delete call: the Trigger's exchange,
      queue, dead-letter queue and deployment upserts, and the Broker's
      exchange, queue and deployment upserts (which returns no object, only
      nil); a binding upsert of the Trigger that finds its binding only
      reads it. A run of the Trigger pipeline writes only where one of its
      seven upserts writes. Consequently a run over a store that already
      holds what the run upserts makes no create, update or delete call:
      a run of the Trigger pipeline when the queue, the binding and the
      dispatcher of the Trigger and, with a dead-letter sink, its
      dead-letter exchange, queue, binding and dispatcher are found and
      match ([triggerSettled]); a run of the Broker pipeline on the
      operator when the two exchanges, the queue, the binding, the Secret,
      the ingress Deployment and Service and the dead-letter dispatcher are
      found and match ([brokerSettled]); and a run of the standalone Broker
      pipeline, which declares its exchanges, queue and binding through the
      driver every time, when the Secret, the ingress Deployment and Service
      and the dead-letter dispatcher are found and match
      ([standaloneSettled]). *)
Theorem upsert_found_matching_is_no_write :
    (forall t args current,
        argsTrigger args = Some t ->
        get (exchanges w) (Namespace (triggerMeta t)) (TriggerDLXExchangeName t) = Ok current ->
        derive (exchangeSpec (NewExchange args)) (exchangeSpec current) = true ->
        TriggerReconciler.reconcileExchange w args =
          ([Invoke "reconcileExchange";
            ListerGet KExchange (Namespace (triggerMeta t)) (TriggerDLXExchangeName t)],
           Ok current))
    /\ (forall b t current,
        get (queues w) (Namespace (brokerMeta b)) (CreateTriggerQueueName t) = Ok current ->
        derive (queueSpec (NewQueue b (Some t))) (queueSpec current) = true ->
        TriggerReconciler.reconcileQueue w b t =
          ([Invoke "reconcileQueue";
            ListerGet KQueue (Namespace (brokerMeta b)) (CreateTriggerQueueName t)],
           Ok current))
    /\ (forall b t current,
        get (queues w) (Namespace (brokerMeta b)) (CreateTriggerDeadLetterQueueName t)
          = Ok current ->
        derive (queueSpec (NewTriggerDLQ b t)) (queueSpec current) = true ->
        TriggerReconciler.reconcileDLQ w b t =
          ([Invoke "reconcileDLQ";
            ListerGet KQueue (Namespace (brokerMeta b)) (CreateTriggerDeadLetterQueueName t)],
           Ok current))
    /\ (forall d current,
        get (deployments w) (Namespace (deploymentMeta d)) (Name (deploymentMeta d))
          = Ok current ->
        derive (deploymentSpec d) (deploymentSpec current) = true ->
        TriggerReconciler.reconcileDeployment w d =
          ([Invoke "reconcileDeployment";
            ListerGet KDeployment (Namespace (deploymentMeta d)) (Name (deploymentMeta d))],
           Ok current))
    /\ (forall args current,
        get (exchanges w) (Namespace (brokerMeta (argsBroker args)))
          (BrokerExchangeName (argsBroker args) (DLX args)) = Ok current ->
        derive (exchangeSpec (NewExchange args)) (exchangeSpec current) = true ->
        BrokerReconciler.reconcileExchange w args =
          ([Invoke "reconcileExchange";
            ListerGet KExchange (Namespace (brokerMeta (argsBroker args)))
              (BrokerExchangeName (argsBroker args) (DLX args))],
           Ok current))
    /\ (forall b current,
        get (queues w) (Namespace (brokerMeta b)) (CreateBrokerDeadLetterQueueName b)
          = Ok current ->
        derive (queueSpec (NewQueue b None)) (queueSpec current) = true ->
        BrokerReconciler.reconcileQueue w b =
          ([Invoke "reconcileQueue";
            ListerGet KQueue (Namespace (brokerMeta b)) (CreateBrokerDeadLetterQueueName b)],
           Ok current))
    /\ (forall d current,
        get (deployments w) (Namespace (deploymentMeta d)) (Name (deploymentMeta d))
          = Ok current ->
        derive (deploymentSpec d) (deploymentSpec current) = true ->
        BrokerCommon.reconcileDeployment w d =
          ([Invoke "reconcileDeployment";
            ListerGet KDeployment (Namespace (deploymentMeta d)) (Name (deploymentMeta d))],
           None))
    /\ (forall ns name msg want current,
        get (bindings w) ns name = Ok current ->
        calls (TriggerReconciler.ensureBinding w ns name msg want) = [ListerGet KBinding ns name])
    /\ (forall r t,
        match brokerLister w (Namespace (triggerMeta t)) (specBroker (triggerSpec t)) with
        | Ok broker =>
            writesFromUpserts w r broker t (trace (TriggerReconciler.ReconcileKind w r) t)
        | Err _ => Forall noWrite (trace (TriggerReconciler.ReconcileKind w r) t)
        end)
    /\ (forall r t broker,
        brokerLister w (Namespace (triggerMeta t)) (specBroker (triggerSpec t)) = Ok broker ->
        triggerSettled w r broker t ->
        Forall noWrite (trace (TriggerReconciler.ReconcileKind w r) t))
    /\ (forall r b args,
        answer (BrokerCommon.getExchangeArgs w b) = Ok args ->
        brokerSettled w r b args ->
        Forall noWrite (trace (BrokerReconciler.ReconcileKind w r) b))
    /\ (forall r b args,
        answer (BrokerCommon.getExchangeArgs w b) = Ok args ->
        standaloneSettled w r b args ->
        Forall noWrite (trace (BrokerStandalone.ReconcileKind w r) b)).
Proof.
    repeat split.
    - apply trigger_reconcileExchange_found.
    - apply trigger_reconcileQueue_found.
    - apply trigger_reconcileDLQ_found.
    - intros d current Hget Hd. apply trigger_reconcileDeployment_found; [done|].
      by apply derive_spec_template.
    - apply broker_reconcileExchange_found.
    - apply broker_reconcileQueue_found.
    - intros d current Hget Hd. apply (broker_reconcileDeployment_found w d current); [done|].
      by apply derive_spec_template.
    - intros ns name msg want current Hget.
      by destruct (ensureBinding_found w ns name msg want current Hget).
    - apply ReconcileKind_writes.
    - intros r t broker Hb Hset. by apply (ReconcileKind_settled w r t broker).
    - intros r b args Hargs Hset. by apply (broker_ReconcileKind_settled w r b args).
    - intros r b args Hargs Hset. by apply (standalone_ReconcileKind_settled w r b args).
Qed.

End UpsertClaim.

(** ** The gates at the head of a Trigger run *)

Lemma MarkBrokerFailed_condition reason message ts :
  TS.GetCondition (TS.MarkBrokerFailed reason message ts) TriggerConditionBroker
  = Some (mkKCondition ConditionFalse ConditionSeverityError reason message).
Proof.
  unfold TS.GetCondition, TS.MarkBrokerFailed, TS.manage, TS.withConditions,
    Manager.GetCondition.
  cbn [triggerConditions]. by rewrite MarkFalse_lookup.
Qed.

Section TriggerGates.
Context `{NM : Naming} `{BD : Builders}.
Variable w : World.
Variable r : TriggerReconciler.Reconciler.
Import TriggerReconciler.

  (** A Trigger whose Broker the lister does not find: the run stops after
      the read and returns nil (the Trigger is requeued when the Broker
      appears), with the Broker condition failed for BrokerDoesNotExist and
      the observed generation as it was. *)
Theorem trigger_of_missing_broker_returns_nil (t : Trigger) (err : error) :
    brokerLister w (Namespace (triggerMeta t)) (specBroker (triggerSpec t)) = Err err ->
    IsNotFound err = true ->
    returned (ReconcileKind w r) t = None
    /\ trace (ReconcileKind w r) t =
         [Invoke "ReconcileKind"; Log "debug" "Reconciling";
          ListerGet KBroker (Namespace (triggerMeta t)) (specBroker (triggerSpec t))]
    /\ TS.GetCondition (triggerStatus (final (ReconcileKind w r) t)) TriggerConditionBroker
       = Some (mkKCondition ConditionFalse ConditionSeverityError "BrokerDoesNotExist"
                 (Sprintf "Broker %q does not exist" [fmtQ (specBroker (triggerSpec t))]))
    /\ triggerObservedGeneration (triggerStatus (final (ReconcileKind w r) t))
       = triggerObservedGeneration (triggerStatus t).
Proof.
    intros Hb Hnf.
    apply (wp_run (ReconcileKind w r)
             (fun ret h s =>
                ret = None
                /\ h = [Invoke "ReconcileKind"; Log "debug" "Reconciling";
                        ListerGet KBroker (Namespace (triggerMeta t))
                          (specBroker (triggerSpec t))]
                /\ TS.GetCondition (triggerStatus s) TriggerConditionBroker
                   = Some (mkKCondition ConditionFalse ConditionSeverityError
                             "BrokerDoesNotExist"
                             (Sprintf "Broker %q does not exist"
                                [fmtQ (specBroker (triggerSpec t))]))
                /\ triggerObservedGeneration (triggerStatus s)
                   = triggerObservedGeneration (triggerStatus t))).
    trigger_find_broker Hb.
    wp_known_with ltac:(unfold onStatusOf, withStatus;
                        cbn [triggerMeta triggerSpec triggerStatus]).
    split; [done|]. split; [done|]. split; [apply MarkBrokerFailed_condition|done].
Qed.

  (** A Trigger whose Broker cannot be read for another reason: the run
      stops after the read and returns the error, wrapped, with the Broker
      condition failed for FailedToGetBroker. *)
Theorem trigger_broker_read_error_is_returned (t : Trigger) (err : error) :
    brokerLister w (Namespace (triggerMeta t)) (specBroker (triggerSpec t)) = Err err ->
    IsNotFound err = false ->
    returned (ReconcileKind w r) t = Some (Errorf "retrieving broker: " err)
    /\ trace (ReconcileKind w r) t =
         [Invoke "ReconcileKind"; Log "debug" "Reconciling";
          ListerGet KBroker (Namespace (triggerMeta t)) (specBroker (triggerSpec t))]
    /\ TS.GetCondition (triggerStatus (final (ReconcileKind w r) t)) TriggerConditionBroker
       = Some (mkKCondition ConditionFalse ConditionSeverityError "FailedToGetBroker"
                 (Sprintf "Failed to get broker %q : %s"
                    [fmtQ (specBroker (triggerSpec t)); errMsg err])).
Proof.
    intros Hb Hnf.
    apply (wp_run (ReconcileKind w r)
             (fun ret h s =>
                ret = Some (Errorf "retrieving broker: " err)
                /\ h = [Invoke "ReconcileKind"; Log "debug" "Reconciling";
                        ListerGet KBroker (Namespace (triggerMeta t))
                          (specBroker (triggerSpec t))]
                /\ TS.GetCondition (triggerStatus s) TriggerConditionBroker
                   = Some (mkKCondition ConditionFalse ConditionSeverityError
                             "FailedToGetBroker"
                             (Sprintf "Failed to get broker %q : %s"
                                [fmtQ (specBroker (triggerSpec t)); errMsg err])))).
    trigger_find_broker Hb.
    wp_known_with ltac:(unfold onStatusOf, withStatus;
                        cbn [triggerMeta triggerSpec triggerStatus]).
    split; [done|]. split; [done|]. apply MarkBrokerFailed_condition.
Qed.

  (** A Trigger whose Broker is of this class but not Ready: the run
      records the generation it has seen, stops after the log line and
      returns nil, without reading the dependency or any topology object. *)
Theorem trigger_of_unready_broker_returns_nil (t : Trigger) (broker : Broker) :
    brokerLister w (Namespace (triggerMeta t)) (specBroker (triggerSpec t)) = Ok broker ->
    mapIndex (Annotations (brokerMeta broker)) BrokerClassKey = brokerClass r ->
    brokerIsReady broker = false ->
    returned (ReconcileKind w r) t = None
    /\ trace (ReconcileKind w r) t =
         [Invoke "ReconcileKind"; Log "debug" "Reconciling";
          ListerGet KBroker (Namespace (triggerMeta t)) (specBroker (triggerSpec t));
          Log "error" "Broker is not ready"]
    /\ triggerObservedGeneration (triggerStatus (final (ReconcileKind w r) t))
       = Generation (triggerMeta t).
Proof.
    intros Hb Hclass Hready.
    assert (Hc : negb (bool_decide (mapIndex (Annotations (brokerMeta broker)) BrokerClassKey
                                    = brokerClass r)) = false)
      by (by rewrite bool_decide_eq_true_2).
    assert (Hr : negb (brokerIsReady broker) = true) by (by rewrite Hready).
    apply (wp_run (ReconcileKind w r)
             (fun ret h s =>
                ret = None
                /\ h = [Invoke "ReconcileKind"; Log "debug" "Reconciling";
                        ListerGet KBroker (Namespace (triggerMeta t))
                          (specBroker (triggerSpec t));
                        Log "error" "Broker is not ready"]
                /\ triggerObservedGeneration (triggerStatus s) = Generation (triggerMeta t))).
    trigger_find_broker Hb.
    wp_known_with ltac:(unfold onStatus, setObservedGeneration, withStatus;
                        cbn [triggerMeta triggerSpec triggerStatus]).
    split; [done|]. split; [done|].
    by destruct (brokerGetTopLevelCondition (brokerStatus broker)) as [[st ? ? ?]|];
      unfold TS.PropagateBrokerCondition, TS.MarkBrokerNotConfigured, TS.MarkBrokerUnknown,
        TS.MarkBrokerFailed, TS.manage, TS.withConditions;
      repeat case_bool_decide.
Qed.

End TriggerGates.

(** ** What a run leaves alone *)

Section TriggerFrame.
Context `{NM : Naming} `{BD : Builders}.
Variable w : World.
Variable r : TriggerReconciler.Reconciler.
Import TriggerReconciler.

Lemma Forall_any (l : list Event) : Forall (fun _ => True) l.
Proof. by apply Forall_forall. Qed.

Lemma ReconcileKind_sameTrigger t : sameTrigger t (final (ReconcileKind w r) t).
Proof.
    pose proof (Forall_step (fun _ : Event => True)) as Hstep.
    apply (holds_run (Forall (fun _ => True)) (sameTrigger t));
      [|constructor|apply sameTrigger_refl].
    unfold ReconcileKind.
    holds_with ltac:(unfold onStatus, onStatusOf, reconcileDeadLetter, reconcilePrimary,
                       reconcileSubscriber, checkDependencyAnnotation,
                       propagateDependencyReadiness);
      try (by apply sameTrigger_withStatus);
      try (by apply sameTrigger_default);
      try apply Forall_any.
Qed.

  (** A run of the Trigger pipeline writes the status only: the metadata of
      the Trigger is as it was, and so is its spec, but for the namespace of
      the subscriber reference, which the run sets to the namespace of the
      Trigger. *)
Theorem trigger_run_keeps_metadata_and_spec (t : Trigger) :
    triggerMeta (final (ReconcileKind w r) t) = triggerMeta t
    /\ (triggerSpec (final (ReconcileKind w r) t) = triggerSpec t
        \/ triggerSpec (final (ReconcileKind w r) t)
           = triggerSpec (defaultSubscriberNamespace t))
    /\ specBroker (triggerSpec (final (ReconcileKind w r) t)) = specBroker (triggerSpec t)
    /\ filterAttributes (triggerSpec (final (ReconcileKind w r) t))
       = filterAttributes (triggerSpec t)
    /\ triggerDelivery (triggerSpec (final (ReconcileKind w r) t))
       = triggerDelivery (triggerSpec t)
    /\ destURI (Subscriber (triggerSpec (final (ReconcileKind w r) t)))
       = destURI (Subscriber (triggerSpec t)).
Proof.
    destruct (ReconcileKind_sameTrigger t) as [Hm Hs]. split; [done|]. split; [done|].
    destruct Hs as [->| ->]; [done|].
    unfold defaultSubscriberNamespace. by destruct (destRef (Subscriber (triggerSpec t))).
Qed.

  (** The calls a Trigger run makes on the API server: it creates
      exchanges, queues, bindings and deployments, updates exchanges, queues
      and deployments, reads a Secret, and nothing else; it never updates a
      binding, never deletes, and never calls the AMQP driver. *)
Theorem trigger_run_client_calls (t : Trigger) :
    Forall (fun e =>
              match e with
              | ClientCreate k _ _ => k ∈ [KExchange; KQueue; KBinding; KDeployment]
              | ClientUpdate k _ _ => k ∈ [KExchange; KQueue; KDeployment]
              | ClientGet k _ _ => k = KSecret
              | ClientDelete _ _ _ | GetExchangeArgs _ _ | DeclareExchange _
              | DeleteExchange _ | DeclareQueue _ | DeleteQueue _ | MakeDLQBinding _ => False
              | _ => True
              end)
      (trace (ReconcileKind w r) t).
Proof.
    eapply Forall_impl; [apply ReconcileKind_calls|].
    intros e He. destruct e; simpl in He; try done;
      by apply bool_decide_unpack in He.
Qed.

Lemma seenGeneration_manage t s f :
    seenGeneration t s -> seenGeneration t (withStatus s (TS.manage f (triggerStatus s))).
Proof. by intros [? ?]. Qed.

Lemma seenGeneration_broker t s bc :
    seenGeneration t s ->
    seenGeneration t (withStatus s (TS.PropagateBrokerCondition bc (triggerStatus s))).
Proof.
    intros Hs. unfold TS.PropagateBrokerCondition.
    destruct bc as [bc|]; repeat case_bool_decide; by apply seenGeneration_manage.
Qed.

Lemma seenGeneration_dependency t s ks :
    seenGeneration t s ->
    seenGeneration t (withStatus s (TS.PropagateDependencyStatus ks (triggerStatus s))).
Proof.
    intros Hs. unfold TS.PropagateDependencyStatus.
    destruct (sourceConditions ks !! ConditionReady); repeat case_bool_decide;
      by apply seenGeneration_manage.
Qed.

Lemma seenGeneration_subscription t s sc :
    seenGeneration t s ->
    seenGeneration t (withStatus s (TS.PropagateSubscriptionCondition sc (triggerStatus s))).
Proof.
    intros Hs. unfold TS.PropagateSubscriptionCondition.
    destruct sc as [sc|]; repeat case_bool_decide; by apply seenGeneration_manage.
Qed.

Lemma seenGeneration_default t s :
    seenGeneration t s -> seenGeneration t (defaultSubscriberNamespace s).
Proof.
    intros [? ?]. unfold defaultSubscriberNamespace.
    by destruct (destRef (Subscriber (triggerSpec s))).
Qed.

  (** Once the Broker of a Trigger is found and is of this reconciler's
      class, the run ends, however it ends, with the observed generation of
      the status equal to the generation of the Trigger. *)
Theorem trigger_run_records_generation (t : Trigger) (broker : Broker) :
    brokerLister w (Namespace (triggerMeta t)) (specBroker (triggerSpec t)) = Ok broker ->
    mapIndex (Annotations (brokerMeta broker)) BrokerClassKey = brokerClass r ->
    triggerObservedGeneration (triggerStatus (final (ReconcileKind w r) t))
    = Generation (triggerMeta t).
Proof.
    intros Hb Hclass.
    assert (Hc : negb (bool_decide (mapIndex (Annotations (brokerMeta broker)) BrokerClassKey
                                    = brokerClass r)) = false)
      by (by rewrite bool_decide_eq_true_2).
    pose proof (Forall_step (fun _ : Event => True)) as Hstep.
    apply (wp_run (ReconcileKind w r)
             (fun _ h s => Forall (fun _ => True) h /\ seenGeneration t s)).
    trigger_find_broker Hb.
    wp_known. cbv beta. wp_known. wp_known. wp_known. cbv beta. wp_known. wp_known. cbv beta.
    apply holds_wp.
    - holds_with ltac:(unfold onStatus, onStatusOf, reconcileDeadLetter, reconcilePrimary,
                         reconcileSubscriber, checkDependencyAnnotation,
                         propagateDependencyReadiness);
        try apply Forall_any;
        first [ by apply seenGeneration_broker | by apply seenGeneration_dependency
              | by apply seenGeneration_subscription | by apply seenGeneration_default
              | by apply seenGeneration_manage | by destruct H ].
    - apply Forall_any.
    - done.
Qed.

End TriggerFrame.

Section BrokerFrame.
Context `{NM : Naming} `{BD : Builders}.
Variable w : World.
Variable r : BrokerCommon.Reconciler.
Import BrokerCommon.

  (** A run of either Broker pipeline writes the status only: the metadata
      and the spec of the Broker are as they were. *)
Theorem broker_run_keeps_metadata_and_spec (b : Broker) :
    (brokerMeta (final (BrokerReconciler.ReconcileKind w r) b) = brokerMeta b
     /\ brokerSpec (final (BrokerReconciler.ReconcileKind w r) b) = brokerSpec b)
    /\ (brokerMeta (final (BrokerStandalone.ReconcileKind w r) b) = brokerMeta b
        /\ brokerSpec (final (BrokerStandalone.ReconcileKind w r) b) = brokerSpec b).
Proof.
    pose proof (Forall_step (fun _ : Event => True)) as Hstep.
    split.
    - apply (holds_run (Forall (fun _ => True)) (sameBroker b)); [|constructor|done].
      unfold BrokerReconciler.ReconcileKind, BrokerReconciler.reconcileUsingCRD,
        reconcileCommonIngressResources, reconcileDeadLetterSink.
      holds_with ltac:(unfold onStatus, onStatusOf);
        try (by apply sameBroker_withStatus); try apply Forall_any.
    - apply (holds_run (Forall (fun _ => True)) (sameBroker b)); [|constructor|done].
      unfold BrokerStandalone.ReconcileKind, BrokerStandalone.reconcileUsingLibraries,
        reconcileCommonIngressResources, reconcileDeadLetterSink.
      holds_with ltac:(unfold onStatus, onStatusOf);
        try (by apply sameBroker_withStatus); try apply Forall_any.
Qed.

End BrokerFrame.

(** ** The other paths of the upserts of the Trigger reconciler *)

Section TriggerUpsertPaths.
Context `{NM : Naming} `{BD : Builders}.
Variable w : World.
Variable r : TriggerReconciler.Reconciler.
Import TriggerReconciler.

Ltac upsert_eval :=
    unfold reconcileExchange, reconcileQueue, reconcileDLQ, upsertQueue, reconcileBinding,
      reconcileDLQBinding, ensureBinding, reconcileDeployment, NewBinding,
      NewTriggerDLQBinding;
    io_unfold.

  (** When the lister fails for another reason than the object being
      missing, every upsert of the Trigger reconciler returns that error as
      it is and makes no call after the read. *)
Theorem trigger_upsert_passes_on_lister_error (b : Broker) (t : Trigger) (err : error) :
    IsNotFound err = false ->
    (get (exchanges w) (Namespace (triggerMeta t)) (TriggerDLXExchangeName t) = Err err ->
     reconcileExchange w (mkExchangeArgs b (Some t) None "" true) =
       ([Invoke "reconcileExchange";
         ListerGet KExchange (Namespace (triggerMeta t)) (TriggerDLXExchangeName t)],
        Err err))
    /\ (get (queues w) (Namespace (brokerMeta b)) (CreateTriggerQueueName t) = Err err ->
        reconcileQueue w b t =
          ([Invoke "reconcileQueue";
            ListerGet KQueue (Namespace (brokerMeta b)) (CreateTriggerQueueName t)],
           Err err))
    /\ (get (queues w) (Namespace (brokerMeta b)) (CreateTriggerDeadLetterQueueName t)
          = Err err ->
        reconcileDLQ w b t =
          ([Invoke "reconcileDLQ";
            ListerGet KQueue (Namespace (brokerMeta b)) (CreateTriggerDeadLetterQueueName t)],
           Err err))
    /\ (get (bindings w) (Namespace (brokerMeta b)) (CreateTriggerQueueName t) = Err err ->
        reconcileBinding w b t =
          ([Invoke "reconcileBinding";
            ListerGet KBinding (Namespace (brokerMeta b)) (CreateTriggerQueueName t)],
           Err err))
    /\ (get (bindings w) (Namespace (brokerMeta b)) (CreateTriggerDeadLetterQueueName t)
          = Err err ->
        reconcileDLQBinding w b t =
          ([Invoke "reconcileDLQBinding";
            ListerGet KBinding (Namespace (brokerMeta b))
              (CreateTriggerDeadLetterQueueName t)],
           Err err))
    /\ (forall d,
          get (deployments w) (Namespace (deploymentMeta d)) (Name (deploymentMeta d))
            = Err err ->
          reconcileDeployment w d =
            ([Invoke "reconcileDeployment";
              ListerGet KDeployment (Namespace (deploymentMeta d)) (Name (deploymentMeta d))],
             Err err)).
Proof.
    intros Hnf. repeat split; [intros Hget ..|intros d Hget];
      upsert_eval; by rewrite Hget, Hnf.
Qed.

  (** When the lister does not find the object, an upsert creates the
      desired one, once, in the namespace it read from, and returns what the
      create call returns; the deployment upsert returns the desired
      Deployment itself when the create call succeeds. *)
Theorem trigger_upsert_creates_what_is_missing (b : Broker) (t : Trigger) (err : error) :
    IsNotFound err = true ->
    (get (exchanges w) (Namespace (triggerMeta t)) (TriggerDLXExchangeName t) = Err err ->
     reconcileExchange w (mkExchangeArgs b (Some t) None "" true) =
       ([Invoke "reconcileExchange";
         ListerGet KExchange (Namespace (triggerMeta t)) (TriggerDLXExchangeName t);
         Log "debug" "Creating rabbitmq exchange";
         ClientCreate KExchange (Namespace (triggerMeta t)) (TriggerDLXExchangeName t)],
        create (exchanges w) (Namespace (triggerMeta t))
          (NewExchange (mkExchangeArgs b (Some t) None "" true))))
    /\ (get (queues w) (Namespace (brokerMeta b)) (CreateTriggerQueueName t) = Err err ->
        reconcileQueue w b t =
          ([Invoke "reconcileQueue";
            ListerGet KQueue (Namespace (brokerMeta b)) (CreateTriggerQueueName t);
            Log "debug" "Creating rabbitmq queue";
            ClientCreate KQueue (Namespace (brokerMeta b))
              (Name (queueMeta (NewQueue b (Some t))))],
           create (queues w) (Namespace (brokerMeta b)) (NewQueue b (Some t))))
    /\ (get (bindings w) (Namespace (brokerMeta b)) (CreateTriggerQueueName t) = Err err ->
        reconcileBinding w b t =
          ([Invoke "reconcileBinding";
            ListerGet KBinding (Namespace (brokerMeta b)) (CreateTriggerQueueName t);
            Log "info" "Creating rabbitmq binding";
            ClientCreate KBinding (Namespace (brokerMeta b)) (CreateTriggerQueueName t)],
           match NewBinding b (Some t) with
           | Ok want => create (bindings w) (Namespace (brokerMeta b)) want
           | Err e => Err e
           end))
    /\ (forall d,
          get (deployments w) (Namespace (deploymentMeta d)) (Name (deploymentMeta d))
            = Err err ->
          reconcileDeployment w d =
            ([Invoke "reconcileDeployment";
              ListerGet KDeployment (Namespace (deploymentMeta d)) (Name (deploymentMeta d));
              ClientCreate KDeployment (Namespace (deploymentMeta d))
                (Name (deploymentMeta d))],
             match create (deployments w) (Namespace (deploymentMeta d)) d with
             | Ok _ => Ok d
             | Err e => Err e
             end)).
Proof.
    intros Hnf. repeat split; [intros Hget ..|intros d Hget];
      upsert_eval; rewrite Hget, Hnf; try done.
    by destruct (create (deployments w) _ _).
Qed.

  (** When the object is found and what the upsert compares does not
      match, it sends one update: the observed object, metadata and status
      as read, with the desired spec. The exchange and queue upserts compare
      the spec; the deployment upsert compares the pod template alone, so a
      Deployment whose template matches is returned as found, without an
      update, whatever else of its spec differs (the replicas, the
      selector). *)
Theorem trigger_upsert_updates_observed_object (b : Broker) (t : Trigger) :
    (forall current,
        get (exchanges w) (Namespace (triggerMeta t)) (TriggerDLXExchangeName t)
          = Ok current ->
        derive (exchangeSpec (NewExchange (mkExchangeArgs b (Some t) None "" true)))
          (exchangeSpec current) = false ->
        reconcileExchange w (mkExchangeArgs b (Some t) None "" true) =
          ([Invoke "reconcileExchange";
            ListerGet KExchange (Namespace (triggerMeta t)) (TriggerDLXExchangeName t);
            ClientUpdate KExchange (Namespace (triggerMeta t)) (Name (exchangeMeta current))],
           update (exchanges w) (Namespace (triggerMeta t))
             (mkExchange (exchangeMeta current)
                (exchangeSpec (NewExchange (mkExchangeArgs b (Some t) None "" true)))
                (exchangeStatus current))))
    /\ (forall current,
          get (queues w) (Namespace (brokerMeta b)) (CreateTriggerQueueName t) = Ok current ->
          derive (queueSpec (NewQueue b (Some t))) (queueSpec current) = false ->
          reconcileQueue w b t =
            ([Invoke "reconcileQueue";
              ListerGet KQueue (Namespace (brokerMeta b)) (CreateTriggerQueueName t);
              ClientUpdate KQueue (Namespace (brokerMeta b)) (Name (queueMeta current))],
             update (queues w) (Namespace (brokerMeta b))
               (mkQueue (queueMeta current) (queueSpec (NewQueue b (Some t)))
                  (queueStatus current))))
    /\ (forall d current,
          get (deployments w) (Namespace (deploymentMeta d)) (Name (deploymentMeta d))
            = Ok current ->
          derive (Template (deploymentSpec d)) (Template (deploymentSpec current)) = false ->
          reconcileDeployment w d =
            ([Invoke "reconcileDeployment";
              ListerGet KDeployment (Namespace (deploymentMeta d)) (Name (deploymentMeta d));
              ClientUpdate KDeployment (Namespace (deploymentMeta current))
                (Name (deploymentMeta current))],
             match update (deployments w) (Namespace (deploymentMeta current))
                     (mkDeployment (deploymentMeta current) (deploymentSpec d)) with
             | Ok _ => Ok (mkDeployment (deploymentMeta current) (deploymentSpec d))
             | Err e => Err e
             end))
    /\ (forall d current,
          get (deployments w) (Namespace (deploymentMeta d)) (Name (deploymentMeta d))
            = Ok current ->
          derive (Template (deploymentSpec d)) (Template (deploymentSpec current)) = true ->
          reconcileDeployment w d =
            ([Invoke "reconcileDeployment";
              ListerGet KDeployment (Namespace (deploymentMeta d)) (Name (deploymentMeta d))],
             Ok current)).
Proof.
    repeat split.
    - intros current Hget Hd. unfold reconcileExchange. cbn [argsTrigger].
      set (want := NewExchange _) in *. clearbody want. io_unfold. by rewrite Hget, Hd.
    - intros current Hget Hd. unfold reconcileQueue, upsertQueue.
      set (want := NewQueue _ _) in *. clearbody want. io_unfold. by rewrite Hget, Hd.
    - intros d current Hget Hd. unfold reconcileDeployment. io_unfold. rewrite Hget, Hd.
      by destruct (update (deployments w) _ _).
    - intros d current Hget Hd. unfold reconcileDeployment. io_unfold. by rewrite Hget, Hd.
Qed.

End TriggerUpsertPaths.

(** ** The Service upsert and the cluster IP *)

Section ServiceUpsert.
Context `{NM : Naming} `{BD : Builders}.
Variable w : World.
Import BrokerCommon.

  (** When the Service exists, the cluster IP of the desired Service plays
      no part: [reconcileService] overwrites it with the observed one before
      it compares and before it updates, so two desired Services that differ
      in their cluster IP only are reconciled alike. *)
Theorem reconcileService_ignores_desired_cluster_ip (svc current : Service) (ip : string) :
    get (services w) (Namespace (serviceMeta svc)) (Name (serviceMeta svc)) = Ok current ->
    reconcileService w (withServiceSpec svc (withClusterIP (serviceSpec svc) ip))
    = reconcileService w svc.
Proof.
    intros Hget. unfold reconcileService, withServiceSpec, withClusterIP.
    cbn [serviceMeta serviceSpec serviceSelector servicePorts ClusterIP].
    io_unfold. by rewrite Hget.
Qed.

  (** The update [reconcileService] sends, when it sends one, is the
      observed Service with the desired selector and ports and with its own
      cluster IP; when the update fails its error is returned and the
      endpoints are not read. *)
Theorem reconcileService_update_keeps_cluster_ip (svc current : Service) :
    get (services w) (Namespace (serviceMeta svc)) (Name (serviceMeta svc)) = Ok current ->
    derive (withClusterIP (serviceSpec svc) (ClusterIP (serviceSpec current)))
      (serviceSpec current) = false ->
    let sent :=
      mkService (serviceMeta current)
        (mkServiceSpec (ClusterIP (serviceSpec current)) (serviceSelector (serviceSpec svc))
           (servicePorts (serviceSpec svc))) in
    match update (services w) (Namespace (serviceMeta current)) sent with
    | Err err =>
        reconcileService w svc =
          ([Invoke "reconcileService";
            ListerGet KService (Namespace (serviceMeta svc)) (Name (serviceMeta svc));
            ClientUpdate KService (Namespace (serviceMeta current))
              (Name (serviceMeta current))],
           Err err)
    | Ok _ =>
        reconcileService w svc =
          ([Invoke "reconcileService";
            ListerGet KService (Namespace (serviceMeta svc)) (Name (serviceMeta svc));
            ClientUpdate KService (Namespace (serviceMeta current))
              (Name (serviceMeta current));
            ListerGet KEndpoints (Namespace (serviceMeta svc)) (Name (serviceMeta svc))],
           endpointsLister w (Namespace (serviceMeta svc)) (Name (serviceMeta svc)))
    end.
Proof.
    intros Hget Hd sent. subst sent.
    unfold reconcileService, withServiceSpec. cbn [serviceMeta serviceSpec].
    unfold withClusterIP in *. io_unfold. rewrite Hget. simpl. rewrite Hd. simpl.
    by destruct (update (services w) _ _).
Qed.

End ServiceUpsert.

(** ** The readiness evaluator does not depend on the order *)

(** [isReady] gives the same answer on two condition lists that hold the
    same conditions in another order. *)
Theorem isReady_permutation (conditions conditions' : list Condition) :
  conditions ≡ₚ conditions' -> isReady conditions = isReady conditions'.
Proof.
  intros Hp. unfold isReady. rewrite !isReady_loop_spec.
  assert (Hn : numTrue conditions = numTrue conditions').
  { unfold numTrue. by rewrite Hp. }
  assert (Hl : length conditions = length conditions') by (by rewrite Hp).
  destruct conditions as [|c cs], conditions' as [|c' cs']; try done.
  by rewrite Hn, Hl.
Qed.

(** One condition that is not True makes a list not ready, wherever it is. *)
Theorem isReady_false_of_one_not_true (before after : list Condition) (c : Condition) :
  condStatus c <> ConditionTrue -> isReady (before ++ c :: after) = false.
Proof.
  intros Hc. destruct (isReady (before ++ c :: after)) eqn:Hr; [|done].
  exfalso. unfold isReady in Hr.
  destruct (before ++ c :: after) as [|c0 cs] eqn:Heq; [done|].
  rewrite isReady_loop_spec in Hr.
  assert (Hfull : numTrue (c0 :: cs) = Z.of_nat (length (c0 :: cs))).
  { destruct (Z.of_nat (length (c0 :: cs)) =? 0); [done|]. apply Z.eqb_eq in Hr. lia. }
  apply numTrue_full in Hfull. rewrite <- Heq in Hfull.
  apply Forall_app in Hfull as [_ Hfull]. apply Forall_cons in Hfull as [Hc' _]. done.
Qed.

(** ** The arguments of a binding *)

Section BindingArgumentsShape.
Context `{NM : Naming} `{BD : Builders}.

  (** [NewBinding] never fails, and the arguments it marshals are, for a
      Trigger, its filter attributes over the two reserved entries (an
      attribute wins over a reserved entry of the same key, every other
      attribute and reserved entry is there, and nothing else is); for a
      Broker they are the two entries of the dead-letter binding. *)
Theorem NewBinding_arguments (broker : Broker) (trigger : Trigger) :
    (exists binding,
        NewBinding broker (Some trigger) = Ok binding
        /\ biArguments (bindingSpec binding)
           = Some (jsonMarshal
                     (default ∅ (filterAttributes (triggerSpec trigger))
                      ∪ <[BindingKey := Name (triggerMeta trigger)]>
                          (<["x-match" := "all"]> ∅))))
    /\ (exists binding,
          NewBinding broker None = Ok binding
          /\ biArguments (bindingSpec binding)
             = Some (jsonMarshal
                       (<[DLQBindingKey := Name (brokerMeta broker)]>
                          (<["x-match" := "all"]> ∅)))).
Proof.
    split; (eexists; split; [reflexivity|]); cbn [biArguments bindingSpec]; [|done].
    unfold bindingArguments. destruct (filterAttributes (triggerSpec trigger)) as [attrs|].
    - by rewrite mergeAttributes_union.
    - simpl. by rewrite (left_id_L ∅ (∪)).
Qed.

  (** The binding of a Trigger ties the queue of the Trigger to the
      exchange of the Broker, the dead-letter binding of a Broker its
      dead-letter queue to its dead-letter exchange, and the dead-letter
      binding of a Trigger its dead-letter queue to its own dead-letter
      exchange; each binding carries the name of the queue it feeds, and
      the cluster reference of the Broker's config. *)
Theorem binding_ties_queue_to_exchange (broker : Broker) (trigger : Trigger) :
    (forall binding,
        NewBinding broker (Some trigger) = Ok binding ->
        Name (bindingMeta binding) = CreateTriggerQueueName trigger
        /\ biDestination (bindingSpec binding) = CreateTriggerQueueName trigger
        /\ biSource (bindingSpec binding) = BrokerExchangeName broker false
        /\ biDestinationType (bindingSpec binding) = "queue"
        /\ clusterName (biClusterRef (bindingSpec binding)) = configName broker
        /\ Namespace (bindingMeta binding) = Namespace (brokerMeta broker))
    /\ (forall binding,
          NewBinding broker None = Ok binding ->
          Name (bindingMeta binding) = CreateBrokerDeadLetterQueueName broker
          /\ biDestination (bindingSpec binding) = CreateBrokerDeadLetterQueueName broker
          /\ biSource (bindingSpec binding) = BrokerExchangeName broker true
          /\ biDestinationType (bindingSpec binding) = "queue"
          /\ clusterName (biClusterRef (bindingSpec binding)) = configName broker
          /\ Namespace (bindingMeta binding) = Namespace (brokerMeta broker))
    /\ (forall binding,
          NewTriggerDLQBinding broker trigger = Ok binding ->
          Name (bindingMeta binding) = CreateTriggerDeadLetterQueueName trigger
          /\ biDestination (bindingSpec binding) = CreateTriggerDeadLetterQueueName trigger
          /\ biSource (bindingSpec binding) = TriggerDLXExchangeName trigger
          /\ biDestinationType (bindingSpec binding) = "queue"
          /\ clusterName (biClusterRef (bindingSpec binding)) = configName broker
          /\ Namespace (bindingMeta binding) = Namespace (triggerMeta trigger)).
Proof. repeat split; injection H as <-; done. Qed.

End BindingArgumentsShape.

(** ** The standalone reconciler and Brokers of the operator *)

Section StandaloneRefusal.
Context `{NM : Naming} `{BD : Builders}.
Variable w : World.
Variable r : BrokerCommon.Reconciler.
Import BrokerCommon.

  (** The standalone reconciler does not reconcile a Broker whose config is
      a RabbitmqCluster: after it has obtained the exchange arguments the
      run returns an error, always, without a call on the driver or the
      cluster and with the status as it was; when the arguments cannot be
      obtained that error is returned. *)
Theorem standalone_refuses_operator_broker (b : Broker) :
    isUsingOperator b = true ->
    trace (BrokerStandalone.ReconcileKind w r) b
    = [Invoke "ReconcileKind"; Log "info" "Reconciling"] ++ calls (getExchangeArgs w b)
    /\ match answer (getExchangeArgs w b) with
       | Ok _ =>
           returned (BrokerStandalone.ReconcileKind w r) b = Some (errorsNew "WON'T GO")
           /\ final (BrokerStandalone.ReconcileKind w r) b = b
       | Err err => returned (BrokerStandalone.ReconcileKind w r) b = Some err
       end.
Proof.
    intros Hop.
    apply (wp_run (BrokerStandalone.ReconcileKind w r)
             (fun ret h s =>
                h = [Invoke "ReconcileKind"; Log "info" "Reconciling"]
                    ++ calls (getExchangeArgs w b)
                /\ match answer (getExchangeArgs w b) with
                   | Ok _ => ret = Some (errorsNew "WON'T GO") /\ s = b
                   | Err err => ret = Some err
                   end)).
    unfold BrokerStandalone.ReconcileKind.
    do 6 (cbv beta; wp_step). cbv beta.
    destruct (answer (getExchangeArgs w b)) as [args|err] eqn:Hargs.
    - wp_known_with idtac. done.
    - wp_any_with ltac:(unfold onStatus). done.
Qed.

End StandaloneRefusal.

(** ** Errors on the way to the dependency *)

Section DependencyErrors.
Context `{NM : Naming} `{BD : Builders}.
Variable w : World.
Variable r : TriggerReconciler.Reconciler.
Import TriggerReconciler.

  (** The run of a Trigger with a dependency annotation, under a Broker of
      this class that is Ready, returns the error of the first step towards
      the dependency that fails, each under its own prefix, and stops
      there: an annotation that does not parse (the message quotes it as
      [%q] does, here for an annotation of ASCII text) fails the Dependency
      condition for ReferenceError; a tracking error is returned with the
      Trigger as the Broker gates left it, no condition touched; a
      dependency that does not exist fails the Dependency condition for
      DependencyDoesNotExist, and one that cannot be read for another reason
      leaves it Unknown for DependencyGetFailed. *)
Theorem dependency_errors_are_returned (t : Trigger) (broker : Broker)
      (annotation : string) :
    brokerLister w (Namespace (triggerMeta t)) (specBroker (triggerSpec t)) = Ok broker ->
    mapIndex (Annotations (brokerMeta broker)) BrokerClassKey = brokerClass r ->
    brokerIsReady broker = true ->
    Annotations (triggerMeta t) !! DependencyAnnotation = Some annotation ->
    (forall err,
        Forall (fun c => (Ascii.nat_of_ascii c < 128)%nat)
          (String.list_ascii_of_string annotation) ->
        GetObjRefFromDependencyAnnotation annotation = Err err ->
        returned (ReconcileKind w r) t
        = Some (Errorf ("getting object ref from dependency annotation "
                        +:+ fmtQ annotation +:+ ": ") err)
        /\ trace (ReconcileKind w r) t =
             [Invoke "ReconcileKind"; Log "debug" "Reconciling";
              ListerGet KBroker (Namespace (triggerMeta t)) (specBroker (triggerSpec t));
              Invoke "checkDependencyAnnotation"]
        /\ (kStatus <$> TS.GetCondition (triggerStatus (final (ReconcileKind w r) t))
                          TriggerConditionDependency = Some ConditionFalse
            /\ kReason <$> TS.GetCondition (triggerStatus (final (ReconcileKind w r) t))
                             TriggerConditionDependency = Some "ReferenceError"))
    /\ (forall ref err,
          GetObjRefFromDependencyAnnotation annotation = Ok ref ->
          trackKResource w (triggerMeta t) ref = Some err ->
          returned (ReconcileKind w r) t = Some (Errorf "tracking dependency: " err)
          /\ trace (ReconcileKind w r) t =
               [Invoke "ReconcileKind"; Log "debug" "Reconciling";
                ListerGet KBroker (Namespace (triggerMeta t)) (specBroker (triggerSpec t));
                Invoke "checkDependencyAnnotation"; Track ref]
          /\ final (ReconcileKind w r) t = afterBrokerGates t broker)
    /\ (forall ref err,
          GetObjRefFromDependencyAnnotation annotation = Ok ref ->
          trackKResource w (triggerMeta t) ref = None ->
          sourceListerFor w ref = None ->
          sourceGet w ref (Namespace (triggerMeta t)) (objName ref) = Err err ->
          returned (ReconcileKind w r) t
          = Some (Errorf "propagating dependency readiness: "
                    (Errorf "getting the dependency: " err))
          /\ trace (ReconcileKind w r) t =
               [Invoke "ReconcileKind"; Log "debug" "Reconciling";
                ListerGet KBroker (Namespace (triggerMeta t)) (specBroker (triggerSpec t));
                Invoke "checkDependencyAnnotation"; Track ref;
                Invoke "propagateDependencyReadiness"; ListerFor ref;
                ListerGet KSource (Namespace (triggerMeta t)) (objName ref)]
          /\ kStatus <$> TS.GetCondition (triggerStatus (final (ReconcileKind w r) t))
                           TriggerConditionDependency
             = Some (if IsNotFound err then ConditionFalse else ConditionUnknown)
          /\ kReason <$> TS.GetCondition (triggerStatus (final (ReconcileKind w r) t))
                           TriggerConditionDependency
             = Some (if IsNotFound err then "DependencyDoesNotExist"
                     else "DependencyGetFailed")).
Proof.
    intros Hb Hclass Hready Hann.
    assert (Hc : negb (bool_decide (mapIndex (Annotations (brokerMeta broker)) BrokerClassKey
                                    = brokerClass r)) = false)
      by (by rewrite bool_decide_eq_true_2).
    assert (Hr : negb (brokerIsReady broker) = false) by (by rewrite Hready).
    split; [|split].
    - intros err _ Href.
      apply (wp_run (ReconcileKind w r)
               (fun ret h s =>
                  ret = Some (Errorf ("getting object ref from dependency annotation "
                                      +:+ fmtQ annotation +:+ ": ") err)
                  /\ h = [Invoke "ReconcileKind"; Log "debug" "Reconciling";
                          ListerGet KBroker (Namespace (triggerMeta t))
                            (specBroker (triggerSpec t));
                          Invoke "checkDependencyAnnotation"]
                  /\ (kStatus <$> TS.GetCondition (triggerStatus s) TriggerConditionDependency
                      = Some ConditionFalse
                      /\ kReason <$> TS.GetCondition (triggerStatus s)
                                       TriggerConditionDependency
                         = Some "ReferenceError"))).
      trigger_find_broker Hb.
      wp_known_with ltac:(unfold onStatus, checkDependencyAnnotation, setObservedGeneration,
                            withStatus;
                          cbn [triggerMeta triggerSpec triggerStatus]).
      rewrite MarkDependencyFailed_condition. done.
    - intros ref err Href Htrack.
      apply (wp_run (ReconcileKind w r)
               (fun ret h s =>
                  ret = Some (Errorf "tracking dependency: " err)
                  /\ h = [Invoke "ReconcileKind"; Log "debug" "Reconciling";
                          ListerGet KBroker (Namespace (triggerMeta t))
                            (specBroker (triggerSpec t));
                          Invoke "checkDependencyAnnotation"; Track ref]
                  /\ s = afterBrokerGates t broker)).
      trigger_find_broker Hb.
      wp_known_with ltac:(unfold onStatus, checkDependencyAnnotation, setObservedGeneration,
                            withStatus;
                          cbn [triggerMeta triggerSpec triggerStatus]).
      split; [done|]. split; [done|]. reflexivity.
    - intros ref err Href Htrack Hl Hget.
      apply (wp_run (ReconcileKind w r)
               (fun ret h s =>
                  ret = Some (Errorf "propagating dependency readiness: "
                                (Errorf "getting the dependency: " err))
                  /\ h = [Invoke "ReconcileKind"; Log "debug" "Reconciling";
                          ListerGet KBroker (Namespace (triggerMeta t))
                            (specBroker (triggerSpec t));
                          Invoke "checkDependencyAnnotation"; Track ref;
                          Invoke "propagateDependencyReadiness"; ListerFor ref;
                          ListerGet KSource (Namespace (triggerMeta t)) (objName ref)]
                  /\ kStatus <$> TS.GetCondition (triggerStatus s) TriggerConditionDependency
                     = Some (if IsNotFound err then ConditionFalse else ConditionUnknown)
                  /\ kReason <$> TS.GetCondition (triggerStatus s)
                                   TriggerConditionDependency
                     = Some (if IsNotFound err then "DependencyDoesNotExist"
                             else "DependencyGetFailed"))).
      trigger_find_broker Hb.
      destruct (IsNotFound err) eqn:Hnf;
        wp_known_with ltac:(unfold onStatus, checkDependencyAnnotation,
                              propagateDependencyReadiness, setObservedGeneration, withStatus;
                            cbn [triggerMeta triggerSpec triggerStatus]).
      + rewrite MarkDependencyFailed_condition. done.
      + rewrite MarkDependencyUnknown_condition. done.
Qed.

End DependencyErrors.

(** ** The first run of a Trigger *)

Section FirstRun.
Context `{NM : Naming} `{BD : Builders}.
Variable w : World.
Variable r : TriggerReconciler.Reconciler.
Import TriggerReconciler.

Lemma reconcileQueue_missing b s err :
    get (queues w) (Namespace (brokerMeta b)) (CreateTriggerQueueName s) = Err err ->
    IsNotFound err = true ->
    reconcileQueue w b s =
      ([Invoke "reconcileQueue";
        ListerGet KQueue (Namespace (brokerMeta b)) (CreateTriggerQueueName s);
        Log "debug" "Creating rabbitmq queue";
        ClientCreate KQueue (Namespace (brokerMeta b)) (Name (queueMeta (NewQueue b (Some s))))],
       create (queues w) (Namespace (brokerMeta b)) (NewQueue b (Some s))).
Proof.
    intros Hget Hnf. unfold reconcileQueue, upsertQueue. io_unfold. by rewrite Hget, Hnf.
Qed.

  (** The run of a Trigger without dependency and without dead-letter sink,
      under a Ready Broker of this class on a RabbitmqCluster, when its
      queue does not exist yet and the queue the create call returns is not
      ready: the run creates the queue, fails the Dependency condition for
      QueueFailure and returns nil; it reads and creates no binding, resolves
      no subscriber and reconciles no dispatcher. The names are those of the
      Trigger as the run holds it, [t] with the status of that moment. *)
Theorem first_run_creates_queue_and_waits (t : Trigger) (broker : Broker) (err : error) :
    brokerLister w (Namespace (triggerMeta t)) (specBroker (triggerSpec t)) = Ok broker ->
    mapIndex (Annotations (brokerMeta broker)) BrokerClassKey = brokerClass r ->
    brokerIsReady broker = true ->
    isUsingOperator broker = true ->
    Annotations (triggerMeta t) !! DependencyAnnotation = None ->
    hasDeadLetterSink (triggerDelivery (triggerSpec t)) = None ->
    IsNotFound err = true ->
    (forall ts, get (queues w) (Namespace (brokerMeta broker))
                  (CreateTriggerQueueName (withStatus t ts)) = Err err) ->
    (forall ts, exists q,
        create (queues w) (Namespace (brokerMeta broker))
          (NewQueue broker (Some (withStatus t ts))) = Ok q
        /\ isReady (Conditions (queueStatus q)) = false) ->
    returned (ReconcileKind w r) t = None
    /\ (exists ts q,
          create (queues w) (Namespace (brokerMeta broker))
            (NewQueue broker (Some (withStatus t ts))) = Ok q
          /\ trace (ReconcileKind w r) t =
               [Invoke "ReconcileKind"; Log "debug" "Reconciling";
                ListerGet KBroker (Namespace (triggerMeta t)) (specBroker (triggerSpec t));
                Invoke "checkDependencyAnnotation";
                Invoke "reconcileQueue";
                ListerGet KQueue (Namespace (brokerMeta broker))
                  (CreateTriggerQueueName (withStatus t ts));
                Log "debug" "Creating rabbitmq queue";
                ClientCreate KQueue (Namespace (brokerMeta broker))
                  (Name (queueMeta (NewQueue broker (Some (withStatus t ts)))));
                Log "warn" (Sprintf "Queue %q is not ready" [fmtQ (Name (queueMeta q))])])
    /\ kStatus <$> TS.GetCondition (triggerStatus (final (ReconcileKind w r) t))
                     TriggerConditionDependency = Some ConditionFalse
    /\ kReason <$> TS.GetCondition (triggerStatus (final (ReconcileKind w r) t))
                     TriggerConditionDependency = Some "QueueFailure".
Proof.
    intros Hb Hclass Hready Hop Hann Hdls Hnf Hget Hcreate.
    assert (Hc : negb (bool_decide (mapIndex (Annotations (brokerMeta broker)) BrokerClassKey
                                    = brokerClass r)) = false)
      by (by rewrite bool_decide_eq_true_2).
    assert (Hr : negb (brokerIsReady broker) = false) by (by rewrite Hready).
    assert (Hn : negb (isUsingOperator broker) = false) by (by rewrite Hop).
    apply (wp_run (ReconcileKind w r)
             (fun ret h s =>
                ret = None
                /\ (exists ts q,
                      create (queues w) (Namespace (brokerMeta broker))
                        (NewQueue broker (Some (withStatus t ts))) = Ok q
                      /\ h = [Invoke "ReconcileKind"; Log "debug" "Reconciling";
                              ListerGet KBroker (Namespace (triggerMeta t))
                                (specBroker (triggerSpec t));
                              Invoke "checkDependencyAnnotation";
                              Invoke "reconcileQueue";
                              ListerGet KQueue (Namespace (brokerMeta broker))
                                (CreateTriggerQueueName (withStatus t ts));
                              Log "debug" "Creating rabbitmq queue";
                              ClientCreate KQueue (Namespace (brokerMeta broker))
                                (Name (queueMeta (NewQueue broker (Some (withStatus t ts)))));
                              Log "warn" (Sprintf "Queue %q is not ready"
                                            [fmtQ (Name (queueMeta q))])])
                /\ kStatus <$> TS.GetCondition (triggerStatus s) TriggerConditionDependency
                   = Some ConditionFalse
                /\ kReason <$> TS.GetCondition (triggerStatus s) TriggerConditionDependency
                   = Some "QueueFailure")).
    trigger_find_broker Hb.
    wp_known_with ltac:(unfold onStatus, checkDependencyAnnotation, setObservedGeneration,
                          withStatus;
                        cbn [triggerMeta triggerSpec triggerStatus]).
    unfold dependencyNotTrue. cbn [triggerStatus].
    rewrite MarkDependencySucceeded_condition. cbn [kStatus].
    rewrite bool_decide_eq_true_2 by done. cbn [negb].
    wp_known_with ltac:(unfold onStatus).
    cbn [triggerSpec].
    wp_known_with ltac:(unfold onStatus, reconcilePrimary).
    cbn [triggerMeta triggerSpec triggerStatus].
    match goal with
    | |- context [reconcileQueue w broker (mkTrigger _ _ ?st)] => set (ts := st)
    end.
    change (mkTrigger (triggerMeta t) (triggerSpec t) ts) with (withStatus t ts).
    rewrite (reconcileQueue_missing broker (withStatus t ts) err (Hget ts) Hnf).
    destruct (Hcreate ts) as (q & Hq & Hnr).
    unfold answer, calls. cbn [fst snd]. rewrite Hq. unfold gate.
    assert (Hnq : negb (isReady (Conditions (queueStatus q))) = true) by (by rewrite Hnr).
    wp_known_with ltac:(unfold onStatus).
    split; [done|]. split; [by exists ts, q|].
    unfold withStatus. cbn [triggerStatus]. rewrite MarkDependencyFailed_condition. done.
Qed.

End FirstRun.

(** ** The Broker pipeline stops at the first step that is not ready *)

Section BrokerGates.
Context `{NM : Naming} `{BD : Builders}.
Variable w : World.
Variable r : BrokerCommon.Reconciler.
Import BrokerCommon.

  (** The run of the Broker pipeline on a RabbitmqCluster, once it has the
      exchange arguments: when the reconcile of the Broker's exchange fails,
      the run returns that error, and when it gives an exchange that is not
      ready the run logs it and returns nil; either way the run ends there,
      before the dead-letter exchange, the queue, the binding and the
      ingress are looked at. *)
Theorem broker_run_stops_at_unready_exchange (b : Broker) (args0 : ExchangeArgs) :
    answer (getExchangeArgs w b) = Ok args0 ->
    isUsingOperator b = true ->
    (forall err,
        answer (BrokerReconciler.reconcileExchange w
                  (BrokerReconciler.pointingTo
                     (BrokerReconciler.withRabbitMQCluster args0 (configName b)) b))
        = Err err ->
        returned (BrokerReconciler.ReconcileKind w r) b = Some err
        /\ trace (BrokerReconciler.ReconcileKind w r) b =
             [Invoke "ReconcileKind"; Log "info" "Reconciling"]
             ++ calls (getExchangeArgs w b)
             ++ [Invoke "reconcileUsingCRD"; Log "info" "Reconciling exchange"]
             ++ calls (BrokerReconciler.reconcileExchange w
                         (BrokerReconciler.pointingTo
                            (BrokerReconciler.withRabbitMQCluster args0 (configName b)) b)))
    /\ (forall exchange,
          answer (BrokerReconciler.reconcileExchange w
                    (BrokerReconciler.pointingTo
                       (BrokerReconciler.withRabbitMQCluster args0 (configName b)) b))
          = Ok exchange ->
          isReady (Conditions (exchangeStatus exchange)) = false ->
          returned (BrokerReconciler.ReconcileKind w r) b = None
          /\ trace (BrokerReconciler.ReconcileKind w r) b =
               [Invoke "ReconcileKind"; Log "info" "Reconciling"]
               ++ calls (getExchangeArgs w b)
               ++ [Invoke "reconcileUsingCRD"; Log "info" "Reconciling exchange"]
               ++ calls (BrokerReconciler.reconcileExchange w
                           (BrokerReconciler.pointingTo
                              (BrokerReconciler.withRabbitMQCluster args0 (configName b)) b))
               ++ [Log "warn" (Sprintf "Exchange %q is not ready"
                                 [fmtQ (Name (exchangeMeta exchange))])]).
Proof.
    intros Hargs Hop.
    assert (Hn : negb (isUsingOperator b) = false) by (by rewrite Hop).
    split.
    - intros err Hx.
      apply (wp_run (BrokerReconciler.ReconcileKind w r)
               (fun ret h s =>
                  ret = Some err
                  /\ h = [Invoke "ReconcileKind"; Log "info" "Reconciling"]
                         ++ calls (getExchangeArgs w b)
                         ++ [Invoke "reconcileUsingCRD"; Log "info" "Reconciling exchange"]
                         ++ calls (BrokerReconciler.reconcileExchange w
                                     (BrokerReconciler.pointingTo
                                        (BrokerReconciler.withRabbitMQCluster args0
                                           (configName b)) b)))).
      unfold BrokerReconciler.ReconcileKind.
      wp_known_with ltac:(unfold onStatus, onStatusOf, BrokerReconciler.reconcileUsingCRD,
                            gate).
      split; [done|]. by rewrite <- !app_assoc.
    - intros exchange Hx Hnr.
      assert (Hnq : negb (isReady (Conditions (exchangeStatus exchange))) = true)
        by (by rewrite Hnr).
      apply (wp_run (BrokerReconciler.ReconcileKind w r)
               (fun ret h s =>
                  ret = None
                  /\ h = [Invoke "ReconcileKind"; Log "info" "Reconciling"]
                         ++ calls (getExchangeArgs w b)
                         ++ [Invoke "reconcileUsingCRD"; Log "info" "Reconciling exchange"]
                         ++ calls (BrokerReconciler.reconcileExchange w
                                     (BrokerReconciler.pointingTo
                                        (BrokerReconciler.withRabbitMQCluster args0
                                           (configName b)) b))
                         ++ [Log "warn" (Sprintf "Exchange %q is not ready"
                                           [fmtQ (Name (exchangeMeta exchange))])])).
      unfold BrokerReconciler.ReconcileKind.
      wp_known_with ltac:(unfold onStatus, onStatusOf, BrokerReconciler.reconcileUsingCRD,
                            gate).
      split; [done|]. by rewrite <- !app_assoc.
Qed.

End BrokerGates.

(** ** Each Broker reconciler keeps to its strategy *)

Section Strategies.
Context `{NM : Naming} `{BD : Builders}.
Variable w : World.
Variable r : BrokerCommon.Reconciler.
Import BrokerCommon.

Ltac strategy_leaves :=
    try (unfold reconcileIngressDeployment, reconcileIngressService,
           reconcileDLXDispatcherDeployment, reconcileSecret, reconcileDeployment,
           reconcileService, getExchangeArgs, BrokerReconciler.reconcileExchange,
           BrokerReconciler.reconcileQueue, BrokerReconciler.reconcileBinding,
           BrokerStandalone.reconcileDLQBinding, getExchangeArgs;
         forall_calls; done).

Lemma operator_run_noDriver b :
    Forall (fun e => isDriverCall e = false) (trace (BrokerReconciler.ReconcileKind w r) b).
Proof.
    pose proof (Forall_step (fun e => isDriverCall e = false)) as Hstep.
    apply (holds_run (Forall (fun e => isDriverCall e = false)) (fun _ => True));
      [|constructor|done].
    unfold BrokerReconciler.ReconcileKind, BrokerReconciler.reconcileUsingCRD,
      reconcileCommonIngressResources, reconcileDeadLetterSink.
    holds_with ltac:(unfold onStatus, onStatusOf); try done; strategy_leaves.
Qed.

Lemma standalone_run_noTopologyObject b :
    Forall (fun e => isTopologyObjectCall e = false)
      (trace (BrokerStandalone.ReconcileKind w r) b).
Proof.
    pose proof (Forall_step (fun e => isTopologyObjectCall e = false)) as Hstep.
    apply (holds_run (Forall (fun e => isTopologyObjectCall e = false)) (fun _ => True));
      [|constructor|done].
    unfold BrokerStandalone.ReconcileKind, BrokerStandalone.reconcileUsingLibraries,
      reconcileCommonIngressResources, reconcileDeadLetterSink.
    holds_with ltac:(unfold onStatus, onStatusOf); try done; strategy_leaves.
Qed.

Lemma finalize_noClientCall b :
    Forall (fun e => isWrite e = false /\ isTopologyObjectCall e = false)
      (trace (BrokerStandalone.FinalizeKind w) b).
Proof.
    pose proof (Forall_step (fun e => isWrite e = false /\ isTopologyObjectCall e = false))
      as Hstep.
    apply (holds_run (Forall (fun e => isWrite e = false /\ isTopologyObjectCall e = false))
             (fun _ => True)); [|constructor|done].
    unfold BrokerStandalone.FinalizeKind.
    holds_with idtac; try done; strategy_leaves.
Qed.

  (** The Broker reconciler of the operator never calls the AMQP driver; the
      standalone reconciler never reads or writes an Exchange, Queue or
      Binding object, in a reconcile run or in finalization, and its
      finalization makes no write through the API server at all. *)
Theorem broker_reconcilers_keep_to_their_strategy (b : Broker) :
    Forall (fun e => isDriverCall e = false) (trace (BrokerReconciler.ReconcileKind w r) b)
    /\ Forall (fun e => isTopologyObjectCall e = false)
         (trace (BrokerStandalone.ReconcileKind w r) b)
    /\ Forall (fun e => isWrite e = false /\ isTopologyObjectCall e = false)
         (trace (BrokerStandalone.FinalizeKind w) b).
Proof.
    split; [apply operator_run_noDriver|].
    split; [apply standalone_run_noTopologyObject|apply finalize_noClientCall].
Qed.

End Strategies.

(** ** The theorems on a concrete cluster *)

Section Runs.
Import Demo.

  (** C10 at a Trigger that filters on "x-match": the arguments hold the
      filter's "any" under "x-match", where the reserved entry is "all", and
      the reserved owner entry under "x-knative-trigger". *)
Lemma NewBinding_filter_overwrites_x_match :
    (<[BindingKey := Name (triggerMeta filteredTrigger)]> (<["x-match" := "all"]> ∅)
       : gmap string string) !! "x-match" = Some "all"
    /\ bindingArguments rabbitBroker (Some filteredTrigger) !! "x-match" = Some "any"
    /\ bindingArguments rabbitBroker (Some filteredTrigger) !! BindingKey
       = Some "my-trigger".
Proof.
    destruct (NewBinding_filter_overwrites_reserved_keys rabbitBroker filteredTrigger
                (<["x-match" := "any"]> ∅) "x-match" "any")
      as (binding & _ & _ & Hres & Hval & _ & Hrest).
    - reflexivity.
    - vm_compute. reflexivity.
    - right. reflexivity.
    - split; [exact Hres|]. split; [exact Hval|].
      rewrite Hrest; [|vm_compute; reflexivity]. vm_compute. reflexivity.
Defined.

  (** C1 on a Broker whose dead-letter binding exists with another source
      exchange: [reconcileBinding] of the Broker reconciler updates it. *)
Lemma broker_binding_divergence_is_updated_run :
    calls (BrokerReconciler.reconcileBinding (populatedWorld rabbitBroker 2) rabbitBroker) =
      [Invoke "reconcileBinding";
       ListerGet KBinding (Namespace (brokerMeta rabbitBroker))
         (CreateBrokerDeadLetterQueueName rabbitBroker);
       ClientUpdate KBinding (Namespace (brokerMeta rabbitBroker))
         (Name (bindingMeta (aBinding "foobar" "b.foobar.testbroker.dlq.broker-test-uid")))].
Proof.
    eapply proj1.
    eapply (broker_binding_divergence_is_updated (populatedWorld rabbitBroker 2) rabbitBroker).
    - reflexivity.
    - vm_compute. reflexivity.
    - vm_compute. reflexivity.
Defined.

  (** The run of the Broker pipeline on that cluster: the binding found has
      another source than the desired one, the run updates it and returns
      nil. *)
Lemma broker_run_updates_diverging_binding :
    bool_decide (ClientUpdate KBinding "foobar" "b.foobar.testbroker.dlq.broker-test-uid"
                 ∈ trace (BrokerReconciler.ReconcileKind (populatedWorld rabbitBroker 2)
                            brokerReconciler) rabbitBroker) = true
    /\ returned (BrokerReconciler.ReconcileKind (populatedWorld rabbitBroker 2)
                   brokerReconciler) rabbitBroker = None
    /\ (biSource ∘ bindingSpec) <$> (match NewBinding rabbitBroker None with Ok want => Some want | Err _ => None end)
       = Some "b.foobar.testbroker.dlx.broker-test-uid"
    /\ biSource (bindingSpec (aBinding "foobar" "b.foobar.testbroker.dlq.broker-test-uid"))
       = "some-other-exchange".
Proof. vm_compute. done. Qed.

  (** C4 on a Trigger whose Broker is backed by a Secret and is Ready, and
      whose annotated dependency is up to date and Ready: no topology work,
      and the unsupported-configuration mark. *)
Lemma unsupported_config_trigger_run :
    Forall noTopology
      (trace (TriggerReconciler.ReconcileKind (populatedWorld (secretBroker true) 2)
                triggerReconciler) dependentTrigger)
    /\ returned (TriggerReconciler.ReconcileKind (populatedWorld (secretBroker true) 2)
                   triggerReconciler) dependentTrigger = None
    /\ TS.GetCondition
         (triggerStatus (final (TriggerReconciler.ReconcileKind
                                  (populatedWorld (secretBroker true) 2) triggerReconciler)
                           dependentTrigger))
         TriggerConditionDependency
       = Some (mkKCondition ConditionFalse ConditionSeverityError "ReconcileFailure"
                 "using secret is not supported with this controller").
Proof.
    destruct (proj2 (unsupported_config_does_no_topology_work
                       (populatedWorld (secretBroker true) 2))
                triggerReconciler dependentTrigger (secretBroker true))
      as (Hno & _ & Hmark & _).
    - reflexivity.
    - reflexivity.
    - split; [exact Hno|].
      apply (Hmark "ping"
               (mkObjectReference "PingSource" "foobar" "ping" "sources.knative.dev/v1")
               (aSource 2 2 "foobar" "ping") readyCondition);
        first [ reflexivity | vm_compute; reflexivity ].
Defined.

  (** The same Trigger when the Broker is not Ready: the run stops at the
      Broker, returns nil, and the Dependency condition is not failed but
      Unknown. *)
Lemma trigger_of_unready_secret_broker_is_not_failed :
    TriggerReconciler.isUsingOperator (secretBroker false) = false
    /\ trace (TriggerReconciler.ReconcileKind (populatedWorld (secretBroker false) 2)
                triggerReconciler) plainTrigger
       = [Invoke "ReconcileKind"; Log "debug" "Reconciling";
          ListerGet KBroker "foobar" "testbroker"; Log "error" "Broker is not ready"]
    /\ returned (TriggerReconciler.ReconcileKind (populatedWorld (secretBroker false) 2)
                   triggerReconciler) plainTrigger = None
    /\ kStatus <$> TS.GetCondition
         (triggerStatus (final (TriggerReconciler.ReconcileKind
                                  (populatedWorld (secretBroker false) 2) triggerReconciler)
                           plainTrigger))
         TriggerConditionDependency
       = Some ConditionUnknown.
Proof. vm_compute. done. Qed.

  (** C5: the run of the Broker pipeline on a Broker without dead-letter
      sink whose dispatcher Deployment is there ends with its delete. *)
Lemma broker_run_deletes_stale_dispatcher :
    last (trace (BrokerReconciler.ReconcileKind (populatedWorld rabbitBroker 2)
                   brokerReconciler) rabbitBroker)
    = Some (ClientDelete KDeployment "foobar" "testbroker-dlq-dispatcher").
Proof. vm_compute. reflexivity. Qed.

  (** C6 at the call of [reconcileDLQ] in the run of a Trigger with a
      dead-letter sink. *)
Lemma dead_letter_steps_follow_ready_exchange_run :
    (Invoke "reconcileDLQ" = Invoke "reconcileDLQ"
     \/ Invoke "reconcileDLQ" = Invoke "reconcileDLQBinding" ->
     dlxReadyIn (populatedWorld rabbitBroker 2) deadLetterTrigger
       [Invoke "ReconcileKind"; Log "debug" "Reconciling";
        ListerGet KBroker "foobar" "testbroker"; Invoke "checkDependencyAnnotation";
        Invoke "reconcileExchange";
        ListerGet KExchange "foobar" "t.foobar.my-trigger.dlx.trigger-test-uid"])
    /\ (Invoke "reconcileDLQ" = Invoke "reconcileDispatcherDeployment" ->
        resolvedIn (populatedWorld rabbitBroker 2) deadLetterTrigger
          [Invoke "ReconcileKind"; Log "debug" "Reconciling";
           ListerGet KBroker "foobar" "testbroker"; Invoke "checkDependencyAnnotation";
           Invoke "reconcileExchange";
           ListerGet KExchange "foobar" "t.foobar.my-trigger.dlx.trigger-test-uid"]).
Proof.
    apply (dead_letter_steps_follow_ready_exchange (populatedWorld rabbitBroker 2)
             triggerReconciler deadLetterTrigger _
             [ListerGet KQueue "foobar" "t.foobar.my-trigger.dlq.trigger-test-uid";
              Invoke "reconcileDLQBinding";
              ListerGet KBinding "foobar" "t.foobar.my-trigger.dlq.trigger-test-uid";
              Log "error" "Problem reconciling Trigger DLQ Binding"]).
    vm_compute. reflexivity.
Defined.



  (** C8 on a Trigger whose dependency is at generation 2 and has observed
      generation 1. *)
Lemma dependency_generation_mismatch_run :
    returned (TriggerReconciler.ReconcileKind (populatedWorld rabbitBroker 1)
                triggerReconciler) dependentTrigger = None
    /\ last (trace (TriggerReconciler.ReconcileKind (populatedWorld rabbitBroker 1)
                      triggerReconciler) dependentTrigger)
       = Some (Log "info" "Dependency is not ready").
Proof.
    destruct (dependency_generation_mismatch_soft_stops (populatedWorld rabbitBroker 1)
                triggerReconciler dependentTrigger rabbitBroker "ping"
                (mkObjectReference "PingSource" "foobar" "ping" "sources.knative.dev/v1")
                (aSource 2 1 "foobar" "ping")) as (_ & Hret & Htrace & _).
    - reflexivity.
    - reflexivity.
    - vm_compute. reflexivity.
    - vm_compute. reflexivity.
    - vm_compute. reflexivity.
    - reflexivity.
    - reflexivity.
    - reflexivity.
    - vm_compute. discriminate.
    - split; [exact Hret|]. rewrite Htrace. reflexivity.
Defined.

  (** The settled cluster holds what the runs on [deadLetterTrigger],
      [rabbitBroker] and the standalone [secretBroker] upsert. *)
Lemma sameTrigger_deadLetterTrigger t' :
    sameTrigger deadLetterTrigger t' ->
    exists st,
      t' = mkTrigger (triggerMeta deadLetterTrigger) (triggerSpec deadLetterTrigger) st.
Proof.
    destruct t' as [m sp st]. intros [Hm Hs]. cbn [triggerMeta triggerSpec] in Hm, Hs.
    exists st. f_equal; [done|]. by destruct Hs as [->| ->].
Qed.

Lemma settledWorld_trigger :
    triggerSettled (settledWorld rabbitBroker) triggerReconciler rabbitBroker deadLetterTrigger.
Proof.
    intros t' Ht. destruct (sameTrigger_deadLetterTrigger t' Ht) as [st ->].
    split; [|split; [|split]].
    - eexists. split; [reflexivity|]. by vm_compute.
    - eexists. reflexivity.
    - intros sub secret b' Hsub _ _. injection Hsub as <-.
      eexists. split; [reflexivity|]. by vm_compute.
    - intros sink' Hsink. injection Hsink as <-.
      split; [|split; [|split]].
      + eexists. split; [reflexivity|]. by vm_compute.
      + eexists. split; [reflexivity|]. by vm_compute.
      + eexists. reflexivity.
      + intros sub secret b' Hsub _ _. injection Hsub as <-.
        eexists. split; [reflexivity|]. by vm_compute.
Qed.

Lemma sameBroker_eq b b' :
    sameBroker b b' -> exists bs, b' = mkBroker (brokerMeta b) (brokerSpec b) bs.
Proof. destruct b' as [m sp bs]. intros [Hm Hs]. cbn in Hm, Hs. subst. by exists bs. Qed.

Lemma settledWorld_ingress b s :
    b = rabbitBroker \/ b = secretBroker true ->
    derive (StringData s)
      (StringData (urlSecret (Namespace (secretMeta s)) (Name (secretMeta s)))) = true ->
    ingressSettled (settledWorld b) brokerReconciler b s.
Proof.
    intros Hb Hs b' Hb'. destruct (sameBroker_eq b b' Hb') as [bs ->].
    split; [|split; [|split]].
    - eexists. split; [reflexivity|done].
    - destruct Hb as [-> | ->]; eexists; (split; [reflexivity|by vm_compute]).
    - destruct Hb as [-> | ->]; eexists; (split; [reflexivity|by vm_compute]).
    - destruct Hb as [-> | ->]; exists notFound; by split.
Qed.

Lemma settledWorld_broker :
    brokerSettled (settledWorld rabbitBroker) brokerReconciler rabbitBroker
      (mkExchangeArgs rabbitBroker None (Some "amqp://rabbit.foobar.svc:5672") "" false).
Proof.
    intros b' Hb'. destruct (sameBroker_eq _ b' Hb') as [bs ->]. cbv zeta.
    split; [|split; [|split; [|split]]].
    - eexists. split; [reflexivity|]. by vm_compute.
    - eexists. split; [reflexivity|]. by vm_compute.
    - eexists. split; [reflexivity|]. by vm_compute.
    - eexists. split; [reflexivity|]. intros binding Hbi. injection Hbi as <-. by vm_compute.
    - apply settledWorld_ingress; [by left|by vm_compute].
Qed.

Lemma settledWorld_standalone :
    standaloneSettled (settledWorld (secretBroker true)) brokerReconciler (secretBroker true)
      (mkExchangeArgs (secretBroker true) None (Some "amqp://rabbit.foobar.svc:5672") ""
         false).
Proof.
    intros b' s Hb' Hs. injection Hs as <-.
    apply settledWorld_ingress; [by right|by vm_compute].
Qed.

  (** C3 on the settled cluster: the run on the Trigger with a dead-letter
      sink, the run on its Broker and the standalone run each go through to
      their last upsert, the read of a dispatcher Deployment, return nil and
      write nothing. *)
Lemma settled_runs_write_nothing :
    (Forall noWrite
       (trace (TriggerReconciler.ReconcileKind (settledWorld rabbitBroker) triggerReconciler)
          deadLetterTrigger)
     /\ returned (TriggerReconciler.ReconcileKind (settledWorld rabbitBroker) triggerReconciler)
          deadLetterTrigger = None
     /\ last (trace (TriggerReconciler.ReconcileKind (settledWorld rabbitBroker)
                       triggerReconciler) deadLetterTrigger)
        = Some (ListerGet KDeployment "foobar" "my-trigger-dispatcher"))
    /\ (Forall noWrite
          (trace (BrokerReconciler.ReconcileKind (settledWorld rabbitBroker) brokerReconciler)
             rabbitBroker)
        /\ returned (BrokerReconciler.ReconcileKind (settledWorld rabbitBroker) brokerReconciler)
             rabbitBroker = None
        /\ last (trace (BrokerReconciler.ReconcileKind (settledWorld rabbitBroker)
                          brokerReconciler) rabbitBroker)
           = Some (ListerGet KDeployment "foobar" "testbroker-dlq-dispatcher"))
    /\ (Forall noWrite
          (trace (BrokerStandalone.ReconcileKind (settledWorld (secretBroker true))
                    brokerReconciler) (secretBroker true))
        /\ returned (BrokerStandalone.ReconcileKind (settledWorld (secretBroker true))
                       brokerReconciler) (secretBroker true) = None
        /\ last (trace (BrokerStandalone.ReconcileKind (settledWorld (secretBroker true))
                          brokerReconciler) (secretBroker true))
           = Some (ListerGet KDeployment "foobar" "testbroker-dlq-dispatcher")).
Proof.
    pose proof (upsert_found_matching_is_no_write (settledWorld rabbitBroker))
      as (_ & _ & _ & _ & _ & _ & _ & _ & _ & Htrigger & Hbroker & _).
    pose proof (upsert_found_matching_is_no_write (settledWorld (secretBroker true)))
      as (_ & _ & _ & _ & _ & _ & _ & _ & _ & _ & _ & Hstandalone).
    split; [|split].
    - split; [|split; vm_compute; reflexivity].
      exact (Htrigger triggerReconciler deadLetterTrigger rabbitBroker eq_refl
               settledWorld_trigger).
    - split; [|split; vm_compute; reflexivity].
      exact (Hbroker brokerReconciler rabbitBroker _ eq_refl settledWorld_broker).
    - split; [|split; vm_compute; reflexivity].
      exact (Hstandalone brokerReconciler (secretBroker true) _ eq_refl
               settledWorld_standalone).
Defined.

End Runs.

(** ** More runs on the concrete cluster *)

Section MoreRuns.
Import Demo.

Lemma missing_broker_run :
    returned (TriggerReconciler.ReconcileKind brokerlessWorld triggerReconciler) plainTrigger
    = None
    /\ trace (TriggerReconciler.ReconcileKind brokerlessWorld triggerReconciler) plainTrigger
       = [Invoke "ReconcileKind"; Log "debug" "Reconciling";
          ListerGet KBroker (Namespace (triggerMeta plainTrigger))
            (specBroker (triggerSpec plainTrigger))].
Proof.
    destruct (trigger_of_missing_broker_returns_nil brokerlessWorld triggerReconciler
                plainTrigger notFound) as (Hret & Htrace & _).
    - reflexivity.
    - reflexivity.
    - split; [exact Hret|exact Htrace].
Defined.

Lemma broker_read_error_run :
    returned (TriggerReconciler.ReconcileKind brokenListerWorld triggerReconciler) plainTrigger
    = Some (Errorf "retrieving broker: " connectionRefused).
Proof.
    destruct (trigger_broker_read_error_is_returned brokenListerWorld triggerReconciler
                plainTrigger connectionRefused) as (Hret & _).
    - reflexivity.
    - reflexivity.
    - exact Hret.
Defined.

Lemma unready_broker_run :
    returned (TriggerReconciler.ReconcileKind (populatedWorld unreadyBroker 2)
                triggerReconciler) plainTrigger = None
    /\ triggerObservedGeneration
         (triggerStatus (final (TriggerReconciler.ReconcileKind (populatedWorld unreadyBroker 2)
                                  triggerReconciler) plainTrigger))
       = Generation (triggerMeta plainTrigger).
Proof.
    destruct (trigger_of_unready_broker_returns_nil (populatedWorld unreadyBroker 2)
                triggerReconciler plainTrigger unreadyBroker) as (Hret & _ & Hgen).
    - reflexivity.
    - reflexivity.
    - vm_compute. reflexivity.
    - split; [exact Hret|exact Hgen].
Defined.

Lemma records_generation_run :
    triggerObservedGeneration
      (triggerStatus (final (TriggerReconciler.ReconcileKind (populatedWorld rabbitBroker 2)
                               triggerReconciler) deadLetterTrigger))
    = Generation (triggerMeta deadLetterTrigger).
Proof.
    apply (trigger_run_records_generation (populatedWorld rabbitBroker 2) triggerReconciler
             deadLetterTrigger rabbitBroker).
    - reflexivity.
    - reflexivity.
Defined.

Lemma lister_error_is_passed_on_run :
    TriggerReconciler.reconcileQueue brokenStoresWorld rabbitBroker plainTrigger =
      ([Invoke "reconcileQueue";
        ListerGet KQueue (Namespace (brokerMeta rabbitBroker))
          (CreateTriggerQueueName plainTrigger)],
       Err connectionRefused).
Proof.
    destruct (trigger_upsert_passes_on_lister_error brokenStoresWorld rabbitBroker
                plainTrigger connectionRefused) as (_ & Hq & _).
    - reflexivity.
    - apply Hq. reflexivity.
Defined.

Lemma missing_queue_is_created_run :
    TriggerReconciler.reconcileQueue (emptyWorld rabbitBroker) rabbitBroker plainTrigger =
      ([Invoke "reconcileQueue";
        ListerGet KQueue (Namespace (brokerMeta rabbitBroker))
          (CreateTriggerQueueName plainTrigger);
        Log "debug" "Creating rabbitmq queue";
        ClientCreate KQueue (Namespace (brokerMeta rabbitBroker))
          (Name (queueMeta (NewQueue rabbitBroker (Some plainTrigger))))],
       create (queues (emptyWorld rabbitBroker)) (Namespace (brokerMeta rabbitBroker))
         (NewQueue rabbitBroker (Some plainTrigger))).
Proof.
    destruct (trigger_upsert_creates_what_is_missing (emptyWorld rabbitBroker) rabbitBroker
                plainTrigger notFound) as (_ & Hq & _).
    - reflexivity.
    - apply Hq. reflexivity.
Defined.

Lemma service_cluster_ip_is_ignored_run :
    BrokerCommon.reconcileService (populatedWorld rabbitBroker 2)
      (BrokerCommon.withServiceSpec otherPortService
         (BrokerCommon.withClusterIP (serviceSpec otherPortService) "10.9.9.9"))
    = BrokerCommon.reconcileService (populatedWorld rabbitBroker 2) otherPortService.
Proof.
    apply (reconcileService_ignores_desired_cluster_ip (populatedWorld rabbitBroker 2)
             otherPortService (aService "foobar" "testbroker-broker-ingress")).
    reflexivity.
Defined.

Lemma service_update_keeps_cluster_ip_run :
    BrokerCommon.reconcileService (populatedWorld rabbitBroker 2) otherPortService =
      ([Invoke "reconcileService";
        ListerGet KService "foobar" "testbroker-broker-ingress";
        ClientUpdate KService "foobar" "testbroker-broker-ingress";
        ListerGet KEndpoints "foobar" "testbroker-broker-ingress"],
       Ok (someEndpoints "foobar" "testbroker-broker-ingress")).
Proof.
    apply (reconcileService_update_keeps_cluster_ip (populatedWorld rabbitBroker 2)
             otherPortService (aService "foobar" "testbroker-broker-ingress")).
    - reflexivity.
    - vm_compute. reflexivity.
Defined.

Lemma isReady_swap :
    isReady [mkCondition "Ready" ConditionTrue "" ""; mkCondition "Synced" ConditionFalse "" ""]
    = isReady [mkCondition "Synced" ConditionFalse "" ""; mkCondition "Ready" ConditionTrue "" ""].
Proof. apply isReady_permutation. apply perm_swap. Defined.

Lemma standalone_refuses_run :
    returned (BrokerStandalone.ReconcileKind (populatedWorld rabbitBroker 2) brokerReconciler)
      rabbitBroker = Some (errorsNew "WON'T GO").
Proof.
    destruct (standalone_refuses_operator_broker (populatedWorld rabbitBroker 2)
                brokerReconciler rabbitBroker) as (_ & Hret).
    - reflexivity.
    - apply Hret.
Defined.

Lemma bad_annotation_run :
    errMsg <$> returned (TriggerReconciler.ReconcileKind (populatedWorld rabbitBroker 2)
                           triggerReconciler) badAnnotationTrigger
    = Some ("getting object ref from dependency annotation "
            +:+ doubleQuote +:+ "{" +:+ String backslash doubleQuote +:+ "kind"
            +:+ String backslash doubleQuote +:+ doubleQuote
            +:+ ": unexpected end of JSON input").
Proof.
    destruct (dependency_errors_are_returned (populatedWorld rabbitBroker 2) triggerReconciler
                badAnnotationTrigger rabbitBroker brokenAnnotation) as (Hparse & _).
    - reflexivity.
    - reflexivity.
    - vm_compute. reflexivity.
    - vm_compute. reflexivity.
    - destruct (Hparse (errorsNew "unexpected end of JSON input")) as (Hret & _).
      + vm_compute. repeat constructor.
      + reflexivity.
      + rewrite Hret. vm_compute. reflexivity.
Defined.

Lemma replicas_are_not_reconciled_run :
    derive (deploymentSpec scaledDeployment)
      (deploymentSpec (aDeployment "foobar" "my-trigger-dispatcher")) = false
    /\ TriggerReconciler.reconcileDeployment (populatedWorld rabbitBroker 2) scaledDeployment =
         ([Invoke "reconcileDeployment";
           ListerGet KDeployment (Namespace (deploymentMeta scaledDeployment))
             (Name (deploymentMeta scaledDeployment))],
          Ok (aDeployment "foobar" "my-trigger-dispatcher")).
Proof.
    split; [vm_compute; reflexivity|].
    destruct (trigger_upsert_updates_observed_object (populatedWorld rabbitBroker 2)
                rabbitBroker plainTrigger) as (_ & _ & _ & Hsame).
    apply Hsame; [reflexivity|vm_compute; reflexivity].
Defined.

Lemma first_run_waits_for_queue_run :
    returned (TriggerReconciler.ReconcileKind (emptyWorld rabbitBroker) triggerReconciler)
      plainTrigger = None
    /\ kReason <$> TS.GetCondition
         (triggerStatus (final (TriggerReconciler.ReconcileKind (emptyWorld rabbitBroker)
                                  triggerReconciler) plainTrigger))
         TriggerConditionDependency = Some "QueueFailure".
Proof.
    destruct (first_run_creates_queue_and_waits (emptyWorld rabbitBroker) triggerReconciler
                plainTrigger rabbitBroker notFound) as (Hret & _ & _ & Hreason).
    - reflexivity.
    - reflexivity.
    - vm_compute. reflexivity.
    - reflexivity.
    - vm_compute. reflexivity.
    - reflexivity.
    - reflexivity.
    - intros ts. reflexivity.
    - intros ts. eexists. split; reflexivity.
    - split; [exact Hret|exact Hreason].
Defined.

Lemma broker_waits_for_exchange_run :
    returned (BrokerReconciler.ReconcileKind (emptyWorld rabbitBroker) brokerReconciler)
      rabbitBroker = None.
Proof.
    destruct (broker_run_stops_at_unready_exchange (emptyWorld rabbitBroker) brokerReconciler
                rabbitBroker
                (mkExchangeArgs rabbitBroker None (Some "amqp://rabbit.foobar.svc:5672") ""
                   false)) as (_ & Hnr).
    - reflexivity.
    - reflexivity.
    - destruct (Hnr (NewExchange
                       (BrokerReconciler.pointingTo
                          (BrokerReconciler.withRabbitMQCluster
                             (mkExchangeArgs rabbitBroker None
                                (Some "amqp://rabbit.foobar.svc:5672") "" false)
                             (configName rabbitBroker)) rabbitBroker))) as (Hret & _).
      + reflexivity.
      + reflexivity.
      + exact Hret.
Defined.

End MoreRuns.
